(** * FreeCAD-Ribbon: the [ModernMenu] binding of [FCBinding.py]

    A shallow embedding of [src/FCBinding.py].  The Python class
    [ModernMenu] drives three kinds of objects:

    - the parsed [RibbonStructure.json] (a JSON value, read with Python's
      subscript, [in], iteration, [list.index] and [list.remove]);
    - the host application (workbenches, tool bars with their tool buttons,
      actions, commands, user parameters);
    - the ribbon widget it extends (tab bar, categories, panels, buttons).

    Python exceptions are values of [exn]; a method is a function from the
    state to the state it leaves behind together with [Ok] or [Raise].
    Objects that Python shares by reference and mutates (the actions) live
    in a store keyed by object identity.

    What the embedding leaves to the host: signal delivery (every slot is
    an entry point of its own), and calls that only change geometry, fonts,
    style sheets or tab icons. *)

From Stdlib Require Import ZArith String Ascii List Bool Lia Sorted.
From stdpp Require Import base option list gmap strings.
Import ListNotations.

Set Warnings "-register-all".

Local Open Scope string_scope.
Local Open Scope list_scope.

(** ** Python exceptions and results *)

Inductive exn : Type :=
| KeyError
| IndexError
| TypeError
| ValueError
| AttributeError
| NotImplementedError
| OSError
| RuntimeError.

Inductive result (A : Type) : Type :=
| Ok (a : A)
| Raise (e : exn).

Arguments Ok {A} a.
Arguments Raise {A} e.

Definition is_ok {A} (r : result A) : bool :=
  match r with Ok _ => true | Raise _ => false end.

Definition exn_eqb (a b : exn) : bool :=
  match a, b with
  | KeyError, KeyError | IndexError, IndexError | TypeError, TypeError
  | ValueError, ValueError | AttributeError, AttributeError
  | NotImplementedError, NotImplementedError | OSError, OSError
  | RuntimeError, RuntimeError => true
  | _, _ => false
  end.

(** [r1 >>= f] on results: the first exception wins. *)
Definition rbind {A B} (r : result A) (f : A -> result B) : result B :=
  match r with Ok a => f a | Raise e => Raise e end.

(** ** A state-and-exception monad

    [M S A] is a Python method body working on a mutable state [S]: the
    state survives an exception, as Python leaves every mutation made
    before the [raise] in place. *)

Definition M (S A : Type) : Type := S -> S * result A.

Definition ret {S A} (a : A) : M S A := fun s => (s, Ok a).

Definition raise {S A} (e : exn) : M S A := fun s => (s, Raise e).

Definition bind {S A B} (m : M S A) (k : A -> M S B) : M S B :=
  fun s => match m s with
           | (s', Ok a) => k a s'
           | (s', Raise e) => (s', Raise e)
           end.

Definition get {S} : M S S := fun s => (s, Ok s).

Definition gets {S A} (f : S -> A) : M S A := fun s => (s, Ok (f s)).

Definition modify {S} (f : S -> S) : M S unit := fun s => (f s, Ok tt).

Definition put {S} (s : S) : M S unit := fun _ => (s, Ok tt).

Definition lift {S A} (r : result A) : M S A := fun s => (s, r).

(** [try: m except e: h] for one exception class. *)
Definition catch {S A} (m : M S A) (e : exn) (h : M S A) : M S A :=
  fun s => match m s with
           | (s', Raise e') => if exn_eqb e e' then h s' else (s', Raise e')
           | r => r
           end.

(** [try: m except Exception: h]. *)
Definition catch_all {S A} (m : M S A) (h : M S A) : M S A :=
  fun s => match m s with
           | (s', Raise _) => h s'
           | r => r
           end.

Declare Scope py_scope.
Delimit Scope py_scope with py.

Notation "x <- m ;; k" := (bind m (fun x => k))
  (at level 100, m at next level, right associativity) : py_scope.
Notation "m ;;; k" := (bind m (fun _ => k))
  (at level 100, right associativity) : py_scope.
Notation "x <~ r ;; k" := (rbind r (fun x => k))
  (at level 100, r at next level, right associativity) : py_scope.

Local Open Scope py_scope.

(** [for x in l: body x]. *)
Fixpoint for_each {S A} (l : list A) (body : A -> M S unit) : M S unit :=
  match l with
  | [] => ret tt
  | x :: l' => bind (body x) (fun _ => for_each l' body)
  end.

(** ** Python strings *)

Module Py.

Fixpoint startswith (p s : string) : bool :=
  match p, s with
  | EmptyString, _ => true
  | String a p', String b s' => if Ascii.eqb a b then startswith p' s' else false
  | String _ _, EmptyString => false
  end.

(** [s.endswith(suf)]: [suf] is [s] or a suffix of its tail. *)
Fixpoint endswith (suf s : string) : bool :=
  match s with
  | EmptyString => String.eqb suf EmptyString
  | String _ s' => String.eqb suf s || endswith suf s'
  end.

(** [sub in s] for strings. *)
Fixpoint contains (sub s : string) : bool :=
  startswith sub s
  || match s with
     | EmptyString => false
     | String _ s' => contains sub s'
     end.

(** [s.index(sub)], [None] where Python raises [ValueError]. *)
Fixpoint find (sub s : string) : option nat :=
  if startswith sub s then Some 0
  else match s with
       | EmptyString => None
       | String _ s' => option_map S (find sub s')
       end.

(** [s.replace(old, new)] for a non-empty [old] (the source only replaces
    ["&"] and ["_custom"]): left to right, occurrences do not overlap;
    [skip] counts the characters of a matched [old] still to be dropped. *)
Fixpoint replace_from (old new : string) (skip : nat) (s : string) : string :=
  match s with
  | EmptyString => EmptyString
  | String c s' =>
      match skip with
      | S k => replace_from old new k s'
      | O =>
          if startswith old s
          then new ++ replace_from old new (String.length old - 1) s'
          else String c (replace_from old new 0 s')
      end
  end.

Definition replace (old new s : string) : string := replace_from old new 0 s.

(** [s.split(sep)] for a one-character separator. *)
Fixpoint split (sep : ascii) (s : string) : list string :=
  match s with
  | EmptyString => [EmptyString]
  | String c s' =>
      if Ascii.eqb c sep then EmptyString :: split sep s'
      else match split sep s' with
           | w :: ws => String c w :: ws
           | [] => [String c EmptyString]
           end
  end.

(** [os.path.join(a, b)] on POSIX paths. *)
Definition path_join (a b : string) : string :=
  if startswith "/" b then b
  else if String.eqb a "" || endswith "/" a then a ++ b
  else a ++ "/" ++ b.

(** The characters of a string, as Python iterates over it. *)
Fixpoint chars (s : string) : list string :=
  match s with
  | EmptyString => []
  | String c s' => String c EmptyString :: chars s'
  end.

(** [l.sort(key=...)]: Python's sort is stable; the keys are integers.
    [insert_by] puts an element in front of a sorted list of elements that
    came after it, hence in front of those with an equal key. *)
Fixpoint insert_by {A} (key : A -> Z) (x : A) (l : list A) : list A :=
  match l with
  | [] => [x]
  | y :: l' => if (key x <=? key y)%Z then x :: y :: l'
               else y :: insert_by key x l'
  end.

Definition sort_by {A} (key : A -> Z) (l : list A) : list A :=
  fold_right (insert_by key) [] l.

End Py.

(** ** JSON values, read the way Python reads them

    [json.load] gives [None], [bool], [int], [str], [list] and [dict];
    numbers with a fraction are outside the embedding.  A [dict] keeps the
    order of the file and is an association list read at its first match. *)

Inductive JSON : Type :=
| JNull
| JBool (b : bool)
| JNum (n : Z)
| JStr (s : string)
| JArr (l : list JSON)
| JObj (kv : list (string * JSON)).

Fixpoint assoc {A} (k : string) (kv : list (string * A)) : option A :=
  match kv with
  | [] => None
  | (k', v) :: kv' => if String.eqb k k' then Some v else assoc k kv'
  end.

(** Python's [==] on these values: [True == 1], lists compare element by
    element, dicts compare as maps. *)
Fixpoint py_eq (x y : JSON) : bool :=
  match x, y with
  | JNull, JNull => true
  | JBool a, JBool b => Bool.eqb a b
  | JBool a, JNum n => Z.eqb (Z.b2z a) n
  | JNum n, JBool a => Z.eqb n (Z.b2z a)
  | JNum a, JNum b => Z.eqb a b
  | JStr a, JStr b => String.eqb a b
  | JArr a, JArr b =>
      (fix go (a b : list JSON) : bool :=
         match a, b with
         | [], [] => true
         | u :: a', v :: b' => py_eq u v && go a' b'
         | _, _ => false
         end) a b
  | JObj a, JObj b =>
      Nat.eqb (length a) (length b)
      && (fix go (a : list (string * JSON)) : bool :=
            match a with
            | [] => true
            | (k, u) :: a' =>
                match assoc k b with
                | Some v => py_eq u v && go a'
                | None => false
                end
            end) a
  | _, _ => false
  end.

(** Values Python refuses as dict keys. *)
Definition unhashable (x : JSON) : bool :=
  match x with JArr _ | JObj _ => true | _ => false end.

(** A value used as a sequence index: [int], or [bool] as [0]/[1]. *)
Definition as_index (x : JSON) : option Z :=
  match x with
  | JNum n => Some n
  | JBool b => Some (Z.b2z b)
  | _ => None
  end.

(** [l[i]] with Python's negative indices. *)
Definition seq_at {A} (l : list A) (i : Z) : result A :=
  let n := Z.of_nat (length l) in
  let j := if (i <? 0)%Z then (i + n)%Z else i in
  if ((0 <=? j) && (j <? n))%Z
  then match nth_error l (Z.to_nat j) with
       | Some a => Ok a
       | None => Raise IndexError
       end
  else Raise IndexError.

(** [v[k]]. *)
Definition py_getitem (v k : JSON) : result JSON :=
  match v with
  | JObj kv =>
      match k with
      | JStr s => match assoc s kv with
                  | Some x => Ok x
                  | None => Raise KeyError
                  end
      | _ => if unhashable k then Raise TypeError else Raise KeyError
      end
  | JArr l =>
      match as_index k with
      | Some i => seq_at l i
      | None => Raise TypeError
      end
  | JStr s =>
      match as_index k with
      | Some i => rbind (seq_at (Py.chars s) i) (fun c => Ok (JStr c))
      | None => Raise TypeError
      end
  | _ => Raise TypeError
  end.

(** [v[k1][k2]...[kn]], left to right. *)
Fixpoint py_path (v : JSON) (ks : list JSON) : result JSON :=
  match ks with
  | [] => Ok v
  | k :: ks' => rbind (py_getitem v k) (fun v' => py_path v' ks')
  end.

(** [for x in v]. *)
Definition py_iter (v : JSON) : result (list JSON) :=
  match v with
  | JArr l => Ok l
  | JObj kv => Ok (map (fun p => JStr (fst p)) kv)
  | JStr s => Ok (map JStr (Py.chars s))
  | _ => Raise TypeError
  end.

(** [v.items()]: only a dict has it. *)
Definition py_items (v : JSON) : result (list (string * JSON)) :=
  match v with
  | JObj kv => Ok kv
  | _ => Raise AttributeError
  end.

(** [x in v]. *)
Definition py_contains (v x : JSON) : result bool :=
  match v with
  | JArr l => Ok (existsb (py_eq x) l)
  | JObj kv =>
      match x with
      | JStr s => Ok (match assoc s kv with Some _ => true | None => false end)
      | _ => if unhashable x then Raise TypeError else Ok false
      end
  | JStr s =>
      match x with
      | JStr sub => Ok (Py.contains sub s)
      | _ => Raise TypeError
      end
  | _ => Raise TypeError
  end.

Fixpoint list_index (x : JSON) (l : list JSON) : option nat :=
  match l with
  | [] => None
  | y :: l' => if py_eq y x then Some 0 else option_map S (list_index x l')
  end.

(** [v.index(x)]. *)
Definition py_index (v x : JSON) : result Z :=
  match v with
  | JArr l =>
      match list_index x l with
      | Some i => Ok (Z.of_nat i)
      | None => Raise ValueError
      end
  | JStr s =>
      match x with
      | JStr sub => match Py.find sub s with
                    | Some i => Ok (Z.of_nat i)
                    | None => Raise ValueError
                    end
      | _ => Raise TypeError
      end
  | _ => Raise AttributeError
  end.

(** [l.remove(x)]: drops the first element equal to [x]. *)
Fixpoint py_remove (x : JSON) (l : list JSON) : result (list JSON) :=
  match l with
  | [] => Raise ValueError
  | y :: l' =>
      if py_eq y x then Ok l'
      else rbind (py_remove x l') (fun r => Ok (y :: r))
  end.

(** ** The host application

    What [FreeCADGui], [FreeCAD] and the main window [mw] answer.  A
    [QAction] is named by its identity (a [nat]) and kept in the store
    [actions]; a tool button refers to its default action by identity, so
    two buttons can share one action.  What [button.text()] answers is the
    toolkit's business: [button_text] gives it for the current state of
    the actions, so that a host in which a button shows the text of its
    action and a host in which it keeps its own are both covered. *)

Definition Icon : Type := string.

Record Action : Type := {
  act_data : option string;      (* action.data(), [None] when unset *)
  act_text : string;             (* action.text() *)
  act_icon : option Icon;        (* action.icon() *)
}.

Record ToolButton : Type := {
  own_text : string;                 (* the text given to the button itself *)
  btn_defaultAction : option nat;    (* button.defaultAction() *)
  btn_menu : option nat;             (* button.menu() *)
}.

Record ToolBar : Type := {
  objectName : string;
  tb_hidden : bool;
  tb_buttons : list ToolButton;      (* findChildren(QToolButton) *)
}.

Record Workbench : Type := {
  wb_name : string;              (* its key in Gui.listWorkbenches(), name() *)
  MenuText : string;
  has_Workbench : bool;          (* hasattr(workbench, "__Workbench__") *)
  listToolbars : list string;
}.

Record Command : Type := {
  cmd_name : string;
  cmd_menuText : string;         (* getInfo()["menuText"] *)
  cmd_pixmap : string;           (* getInfo()["pixmap"] *)
  cmd_actions : list nat;        (* getAction() *)
}.

Record Host : Type := {
  workbenches : list Workbench;                   (* Gui.listWorkbenches() *)
  active : Workbench;                             (* Gui.activeWorkbench() *)
  toolbars : list ToolBar;                        (* mw.findChildren(QToolBar) *)
  actions : gmap nat Action;
  button_text : gmap nat Action -> ToolButton -> string;
                                                  (* button.text(): the toolkit
                                                     may take it from the
                                                     button's action *)
  commands : list Command;                        (* Gui.listCommands() *)
  param_groups : list (string * list string);     (* ParamGet(p).GetGroups() *)
  param_strings : list (string * list (string * string));
                                                  (* ParamGet(p).GetString(k) *)
  module_dir : string;                            (* os.path.dirname(__file__) *)
  json_files : list (string * result JSON);       (* json.load(open(path)) *)
}.

Definition GetGroups (h : Host) (path : string) : list string :=
  match assoc path (param_groups h) with
  | Some gs => gs
  | None => []
  end.

Definition GetString (h : Host) (path key : string) : string :=
  match assoc path (param_strings h) with
  | Some kv => match assoc key kv with Some v => v | None => "" end
  | None => ""
  end.

(** [mw.findChildren(QToolBar, name)]. *)
Definition findChildren (h : Host) (name : string) : list ToolBar :=
  List.filter (fun tb => String.eqb (objectName tb) name) (toolbars h).

(** [mw.findChild(QToolBar, name)]. *)
Definition findChild (h : Host) (name : string) : option ToolBar :=
  head (findChildren h name).

(** [Gui.Command.get(name)]. *)
Definition Command_get (h : Host) (name : string) : option Command :=
  List.find (fun c => String.eqb (cmd_name c) name) (commands h).

Definition find_workbench (h : Host) (name : string) : option Workbench :=
  List.find (fun w => String.eqb (wb_name w) name) (workbenches h).

Definition set_active (w : Workbench) (h : Host) : Host :=
  {| workbenches := workbenches h; active := w; toolbars := toolbars h;
     actions := actions h; button_text := button_text h;
     commands := commands h;
     param_groups := param_groups h; param_strings := param_strings h;
     module_dir := module_dir h; json_files := json_files h |}.

Definition set_toolbars (tbs : list ToolBar) (h : Host) : Host :=
  {| workbenches := workbenches h; active := active h; toolbars := tbs;
     actions := actions h; button_text := button_text h;
     commands := commands h;
     param_groups := param_groups h; param_strings := param_strings h;
     module_dir := module_dir h; json_files := json_files h |}.

Definition set_actions (a : gmap nat Action) (h : Host) : Host :=
  {| workbenches := workbenches h; active := active h; toolbars := toolbars h;
     actions := a; button_text := button_text h; commands := commands h;
     param_groups := param_groups h; param_strings := param_strings h;
     module_dir := module_dir h; json_files := json_files h |}.

(** The module-level [QTimer]. *)
Inductive Slot : Type := Slot_onWbActivated.

Record Timer : Type := {
  timeout_slots : list Slot;     (* timer.timeout.connect(...) *)
  singleShot : bool;
  started : option Z;            (* timer.start(msec) *)
}.

(** Calls that leave this module: their effect is the callee's. *)
Inductive Call : Type :=
| Call_activateWorkbench (name : string)
| Call_loadFile (path : string)
| Call_LoadDesign_main
| Call_LoadSettings_main.

(** ** The ribbon widget *)

Inductive ButtonSize : Type := Small | Medium | Large.

Record RibbonButton : Type := {
  rb_size : ButtonSize;              (* addSmall/Medium/LargeButton *)
  rb_text : string;
  rb_icon : option Icon;
  rb_defaultAction : nat;            (* btn.setDefaultAction(action) *)
  rb_menu : option nat;              (* btn.setMenu(button.menu()) *)
}.

Record Panel : Type := {
  title : string;
  buttons : list RibbonButton;
}.

Record ModernMenu : Type := {
  ribbonStructure : JSON;                    (* [JNull] is Python's None *)
  wbNameMapping : gmap string string;
  isWbLoaded : gmap string bool;
  MainWindowLoaded : bool;
  tabs : list string;                        (* tabBar(): the tab texts *)
  currentIndex : Z;                          (* tabBar().currentIndex() *)
  categories : list (string * list Panel);   (* categories(), by title *)
  quickAccess : list nat;                    (* default actions of the
                                                quick access buttons *)
  signalsConnected : bool;
}.

Record State : Type := {
  host : Host;
  menu : ModernMenu;
  timer : Timer;
  calls : list Call;
}.

Definition with_host (f : Host -> Host) (st : State) : State :=
  {| host := f (host st); menu := menu st; timer := timer st;
     calls := calls st |}.

Definition with_menu (f : ModernMenu -> ModernMenu) (st : State) : State :=
  {| host := host st; menu := f (menu st); timer := timer st;
     calls := calls st |}.

Definition with_timer (f : Timer -> Timer) (st : State) : State :=
  {| host := host st; menu := menu st; timer := f (timer st);
     calls := calls st |}.

Definition log_call (c : Call) (st : State) : State :=
  {| host := host st; menu := menu st; timer := timer st;
     calls := calls st ++ [c] |}.

Definition set_ribbonStructure (rs : JSON) (m : ModernMenu) : ModernMenu :=
  {| ribbonStructure := rs; wbNameMapping := wbNameMapping m;
     isWbLoaded := isWbLoaded m; MainWindowLoaded := MainWindowLoaded m;
     tabs := tabs m; currentIndex := currentIndex m;
     categories := categories m; quickAccess := quickAccess m;
     signalsConnected := signalsConnected m |}.

Definition set_wbNameMapping (x : gmap string string) (m : ModernMenu) : ModernMenu :=
  {| ribbonStructure := ribbonStructure m; wbNameMapping := x;
     isWbLoaded := isWbLoaded m; MainWindowLoaded := MainWindowLoaded m;
     tabs := tabs m; currentIndex := currentIndex m;
     categories := categories m; quickAccess := quickAccess m;
     signalsConnected := signalsConnected m |}.

Definition set_isWbLoaded (x : gmap string bool) (m : ModernMenu) : ModernMenu :=
  {| ribbonStructure := ribbonStructure m; wbNameMapping := wbNameMapping m;
     isWbLoaded := x; MainWindowLoaded := MainWindowLoaded m;
     tabs := tabs m; currentIndex := currentIndex m;
     categories := categories m; quickAccess := quickAccess m;
     signalsConnected := signalsConnected m |}.

Definition set_MainWindowLoaded (b : bool) (m : ModernMenu) : ModernMenu :=
  {| ribbonStructure := ribbonStructure m; wbNameMapping := wbNameMapping m;
     isWbLoaded := isWbLoaded m; MainWindowLoaded := b;
     tabs := tabs m; currentIndex := currentIndex m;
     categories := categories m; quickAccess := quickAccess m;
     signalsConnected := signalsConnected m |}.

Definition set_tabBar (ts : list string) (i : Z) (m : ModernMenu) : ModernMenu :=
  {| ribbonStructure := ribbonStructure m; wbNameMapping := wbNameMapping m;
     isWbLoaded := isWbLoaded m; MainWindowLoaded := MainWindowLoaded m;
     tabs := ts; currentIndex := i;
     categories := categories m; quickAccess := quickAccess m;
     signalsConnected := signalsConnected m |}.

Definition set_categories (cs : list (string * list Panel)) (m : ModernMenu) : ModernMenu :=
  {| ribbonStructure := ribbonStructure m; wbNameMapping := wbNameMapping m;
     isWbLoaded := isWbLoaded m; MainWindowLoaded := MainWindowLoaded m;
     tabs := tabs m; currentIndex := currentIndex m;
     categories := cs; quickAccess := quickAccess m;
     signalsConnected := signalsConnected m |}.

Definition set_quickAccess (q : list nat) (m : ModernMenu) : ModernMenu :=
  {| ribbonStructure := ribbonStructure m; wbNameMapping := wbNameMapping m;
     isWbLoaded := isWbLoaded m; MainWindowLoaded := MainWindowLoaded m;
     tabs := tabs m; currentIndex := currentIndex m;
     categories := categories m; quickAccess := q;
     signalsConnected := signalsConnected m |}.

Definition set_signalsConnected (b : bool) (m : ModernMenu) : ModernMenu :=
  {| ribbonStructure := ribbonStructure m; wbNameMapping := wbNameMapping m;
     isWbLoaded := isWbLoaded m; MainWindowLoaded := MainWindowLoaded m;
     tabs := tabs m; currentIndex := currentIndex m;
     categories := categories m; quickAccess := quickAccess m;
     signalsConnected := b |}.

(** *** The tab bar ([QTabBar] and pyqtribbon's [RibbonTabBar]) *)

(** [tabBar().tabText(i)]: the empty string outside the tabs. *)
Definition tabText (m : ModernMenu) (i : Z) : string :=
  if (i <? 0)%Z then ""
  else match nth_error (tabs m) (Z.to_nat i) with
       | Some t => t
       | None => ""
       end.

Fixpoint index_of (t : string) (l : list string) : option nat :=
  match l with
  | [] => None
  | x :: l' => if String.eqb x t then Some 0 else option_map S (index_of t l')
  end.

(** [tabBar().indexOf(text)]: the first tab with this text, or [-1]. *)
Definition indexOf (m : ModernMenu) (t : string) : Z :=
  match index_of t (tabs m) with
  | Some i => Z.of_nat i
  | None => (-1)%Z
  end.

(** [tabBar().setCurrentIndex(i)]: an index outside the tabs is ignored. *)
Definition setCurrentIndex (i : Z) (m : ModernMenu) : ModernMenu :=
  if ((0 <=? i) && (i <? Z.of_nat (length (tabs m))))%Z
  then set_tabBar (tabs m) i m
  else m.

(** [tabBar().addTab(text)]: the first tab added becomes the current one.
    The signal [currentChanged] that the tab bar emits then is not
    delivered here: what its slot [onUserChangedWorkbench] does is stated
    for the slot, and the properties of [createModernMenu] below are about
    what the slot leaves alone: the tabs, the titles of the categories,
    [wbNameMapping], the keys of [isWbLoaded] and the quick access
    buttons. *)
Definition addTab (t : string) (m : ModernMenu) : ModernMenu :=
  set_tabBar (tabs m ++ [t])
             (match tabs m with [] => 0%Z | _ => currentIndex m end) m.

(** [addCategory(title)]: pyqtribbon keeps the categories in a dict by
    title and refuses a title it already has. *)
Definition addCategory (t : string) : M ModernMenu unit :=
  fun m =>
    match assoc t (categories m) with
    | Some _ => (m, Raise ValueError)
    | None => (addTab t (set_categories (categories m ++ [(t, [])]) m), Ok tt)
    end.

(** [currentCategory()]: the category whose title is the current tab's
    text; [KeyError] when there is none. *)
Definition currentCategory (m : ModernMenu) : result (list Panel) :=
  match assoc (tabText m (currentIndex m)) (categories m) with
  | Some ps => Ok ps
  | None => Raise KeyError
  end.

Fixpoint assoc_set {A} (k : string) (v : A) (kv : list (string * A)) : list (string * A) :=
  match kv with
  | [] => []
  | (k', v') :: kv' =>
      if String.eqb k k' then (k', v) :: kv' else (k', v') :: assoc_set k v kv'
  end.

(** ** [ModernMenu]: construction of the tabs *)

Definition on_menu {A} (m : M ModernMenu A) : M State A :=
  fun st =>
    match m (menu st) with
    | (mm, r) => (with_menu (fun _ => mm) st, r)
    end.

Definition connectSignals : M State unit :=
  modify (with_menu (set_signalsConnected true)).

Definition disconnectSignals : M State unit :=
  modify (with_menu (set_signalsConnected false)).

(** One round of the quick access loop of [createModernMenu]:
    [Gui.Command.get(commandName).getAction()[0]] becomes the default
    action of a new quick access button. *)
Definition addQuickAccess (h : Host) (commandName : JSON) : M ModernMenu unit :=
  match commandName with
  | JStr n =>
      match Command_get h n with
      | None => raise AttributeError
      | Some c =>
          match cmd_actions c with
          | [] => raise IndexError
          | a :: _ => modify (fun m => set_quickAccess (quickAccess m ++ [a]) m)
          end
      end
  | _ => raise TypeError
  end.

(** The body of the inner loop of [createModernMenu], for the workbench
    [workbench] met while looking for the name [ordered]. *)
Definition addWorkbenchTab (rs : JSON) (ordered : string) (workbench : Workbench)
  : M ModernMenu unit :=
  let workbenchName := wb_name workbench in
  if String.eqb workbenchName ordered then
    skip <- (if String.eqb workbenchName "" then ret true
             else lift (ig <~ py_getitem rs (JStr "ignoredWorkbenches") ;;
                        py_contains ig (JStr (MenuText workbench)))) ;;
    if (skip : bool) then ret tt
    else
      let name := MenuText workbench in
      modify (fun m => set_wbNameMapping (<[name := workbenchName]> (wbNameMapping m)) m) ;;;
      modify (fun m => set_isWbLoaded (<[name := false]> (isWbLoaded m)) m) ;;;
      addCategory name
  else ret tt.

Definition WorkbenchOrderParam : string :=
  "User parameter:BaseApp/Preferences/Workbenches/".

Definition WorkbenchOrderedList (h : Host) : list string :=
  Py.split "," (GetString h WorkbenchOrderParam "Ordered").

(** [createModernMenu]: the quick access buttons, then one category per
    workbench of the ordered list.  The help, pin and application buttons
    and the file menu that follow hold no state of the claims. *)
Definition createModernMenu : M State unit :=
  fun st =>
    let h := host st in
    let rs := ribbonStructure (menu st) in
    on_menu
      (names <- lift (q <~ py_getitem rs (JStr "quickAccessCommands") ;; py_iter q) ;;
       for_each names (addQuickAccess h) ;;;
       for_each (WorkbenchOrderedList h) (fun ordered =>
         for_each (workbenches h) (addWorkbenchTab rs ordered)))
      st.

(** ** [ModernMenu]: the slots *)

Definition loadDesignMenu : M State unit := modify (log_call Call_LoadDesign_main).

Definition loadSettingsMenu : M State unit := modify (log_call Call_LoadSettings_main).

(** [Gui.activateWorkbench(name)]: the host raises [KeyError] for a name it
    does not know. *)
Definition activateWorkbench (name : string) : M State unit :=
  modify (log_call (Call_activateWorkbench name)) ;;;
  h <- gets host ;;
  match find_workbench h name with
  | Some w => modify (with_host (set_active w))
  | None => raise KeyError
  end.

Definition updateCurrentTab : M State unit :=
  fun st =>
    let currentWbIndex := indexOf (menu st) (MenuText (active (host st))) in
    let currentTabIndex := currentIndex (menu st) in
    if negb (currentWbIndex =? currentTabIndex)%Z
    then (disconnectSignals ;;;
          modify (with_menu (setCurrentIndex currentWbIndex)) ;;;
          connectSignals) st
    else (st, Ok tt).

Definition classicToolbarKept (name : string) : bool :=
  existsb (String.eqb name) [""; "draft_status_scale_widget"; "draft_snap_widget"].

Definition hide (tb : ToolBar) : ToolBar :=
  {| objectName := objectName tb; tb_hidden := true; tb_buttons := tb_buttons tb |}.

Definition hideClassicToolbars : M State unit :=
  modify (with_host (fun h =>
    set_toolbars
      (map (fun toolbar =>
              if negb (classicToolbarKept (objectName toolbar))
              then hide toolbar else toolbar)
           (toolbars h)) h)).

(** [timer.timeout.connect(self.onWbActivated); timer.setSingleShot(True);
    timer.start(100)]. *)
Definition retryLater (t : Timer) : Timer :=
  {| timeout_slots := timeout_slots t ++ [Slot_onWbActivated];
     singleShot := true;
     started := Some 100%Z |}.

(** ** [buildPanels]: the list of tool bars *)

Definition customToolbarPath (WorkBenchName : string) : string :=
  "User parameter:BaseApp/Workbench/" ++ WorkBenchName ++ "/Toolbar".

(** [List_ReturnCustomToolbars]: the pairs [[Name, WorkBenchName]] of the
    tool bars users made in the host's tool bar dialog. *)
Definition List_ReturnCustomToolbars (h : Host) : list (string * string) :=
  flat_map
    (fun w =>
       let WorkBenchName := wb_name w in
       (* str(WorkBenchName) != "" or WorkBenchName is not None *)
       if negb (String.eqb WorkBenchName "") || true then
         if negb (String.eqb WorkBenchName "NoneWorkbench") then
           map (fun Group =>
                  (GetString h (customToolbarPath WorkBenchName ++ "/" ++ Group) "Name",
                   WorkBenchName))
               (GetGroups h (customToolbarPath WorkBenchName))
         else []
       else [])
    (workbenches h).

(** Lines 341-362: the custom panels of the JSON structure are appended and
    the tool bars their commands come from are removed; the first
    exception ends the loop and is printed. *)
Definition addCustomPanels (rs : JSON) (workbenchName : string) : M (list JSON) unit :=
  catch_all
    (panels <- lift (c <~ py_path rs [JStr "customToolbars"; JStr workbenchName] ;;
                     py_iter c) ;;
     for_each panels (fun CustomPanel =>
       modify (fun ListToolbars => ListToolbars ++ [CustomPanel]) ;;;
       Commands <- lift (c <~ py_path rs [JStr "customToolbars"; JStr workbenchName;
                                          CustomPanel; JStr "commands"] ;;
                         py_iter c) ;;
       for_each Commands (fun Command =>
         catch_all
           (OriginalToolbar <- lift (py_path rs [JStr "customToolbars"; JStr workbenchName;
                                                 CustomPanel; JStr "commands"; Command]) ;;
            ListToolbars <- get ;;
            removed <- lift (py_remove OriginalToolbar ListToolbars) ;;
            put removed)
           (ret tt))))
    (ret tt).

(** [l.sort(key=key)]: every key is computed first; an exception in [key]
    leaves the list as it was. *)
Fixpoint keyed {A} (key : A -> result Z) (l : list A) : result (list (Z * A)) :=
  match l with
  | [] => Ok []
  | x :: l' =>
      k <~ key x ;;
      r <~ keyed key l' ;;
      Ok ((k, x) :: r)
  end.

Definition py_sort {A} (key : A -> result Z) (l : list A) : result (list A) :=
  kl <~ keyed key l ;;
  Ok (map snd (Py.sort_by fst kl)).

(** [position = order.index(x)], [999999] on [ValueError]. *)
Definition position_in (order x : JSON) : result Z :=
  match py_index order x with
  | Ok p => Ok p
  | Raise ValueError => Ok 999999%Z
  | Raise e => Raise e
  end.

Definition SortToolbars (ToolbarOrder toolbar : JSON) : result Z :=
  if py_eq toolbar (JStr "") then Ok (-1)%Z
  else position_in ToolbarOrder toolbar.

(** Lines 364-384: sort by the JSON order, or leave the list alone when
    anything fails. *)
Definition sortToolbars (rs : JSON) (workbenchName : string) (ListToolbars : list JSON)
  : list JSON :=
  match (ToolbarOrder <~ py_path rs [JStr "workbenches"; JStr workbenchName;
                                     JStr "toolbars"; JStr "order"] ;;
         py_sort (SortToolbars ToolbarOrder) ListToolbars) with
  | Ok sorted => sorted
  | Raise _ => ListToolbars
  end.

(** Lines 333-384 together: [ListToolbars] as the panel loop receives it. *)
Definition ListToolbars (rs : JSON) (h : Host) : list JSON :=
  let workbench := active h in
  let workbenchName := wb_name workbench in
  let own := map JStr (listToolbars workbench) in
  let custom :=
    map (fun CustomToolbar => JStr (fst CustomToolbar))
        (List.filter (fun CustomToolbar => String.eqb (snd CustomToolbar) workbenchName)
                     (List_ReturnCustomToolbars h)) in
  sortToolbars rs workbenchName
    (fst (addCustomPanels rs workbenchName (own ++ custom))).

(** ** [buildPanels]: the buttons of one panel *)

(** [List_AddCustomToolbarsToWorkbench]: for every command of the custom
    panel, the tool buttons of its original tool bar whose text is the
    command's menu text. *)
Definition List_AddCustomToolbarsToWorkbench
  (rs : JSON) (h : Host) (acts : gmap nat Action)
  (WorkBenchName CustomToolbar : string) : list ToolButton :=
  fst (catch_all
         (Commands <- lift (c <~ py_path rs [JStr "customToolbars"; JStr WorkBenchName;
                                             JStr CustomToolbar; JStr "commands"] ;;
                            py_items c) ;;
          for_each Commands (fun kv =>
            let key := fst kv in
            let value := snd kv in
            for_each (commands h) (fun Command =>
              let MenuText := cmd_menuText Command in
              if String.eqb MenuText key then
                catch_all
                  (match value with
                   | JStr name =>
                       match findChild h name with
                       | Some OriginalToolBar =>
                           for_each (tb_buttons OriginalToolBar) (fun Child =>
                             if String.eqb (button_text h acts Child) MenuText
                             then modify (fun ButtonList => ButtonList ++ [Child])
                             else ret tt)
                       | None => raise AttributeError
                       end
                   | _ => raise TypeError
                   end)
                  (ret tt)
              else ret tt)))
         (ret tt)
         []).

Definition sortButtons (h : Host) (acts : gmap nat Action) (positionsList : JSON)
  (button : ToolButton) : result Z :=
  if String.eqb (button_text h acts button) "" then Ok (-1)%Z
  else match btn_defaultAction button ≫= (fun a => acts !! a) with
       | Some action => position_in positionsList (JStr (act_text action))
       | None => Raise AttributeError
       end.

(** Lines 409-440: the buttons in the order of the JSON structure, when it
    gives one for this tool bar.  Nothing catches an exception here. *)
Definition orderButtons (rs : JSON) (h : Host) (workbenchName toolbar : string)
  (acts : gmap nat Action) (allButtons : list ToolButton) : result (list ToolButton) :=
  wbs <~ py_getitem rs (JStr "workbenches") ;;
  known <~ py_contains wbs (JStr workbenchName) ;;
  if (known : bool) then
    tbs <~ py_path rs [JStr "workbenches"; JStr workbenchName; JStr "toolbars"] ;;
    listed <~ py_contains tbs (JStr toolbar) ;;
    if (listed : bool) then
      tb <~ py_path rs [JStr "workbenches"; JStr workbenchName; JStr "toolbars";
                        JStr toolbar] ;;
      ordered <~ py_contains tb (JStr "order") ;;
      if (ordered : bool) then
        positionsList <~ py_path rs [JStr "workbenches"; JStr workbenchName;
                                     JStr "toolbars"; JStr toolbar; JStr "order"] ;;
        py_sort (sortButtons h acts positionsList) allButtons
      else Ok allButtons
    else Ok allButtons
  else Ok allButtons.

(** The state of the button loop of one panel. *)
Record PanelState : Type := {
  ps_actions : gmap nat Action;
  ps_buttons : list RibbonButton;    (* the buttons of [panel], in order *)
  ps_shadow : list string;           (* shadowList *)
}.

Definition the_action (a : nat) : M PanelState Action :=
  fun s =>
    match ps_actions s !! a with
    | Some action => (s, Ok action)
    | None => (s, Raise AttributeError)
    end.

Definition update_action (a : nat) (f : Action -> Action) : M PanelState unit :=
  modify (fun s =>
    {| ps_actions := alter f a (ps_actions s);
       ps_buttons := ps_buttons s; ps_shadow := ps_shadow s |}).

Definition setText (a : nat) (text : string) : M PanelState unit :=
  update_action a (fun action =>
    {| act_data := act_data action; act_text := text; act_icon := act_icon action |}).

(** [action.setIcon(Gui.getIcon(name))]. *)
Definition setIcon (a : nat) (name : string) : M PanelState unit :=
  update_action a (fun action =>
    {| act_data := act_data action; act_text := act_text action;
       act_icon := Some name |}).

Definition data_key (action : Action) : JSON :=
  match act_data action with
  | Some d => JStr d
  | None => JNull
  end.

(** [ribbonStructure["workbenches"][workbenchName]["toolbars"][toolbar]
    ["commands"][action.data()]]. *)
Definition command_path (workbenchName toolbar : string) (action : Action) : list JSON :=
  [JStr "workbenches"; JStr workbenchName; JStr "toolbars"; JStr toolbar;
   JStr "commands"; data_key action].

Definition size_of (buttonSize : JSON) : result ButtonSize :=
  if py_eq buttonSize (JStr "small") then Ok Small
  else if py_eq buttonSize (JStr "medium") then Ok Medium
  else if py_eq buttonSize (JStr "large") then Ok Large
  else Raise NotImplementedError.

(** Lines 486-492: the size entry, ["small"] when a key is missing. *)
Definition buttonSize_of (rs : JSON) (workbenchName toolbar : string) (action : Action)
  : result JSON :=
  match py_path rs (command_path workbenchName toolbar action ++ [JStr "size"]) with
  | Ok v => Ok v
  | Raise KeyError => Ok (JStr "small")
  | Raise e => Raise e
  end.

(** Lines 454-484: the text and the icon of the action, as the JSON
    structure overrides them.  A button without a default action fails at
    its first [action.data()] or [action.text()]. *)
Definition prepareAction (rs : JSON) (h : Host) (workbenchName toolbar : string)
  (button : ToolButton) : M PanelState nat :=
  match btn_defaultAction button with
  | None => raise AttributeError
  | Some a =>
      action <- the_action a ;;
      let entry := command_path workbenchName toolbar action in
      match py_path rs (entry ++ [JStr "text"]) with
      | Ok (JStr text) => setText a text
      | Ok _ => raise TypeError
      | Raise KeyError => ret tt
      | Raise e => raise e
      end ;;;
      action <- the_action a ;;
      match act_icon action with
      | None =>
          commandName <- lift (py_path rs entry) ;;
          match commandName with
          | JStr n =>
              match Command_get h n with
              | Some command => setIcon a (cmd_pixmap command)
              | None => raise AttributeError
              end
          | _ => raise TypeError
          end
      | Some _ => ret tt
      end ;;;
      match py_path rs (entry ++ [JStr "icon"]) with
      | Ok (JStr icon_Json) =>
          if negb (String.eqb icon_Json "") then setIcon a icon_Json else ret tt
      | Ok _ => raise TypeError
      | Raise KeyError => ret tt
      | Raise e => raise e
      end ;;;
      ret a
  end.

Definition addButton (size : ButtonSize) (a : nat) (button : ToolButton)
  : M PanelState unit :=
  action <- the_action a ;;
  modify (fun s =>
    {| ps_actions := ps_actions s;
       ps_buttons := ps_buttons s ++
         [{| rb_size := size; rb_text := act_text action; rb_icon := act_icon action;
             rb_defaultAction := a; rb_menu := btn_menu button |}];
       ps_shadow := ps_shadow s |}).

(** Lines 453-526: the body of the [try] of one button. *)
Definition tryButton (rs : JSON) (h : Host) (workbenchName toolbar : string)
  (button : ToolButton) : M PanelState unit :=
  a <- prepareAction rs h workbenchName toolbar button ;;
  action <- the_action a ;;
  buttonSize <- lift (buttonSize_of rs workbenchName toolbar action) ;;
  size <- lift (size_of buttonSize) ;;
  addButton size a button.

Definition shadow_append (text : string) : M PanelState unit :=
  modify (fun s =>
    {| ps_actions := ps_actions s; ps_buttons := ps_buttons s;
       ps_shadow := ps_shadow s ++ [text] |}).

(** [button.text()] in the button loop. *)
Definition text_now (h : Host) (button : ToolButton) : M PanelState string :=
  gets (fun s => button_text h (ps_actions s) button).

(** Lines 446-532: one round of [for button in allButtons].  The text is
    asked for again when it is appended, after the action was prepared. *)
Definition processButton (rs : JSON) (h : Host) (workbenchName toolbar : string)
  (button : ToolButton) : M PanelState unit :=
  shadowList <- gets ps_shadow ;;
  text <- text_now h button ;;
  if String.eqb text "" then ret tt
  else if existsb (String.eqb text) shadowList then ret tt
  else
    added <- catch_all (tryButton rs h workbenchName toolbar button ;;; ret true)
                       (ret false) ;;
    if (added : bool)
    then (text <- text_now h button ;; shadow_append text)
    else ret tt.

(** ** [buildPanels]: the panels *)

(** Lines 534-535. *)
Definition finalTitle (t : string) : string :=
  if Py.endswith "_custom" t then Py.replace "_custom" "" t else t.

(** Lines 399-407: the tool buttons of the first host tool bar of that
    name (none when there is no such tool bar), then the custom ones. *)
Definition allButtons (rs : JSON) (h : Host) (acts : gmap nat Action)
  (workbenchName toolbar : string) : list ToolButton :=
  match findChildren h toolbar with
  | TB :: _ => tb_buttons TB
  | [] => []
  end ++ List_AddCustomToolbarsToWorkbench rs h acts workbenchName toolbar.

(** Lines 393-535 for one tool bar: the panel exists from [addPanel] on,
    so it is returned, as far as it got, also when an exception escapes. *)
Definition buildPanel (rs : JSON) (h : Host) (workbenchName toolbar : string)
  (acts : gmap nat Action) : (gmap nat Action * Panel) * result unit :=
  match orderButtons rs h workbenchName toolbar acts
                     (allButtons rs h acts workbenchName toolbar) with
  | Raise e => ((acts, {| title := toolbar; buttons := [] |}), Raise e)
  | Ok sorted =>
      match for_each sorted (processButton rs h workbenchName toolbar)
                     {| ps_actions := acts; ps_buttons := []; ps_shadow := [] |} with
      | (s, Ok _) =>
          ((ps_actions s, {| title := finalTitle toolbar; buttons := ps_buttons s |}),
           Ok tt)
      | (s, Raise e) =>
          ((ps_actions s, {| title := toolbar; buttons := ps_buttons s |}), Raise e)
      end
  end.

(** The state of the tool bar loop: the action store and the panels added
    to the current category so far. *)
Record BuildState : Type := {
  bs_actions : gmap nat Action;
  bs_panels : list Panel;
}.

(** Whether the panel loop passes over a tool bar (lines 387-391). *)
Definition skipToolbar (rs : JSON) (toolbar : JSON) : result bool :=
  ignoredToolbars <~ py_getitem rs (JStr "ignoredToolbars") ;;
  ignored <~ py_contains ignoredToolbars toolbar ;;
  if (ignored : bool) then Ok true
  else Ok (py_eq toolbar (JStr "")).

(** Lines 387-535: one round of [for toolbar in ListToolbars].  [category]
    is what [self.currentCategory()] answers; no round changes the tabs or
    the titles of the categories, so it is the same in every round. *)
Definition buildToolbar (rs : JSON) (h : Host) (workbenchName : string)
  (category : result (list Panel)) (toolbar : JSON) : M BuildState unit :=
  skip <- lift (skipToolbar rs toolbar) ;;
  if (skip : bool) then ret tt
  else
    _ <- lift category ;;
    match toolbar with
    | JStr name =>
        fun s =>
          match buildPanel rs h workbenchName name (bs_actions s) with
          | ((acts, panel), r) =>
              ({| bs_actions := acts; bs_panels := bs_panels s ++ [panel] |}, r)
          end
    | _ => raise TypeError   (* addPanel(title=...) wants a string *)
    end.

(** The current tab's text without its ampersands. *)
Definition currentTabName (m : ModernMenu) : string :=
  Py.replace "&" "" (tabText m (currentIndex m)).

(** The panels of the current category grow by [ps]. *)
Definition addPanels (ps : list Panel) (m : ModernMenu) : ModernMenu :=
  match currentCategory m with
  | Ok old => set_categories
                (assoc_set (tabText m (currentIndex m)) (old ++ ps) (categories m)) m
  | Raise _ => m
  end.

Definition buildPanels : M State unit :=
  fun st =>
    let workbench := active (host st) in
    let workbenchName := wb_name workbench in
    let rs := ribbonStructure (menu st) in
    let tabName := currentTabName (menu st) in
    match isWbLoaded (menu st) !! tabName with
    | None => (st, Raise KeyError)
    | Some true => (st, Ok tt)
    | Some false =>
        match for_each (ListToolbars rs (host st))
                       (buildToolbar rs (host st) workbenchName
                                     (currentCategory (menu st)))
                       {| bs_actions := actions (host st); bs_panels := [] |} with
        | (s, r) =>
            let built :=
              with_menu (addPanels (bs_panels s))
                        (with_host (set_actions (bs_actions s)) st) in
            match r with
            | Ok _ =>
                (with_menu (fun m => set_isWbLoaded (<[tabName := true]> (isWbLoaded m)) m)
                           built, Ok tt)
            | Raise e => (built, Raise e)
            end
        end
    end.

Definition onWbActivated : M State unit :=
  updateCurrentTab ;;;
  hideClassicToolbars ;;;
  workbench <- gets (fun st => active (host st)) ;;
  if negb (has_Workbench workbench)
  then modify (with_timer retryLater)
  else buildPanels.

Definition onUserChangedWorkbench : M State unit :=
  tabName <- gets (fun st => currentTabName (menu st)) ;;
  mapping <- gets (fun st => wbNameMapping (menu st)) ;;
  match mapping !! tabName with
  | Some workbenchName => activateWorkbench workbenchName
  | None => raise KeyError
  end ;;;
  onWbActivated.

(** ** [ModernMenu]: construction and script loading *)

Definition RibbonStructure_path (h : Host) : string :=
  Py.path_join (module_dir h) "RibbonStructure.json".

(** [json.load] of the file at [path]: [OSError] when it cannot be opened. *)
Definition json_load (h : Host) (path : string) : result JSON :=
  match assoc path (json_files h) with
  | Some r => r
  | None => Raise OSError
  end.

Definition __init__ : M State unit :=
  connectSignals ;;;
  h <- gets host ;;
  rs <- lift (json_load h (RibbonStructure_path h)) ;;
  modify (with_menu (set_ribbonStructure rs)) ;;;
  createModernMenu ;;;
  onUserChangedWorkbench ;;;
  modify (with_menu (set_MainWindowLoaded true)).

Definition pathScripts (h : Host) : string := Py.path_join (module_dir h) "Scripts".

Definition LoadMarcoFreeCAD (scriptName : string) : M State unit :=
  fun st =>
    if MainWindowLoaded (menu st) then
      let script := Py.path_join (pathScripts (host st)) scriptName in
      if Py.endswith ".py" script
      then (log_call (Call_loadFile script) st, Ok tt)
      else (st, Ok tt)
    else (st, Ok tt).

(** ** Definitions the statements below are written with *)

(** The state in which [onWbActivated] reaches its test of
    [__Workbench__]: the tab is updated and the classic tool bars are
    hidden. *)
Definition beforePanels (st : State) : State :=
  fst (hideClassicToolbars (fst (updateCurrentTab st))).

(** The spec's words for the tab name: every ['&'] character removed. *)
Fixpoint remove_ampersands (s : string) : string :=
  match s with
  | EmptyString => EmptyString
  | String c s' =>
      if Ascii.eqb c "&" then remove_ampersands s'
      else String c (remove_ampersands s')
  end.

(** ** A small installation, for the examples

    Two workbenches, [Part] (loaded) and [Draft] (not loaded yet), one
    host tool bar per workbench tool bar, and a ribbon structure that
    ignores the tool bar [Edit]. *)
Module Sample.

Definition part : Workbench :=
  {| wb_name := "PartWorkbench"; MenuText := "Part"; has_Workbench := true;
     listToolbars := ["File"; "Edit"; "View"] |}.

Definition draft : Workbench :=
  {| wb_name := "DraftWorkbench"; MenuText := "Draft"; has_Workbench := false;
     listToolbars := ["Draft tools"] |}.

Definition act_new : Action :=
  {| act_data := Some "Std_New"; act_text := "New"; act_icon := Some "document-new" |}.
Definition act_open : Action :=
  {| act_data := Some "Std_Open"; act_text := "Open"; act_icon := Some "document-open" |}.
Definition act_fit : Action :=
  {| act_data := Some "Std_ViewFitAll"; act_text := "Fit all"; act_icon := Some "zoom-all" |}.

Definition btn_new : ToolButton :=
  {| own_text := "New"; btn_defaultAction := Some 0; btn_menu := None |}.
Definition btn_open : ToolButton :=
  {| own_text := "Open"; btn_defaultAction := Some 1; btn_menu := None |}.
Definition btn_fit : ToolButton :=
  {| own_text := "Fit all"; btn_defaultAction := Some 2; btn_menu := Some 7 |}.

(** A tool button made for an action shows the text of its action; one
    without an action shows its own. *)
Definition shown_text (acts : gmap nat Action) (button : ToolButton) : string :=
  match btn_defaultAction button ≫= (fun a => acts !! a) with
  | Some action => act_text action
  | None => own_text button
  end.

Definition structure : JSON :=
  JObj [("quickAccessCommands", JArr []);
        ("ignoredWorkbenches", JArr []);
        ("ignoredToolbars", JArr [JStr "Edit"]);
        ("workbenches", JObj [])].

(** The same, with entries for the commands of the tool bar [File] of
    [Part]. *)
Definition structure_with (commands : list (string * JSON)) : JSON :=
  JObj [("quickAccessCommands", JArr []);
        ("ignoredWorkbenches", JArr []);
        ("ignoredToolbars", JArr [JStr "Edit"]);
        ("workbenches",
         JObj [("PartWorkbench",
                JObj [("toolbars",
                       JObj [("File", JObj [("commands", JObj commands)])])])])].

(** Both commands of [File] are given the text [Document]. *)
Definition renaming : JSON :=
  structure_with [("Std_New", JObj [("text", JStr "Document")]);
                  ("Std_Open", JObj [("text", JStr "Document")])].

(** [Std_New] is given a size that does not exist. *)
Definition oversized : JSON :=
  structure_with [("Std_New", JObj [("size", JStr "huge")])].

(** The same, and a custom panel [Tools_custom] that takes the command
    [Fit all] from the tool bar [View]. *)
Definition customised : JSON :=
  JObj [("quickAccessCommands", JArr []);
        ("ignoredWorkbenches", JArr []);
        ("ignoredToolbars", JArr [JStr "Edit"]);
        ("customToolbars",
         JObj [("PartWorkbench",
                JObj [("Tools_custom",
                       JObj [("commands", JObj [("Fit all", JStr "View")])])])]);
        ("workbenches",
         JObj [("PartWorkbench",
                JObj [("toolbars",
                       JObj [("File",
                              JObj [("commands",
                                     JObj [("Std_New",
                                            JObj [("size", JStr "huge")])])])])])])].

Definition cmd_new : Command :=
  {| cmd_name := "Std_New"; cmd_menuText := "New"; cmd_pixmap := "document-new";
     cmd_actions := [0] |}.
Definition cmd_open : Command :=
  {| cmd_name := "Std_Open"; cmd_menuText := "Open"; cmd_pixmap := "document-open";
     cmd_actions := [1] |}.
Definition cmd_fit : Command :=
  {| cmd_name := "Std_ViewFitAll"; cmd_menuText := "Fit all"; cmd_pixmap := "zoom-all";
     cmd_actions := [2] |}.

Definition installation_with (rs : JSON) : Host :=
  {| workbenches := [part; draft];
     active := part;
     toolbars :=
       [{| objectName := "File"; tb_hidden := false;
           tb_buttons := [btn_new; btn_open; btn_new] |};
        {| objectName := "Edit"; tb_hidden := false; tb_buttons := [] |};
        {| objectName := "View"; tb_hidden := false; tb_buttons := [btn_fit] |}];
     actions := <[0 := act_new]> (<[1 := act_open]> (<[2 := act_fit]> ∅));
     button_text := shown_text;
     commands := [cmd_new; cmd_open; cmd_fit];
     param_groups := [];
     param_strings :=
       [(WorkbenchOrderParam, [("Ordered", "DraftWorkbench,PartWorkbench")])];
     module_dir := "/Mod/Ribbon";
     json_files := [("/Mod/Ribbon/RibbonStructure.json", Ok rs)] |}.

Definition installation : Host := installation_with structure.

(** The class attributes as the class body leaves them. *)
Definition blank : ModernMenu :=
  {| ribbonStructure := JNull; wbNameMapping := ∅; isWbLoaded := ∅;
     MainWindowLoaded := false; tabs := []; currentIndex := (-1)%Z;
     categories := []; quickAccess := []; signalsConnected := false |}.

Definition idle : Timer :=
  {| timeout_slots := []; singleShot := false; started := None |}.

Definition fresh_with (rs : JSON) : State :=
  {| host := installation_with rs; menu := blank; timer := idle; calls := [] |}.

Definition fresh : State := fresh_with structure.

(** In [__init__], just before [createModernMenu]. *)
Definition structure_read : State :=
  with_menu (set_ribbonStructure structure) fresh.

(** After [__init__]: the tabs [Draft] and [Part], [Draft] current and
    activated, its panels waiting for the timer. *)
Definition constructed_with (rs : JSON) : State := fst (__init__ (fresh_with rs)).

Definition constructed : State := constructed_with structure.

(** The host has since activated [Part]. *)
Definition part_active_with (rs : JSON) : State :=
  with_host (set_active part) (constructed_with rs).

Definition part_active : State := part_active_with structure.

(** The user has clicked on the tab [Part]. *)
Definition part_selected : State :=
  with_menu (setCurrentIndex 1) constructed.

(** The button loop of a panel at its start. *)
Definition empty_panel (rs : JSON) : PanelState :=
  {| ps_actions := actions (installation_with rs); ps_buttons := [];
     ps_shadow := [] |}.

End Sample.

(** [linked src rb]: the ribbon button [rb] carries the very action object
    of the tool button [src], and its menu. *)
Definition linked (src : ToolButton) (rb : RibbonButton) : Prop :=
  btn_defaultAction src = Some (rb_defaultAction rb)
  /\ rb_menu rb = btn_menu src.

(** [due h s button]: with the texts as they are in the state [s] that the
    button loop has when it reaches [button], the button calls for a ribbon
    button: its text is not empty and not in the shadow list. *)
Definition due (h : Host) (s : PanelState) (button : ToolButton) : Prop :=
  button_text h (ps_actions s) button <> ""
  /\ ~ In (button_text h (ps_actions s) button) (ps_shadow s).

(** The state of the loop once the ribbon button of [button] is in the
    panel, in [s1]: the text the button has now goes to the end of the
    shadow list. *)
Definition recorded (h : Host) (button : ToolButton) (s1 : PanelState) : PanelState :=
  {| ps_actions := ps_actions s1; ps_buttons := ps_buttons s1;
     ps_shadow := ps_shadow s1 ++ [button_text h (ps_actions s1) button] |}.

(** [rounds rs h wb tb l s srcs s']: the button loop of the panel [tb],
    run over the buttons [l] from the state [s], ends in [s'], and [srcs]
    are the buttons that got a ribbon button.  A button that is not [due]
    in the state the loop has when it reaches it is passed over and nothing
    changes.  For a button that is due the body of the [try] runs in that
    very state: when it raises, the button is skipped, with the panel and
    the shadow list as they were; when it returns, the panel has one more
    ribbon button, [linked] to the button, and the button's text is
    recorded. *)
Inductive rounds (rs : JSON) (h : Host) (wb tb : string) :
  list ToolButton -> PanelState -> list ToolButton -> PanelState -> Prop :=
| rounds_done s :
    rounds rs h wb tb [] s [] s
| rounds_passed_over button l s srcs s' :
    ~ due h s button ->
    rounds rs h wb tb l s srcs s' ->
    rounds rs h wb tb (button :: l) s srcs s'
| rounds_skipped button l s s1 e srcs s' :
    due h s button ->
    tryButton rs h wb tb button s = (s1, Raise e) ->
    ps_buttons s1 = ps_buttons s ->
    ps_shadow s1 = ps_shadow s ->
    rounds rs h wb tb l s1 srcs s' ->
    rounds rs h wb tb (button :: l) s srcs s'
| rounds_added button l s s1 rb srcs s' :
    due h s button ->
    tryButton rs h wb tb button s = (s1, Ok tt) ->
    linked button rb ->
    ps_buttons s1 = ps_buttons s ++ [rb] ->
    ps_shadow s1 = ps_shadow s ->
    rounds rs h wb tb l (recorded h button s1) srcs s' ->
    rounds rs h wb tb (button :: l) s (button :: srcs) s'.

(** The action stores the button loop goes through: the one it has when it
    reaches each button, and the one it ends with. *)
Fixpoint stores_of (rs : JSON) (h : Host) (wb tb : string)
  (l : list ToolButton) (s : PanelState) : list (gmap nat Action) :=
  ps_actions s ::
  match l with
  | [] => []
  | button :: l' =>
      stores_of rs h wb tb l' (fst (processButton rs h wb tb button s))
  end.

(** During the build of the panel [tb] from the store [acts], no button of
    [collected] changes its text. *)
Definition texts_unchanged (rs : JSON) (h : Host) (wb tb : string)
  (collected : list ToolButton) (acts : gmap nat Action) : Prop :=
  forall acts' b,
    In acts' (stores_of rs h wb tb collected
                {| ps_actions := acts; ps_buttons := []; ps_shadow := [] |}) ->
    In b collected ->
    button_text h acts' b = button_text h acts b.

(** [toolbar_wanted ignoredToolbars toolbar]: the entry of the tool bar
    list is a name, not empty and not among the ignored ones. *)
Definition toolbar_wanted (ignoredToolbars : list JSON) (toolbar : JSON) : Prop :=
  exists name,
    toolbar = JStr name /\ name <> "" /\ ~ In (JStr name) ignoredToolbars.

(** [chosen P l l']: [l'] is [l] without the elements that do not satisfy
    [P], in the same order. *)
Inductive chosen {A} (P : A -> Prop) : list A -> list A -> Prop :=
| chosen_nil : chosen P [] []
| chosen_take x l l' : P x -> chosen P l l' -> chosen P (x :: l) (x :: l')
| chosen_drop x l l' : ~ P x -> chosen P l l' -> chosen P (x :: l) l'.

(** [created_for name p]: [p] is the panel [addPanel(title=name)] made, with
    the title it has once [_custom] is dropped, or still its first title. *)
Definition created_for (name : string) (p : Panel) : Prop :=
  title p = finalTitle name \/ title p = name.

(** [panel_of rs h wb name acts p acts']: [p] is the finished panel of the
    tool bar [name], built from the action store [acts] and leaving the
    store [acts'].  Its title is [name] without [_custom]; the collected
    buttons ([allButtons]: the tool buttons of the first host tool bar of
    that name, then the custom ones), put in the order of the structure,
    went through the [rounds] of the button loop from an empty panel, and
    the ribbon buttons of [p] are those the rounds added, one for each
    button of [srcs] and in their order. *)
Definition panel_of (rs : JSON) (h : Host) (wb name : string)
  (acts : gmap nat Action) (p : Panel) (acts' : gmap nat Action) : Prop :=
  exists sorted srcs s',
    orderButtons rs h wb name acts (allButtons rs h acts wb name) = Ok sorted
    /\ Permutation sorted (allButtons rs h acts wb name)
    /\ rounds rs h wb name sorted
         {| ps_actions := acts; ps_buttons := []; ps_shadow := [] |} srcs s'
    /\ title p = finalTitle name
    /\ buttons p = ps_buttons s'
    /\ Forall2 linked srcs (buttons p)
    /\ acts' = ps_actions s'.

(** The panels of the tool bars [names], built one after the other: each
    build starts from the action store the one before has left. *)
Inductive panels_of (rs : JSON) (h : Host) (wb : string) :
  gmap nat Action -> list string -> list Panel -> gmap nat Action -> Prop :=
| panels_of_nil acts :
    panels_of rs h wb acts [] [] acts
| panels_of_cons acts name p acts1 names ps acts' :
    panel_of rs h wb name acts p acts1 ->
    panels_of rs h wb acts1 names ps acts' ->
    panels_of rs h wb acts (name :: names) (p :: ps) acts'.


(** [custom_panel_of rs wb t]: [t] is one of the custom panels the
    structure gives for the workbench [wb]. *)
Definition custom_panel_of (rs : JSON) (wb : string) (t : JSON) : Prop :=
  exists panels,
    (c <~ py_path rs [JStr "customToolbars"; JStr wb] ;; py_iter c) = Ok panels
    /\ In t panels.

(** [m] called [n] times in a row, as long as it returns. *)
Fixpoint repeat_call {S} (n : nat) (m : M S unit) : M S unit :=
  match n with
  | O => ret tt
  | Datatypes.S n' => bind m (fun _ => repeat_call n' m)
  end.


(** [MenuText in ribbonStructure["ignoredWorkbenches"]]. *)
Definition ignoredWorkbench (rs : JSON) (w : Workbench) : result bool :=
  ig <~ py_getitem rs (JStr "ignoredWorkbenches") ;;
  py_contains ig (JStr (MenuText w)).

(** The spec's words for the tabs: the workbenches of the ordered list, in
    its order, with a non-empty name and a [MenuText] that is not ignored. *)
Definition tabWanted (rs : JSON) (w : Workbench) : bool :=
  negb (String.eqb (wb_name w) "")
  && match ignoredWorkbench rs w with
     | Ok false => true
     | _ => false
     end.

Definition orderedWorkbenches (h : Host) : list Workbench :=
  flat_map (fun ordered =>
              List.filter (fun w => String.eqb (wb_name w) ordered) (workbenches h))
           (WorkbenchOrderedList h).

Definition expectedTabs (rs : JSON) (h : Host) : list string :=
  map MenuText (List.filter (tabWanted rs) (orderedWorkbenches h)).

(** What the host answers to [buildPanels] and [createModernMenu]: all of
    the host but the module's directory and its files. *)
Definition host_answers (h : Host) :=
  (workbenches h, active h, toolbars h, actions h, button_text h, commands h,
   param_groups h, param_strings h).

Definition set_json_files (files : list (string * result JSON)) (h : Host) : Host :=
  {| workbenches := workbenches h; active := active h; toolbars := toolbars h;
     actions := actions h; button_text := button_text h;
     commands := commands h;
     param_groups := param_groups h; param_strings := param_strings h;
     module_dir := module_dir h; json_files := files |}.

(** ** Relations between the state before and after a method *)

(** The fields of the state that [buildPanels] never writes. *)
Record untouched (st st' : State) : Prop := {
  same_tabs : tabs (menu st') = tabs (menu st);
  same_index : currentIndex (menu st') = currentIndex (menu st);
  same_structure : ribbonStructure (menu st') = ribbonStructure (menu st);
  same_mapping : wbNameMapping (menu st') = wbNameMapping (menu st);
  same_loaded_flag : MainWindowLoaded (menu st') = MainWindowLoaded (menu st);
  same_active : active (host st') = active (host st);
  same_workbenches : workbenches (host st') = workbenches (host st);
  same_toolbars : toolbars (host st') = toolbars (host st);
  same_timer : timer st' = timer st;
  same_calls : calls st' = calls st;
}.

(** [keeps R m]: running [m] relates the state before to the state after,
    whatever the outcome. *)
Definition keeps {S A} (R : S -> S -> Prop) (m : M S A) : Prop :=
  forall s, R s (fst (m s)).

(** What the preparation of an action leaves alone: the panel's buttons,
    the shadow list, and the presence of every action in the store. *)
Definition panel_kept (s s' : PanelState) : Prop :=
  ps_buttons s' = ps_buttons s
  /\ ps_shadow s' = ps_shadow s
  /\ forall a, is_Some (ps_actions s !! a) -> is_Some (ps_actions s' !! a).

(** The quick access loop leaves the tabs and the categories alone. *)
Definition tabs_kept (m m' : ModernMenu) : Prop :=
  tabs m' = tabs m /\ categories m' = categories m.

(** The tab one round of the inner loop of [createModernMenu] adds. *)
Definition new_tab (rs : JSON) (ordered : string) (w : Workbench) : list string :=
  if String.eqb (wb_name w) ordered && tabWanted rs w then [MenuText w] else [].

(** [ribbonStructure] is not written. *)
Definition structure_kept (st st' : State) : Prop :=
  ribbonStructure (menu st') = ribbonStructure (menu st).

Definition structure_kept_menu (m m' : ModernMenu) : Prop :=
  ribbonStructure m' = ribbonStructure m.

(** ** Definitions for the further properties *)

(** A classic tool bar that [hideClassicToolbars] hides. *)
Definition to_hide (tb : ToolBar) : bool :=
  negb (classicToolbarKept (objectName tb)).

(** The workbenches [ws] have their tab: a category, the name of the
    workbench in [wbNameMapping], and an entry in [isWbLoaded]. *)
Definition registered (m : ModernMenu) (ws : list Workbench) : Prop :=
  forall w, In w ws ->
    assoc (MenuText w) (categories m) <> None
    /\ wbNameMapping m !! MenuText w = Some (wb_name w)
    /\ is_Some (isWbLoaded m !! MenuText w).

(** The quick access loop leaves the two dictionaries and the categories
    alone. *)
Definition registry_kept (m m' : ModernMenu) : Prop :=
  wbNameMapping m' = wbNameMapping m
  /\ isWbLoaded m' = isWbLoaded m
  /\ categories m' = categories m.

(** [MainWindowLoaded] is not written. *)
Definition flag_kept (st st' : State) : Prop :=
  MainWindowLoaded (menu st') = MainWindowLoaded (menu st).

Definition flag_kept_menu (m m' : ModernMenu) : Prop :=
  MainWindowLoaded m' = MainWindowLoaded m.

(** The sample installation with no [RibbonStructure.json] in the module's
    directory. *)
Definition sample_without_file : State :=
  with_host (set_json_files []) Sample.fresh.

(** The sample installation with no user parameters at all, in
    [__init__] just before [createModernMenu]. *)
Definition sample_no_order : State :=
  with_host
    (fun h =>
       {| workbenches := workbenches h; active := active h;
          toolbars := toolbars h; actions := actions h;
          button_text := button_text h; commands := commands h;
          param_groups := []; param_strings := [];
          module_dir := module_dir h; json_files := json_files h |})
    Sample.structure_read.

(** The same actions, each with the data it had. *)
Definition actions_kept (acts acts' : gmap nat Action) : Prop :=
  forall a,
    match acts !! a with
    | Some x => exists y, acts' !! a = Some y /\ act_data y = act_data x
    | None => acts' !! a = None
    end.

(** What a round of the button loop for [button] does to the actions: it
    keeps them all, with their data, and changes none but the default
    action of [button]. *)
Definition touch_kept (button : ToolButton) (s s' : PanelState) : Prop :=
  actions_kept (ps_actions s) (ps_actions s')
  /\ forall a, btn_defaultAction button <> Some a ->
               ps_actions s' !! a = ps_actions s !! a.

Definition panel_actions_kept (s s' : PanelState) : Prop :=
  actions_kept (ps_actions s) (ps_actions s').

Definition build_actions_kept (s s' : BuildState) : Prop :=
  actions_kept (bs_actions s) (bs_actions s').

(** The action [a] is still there, with the text it had. *)
Definition text_kept_at (a : nat) (s s' : PanelState) : Prop :=
  forall x, ps_actions s !! a = Some x ->
            exists y, ps_actions s' !! a = Some y /\ act_text y = act_text x.

(** [collected_for rs h acts wb tb b]: why [List_AddCustomToolbarsToWorkbench]
    returns the button [b] for the custom panel [tb]: the panel names a
    command text [key] with its original tool bar [name], the host has a
    command with that menu text, and [b] is a button of the first host
    tool bar called [name] whose text is [key]. *)
Definition collected_for (rs : JSON) (h : Host) (acts : gmap nat Action)
  (wb tb : string) (b : ToolButton) : Prop :=
  exists kv key name toolbar c,
    (Commands <~ py_path rs [JStr "customToolbars"; JStr wb; JStr tb; JStr "commands"] ;;
     py_items Commands) = Ok kv
    /\ In (key, JStr name) kv
    /\ findChild h name = Some toolbar
    /\ In b (tb_buttons toolbar)
    /\ In c (commands h)
    /\ cmd_menuText c = key
    /\ button_text h acts b = key.

(** The list grew only by buttons with the property [P]. *)
Definition grown_by {A} (P : A -> Prop) (l l' : list A) : Prop :=
  forall b, In b l' -> In b l \/ P b.

(** The order of a list sorted with [key]: both keys are integers and the
    first is not above the second. *)
Definition rank_le {A} (key : A -> result Z) (x y : A) : Prop :=
  exists kx ky, key x = Ok kx /\ key y = Ok ky /\ (kx <= ky)%Z.

(** The elements whose key is [k]. *)
Definition has_rank {A} (key : A -> result Z) (k : Z) (x : A) : bool :=
  match key x with
  | Ok k' => (k' =? k)%Z
  | Raise _ => false
  end.

(** A structure that orders the buttons of the tool bar [File] of [Part]:
    [Open] before [New]. *)
Definition sample_ordered : JSON :=
  JObj [("workbenches",
         JObj [("PartWorkbench",
                JObj [("toolbars",
                       JObj [("File",
                              JObj [("order", JArr [JStr "Open"; JStr "New"])])])])])].

(** [quick_action h name a]: [name] is the name of a command of the host
    and [a] is the first of its actions. *)
Definition quick_action (h : Host) (name : JSON) (a : nat) : Prop :=
  exists n c, name = JStr n /\ Command_get h n = Some c /\ head (cmd_actions c) = Some a.

Definition quick_kept (m m' : ModernMenu) : Prop :=
  quickAccess m' = quickAccess m.

(** The sample installation, with a structure that asks for two quick
    access buttons. *)
Definition sample_quick : State :=
  with_menu
    (set_ribbonStructure
       (JObj [("quickAccessCommands", JArr [JStr "Std_Open"; JStr "Std_New"]);
              ("ignoredWorkbenches", JArr [])]))
    Sample.fresh.

(** What the ribbon leaves alone when it follows the host: no outside
    call, the same workbenches with the same active one, the same tabs,
    quick access buttons, names of the workbenches and structure. *)
Definition stays_inside (st st' : State) : Prop :=
  calls st' = calls st
  /\ active (host st') = active (host st)
  /\ workbenches (host st') = workbenches (host st)
  /\ commands (host st') = commands (host st)
  /\ tabs (menu st') = tabs (menu st)
  /\ quickAccess (menu st') = quickAccess (menu st)
  /\ wbNameMapping (menu st') = wbNameMapping (menu st)
  /\ ribbonStructure (menu st') = ribbonStructure (menu st).

(** An installation whose only workbench has an ampersand in its
    [MenuText], after [createModernMenu]: the tab ["&Part"] is the current
    one. *)
Definition sample_ampersand : State :=
  let amp := {| wb_name := "PartWorkbench"; MenuText := "&Part";
                has_Workbench := true; listToolbars := ["File"] |} in
  fst (createModernMenu
         (with_host
            (fun h =>
               {| workbenches := [amp]; active := amp; toolbars := toolbars h;
                  actions := actions h; button_text := button_text h;
                  commands := commands h; param_groups := param_groups h;
                  param_strings := param_strings h; module_dir := module_dir h;
                  json_files := json_files h |})
            Sample.structure_read)).

(** A structure whose order for the buttons of [File] is not a list. *)
Definition sample_bad_order : JSON :=
  JObj [("ignoredToolbars", JArr []);
        ("workbenches",
         JObj [("PartWorkbench",
                JObj [("toolbars",
                       JObj [("File", JObj [("order", JNum 5)])])])])].

(** [Part] is active and its tab current, nothing built yet, and the
    structure is [sample_bad_order]. *)
Definition sample_failing : State :=
  with_menu (set_ribbonStructure sample_bad_order) (beforePanels Sample.part_active).

(** * Properties *)

(** ** Strings *)

Lemma replace_ampersand (s : string) :
  Py.replace "&" "" s = remove_ampersands s.
Proof.
  unfold Py.replace.
  induction s as [|c s IH]; [reflexivity|].
  cbn [Py.replace_from remove_ampersands Py.startswith String.length Nat.sub].
  rewrite Ascii.eqb_sym.
  destruct (Ascii.eqb c "&"); cbn; now rewrite IH.
Qed.

Lemma py_eq_JStr (v : JSON) (s : string) :
  py_eq v (JStr s) = true <-> v = JStr s.
Proof.
  destruct v; cbn; split; try discriminate; try congruence.
  - intros H. apply String.eqb_eq in H. now subst.
  - intros H. injection H as ->. apply String.eqb_refl.
Qed.

(** ** What [buildPanels] leaves alone *)

Lemma assoc_set_keys {A} (k : string) (v : A) (kv : list (string * A)) :
  map fst (assoc_set k v kv) = map fst kv.
Proof.
  induction kv as [|[k' v'] kv IH]; [reflexivity|].
  cbn. destruct (String.eqb k k'); cbn; [reflexivity|now rewrite IH].
Qed.

Lemma assoc_assoc_set {A} (k : string) (v : A) (kv : list (string * A)) :
  assoc k kv <> None -> assoc k (assoc_set k v kv) = Some v.
Proof.
  induction kv as [|[k' v'] kv IH]; cbn; [congruence|].
  destruct (String.eqb k k') eqn:E; cbn; rewrite E; [reflexivity|exact IH].
Qed.

Lemma tabText_addPanels (ps : list Panel) (m : ModernMenu) (i : Z) :
  tabText (addPanels ps m) i = tabText m i.
Proof. unfold addPanels. now destruct (currentCategory m). Qed.

Lemma currentCategory_addPanels (ps old : list Panel) (m : ModernMenu) :
  currentCategory m = Ok old ->
  currentCategory (addPanels ps m) = Ok (old ++ ps).
Proof.
  intros H. unfold addPanels. rewrite H.
  unfold currentCategory in *. cbn.
  destruct (assoc (tabText m (currentIndex m)) (categories m)) eqn:E;
    [|discriminate].
  unfold tabText in *. cbn.
  rewrite assoc_assoc_set; [reflexivity|]. rewrite E. discriminate.
Qed.

Lemma buildPanels_untouched (st : State) :
  untouched st (fst (buildPanels st)).
Proof.
  unfold buildPanels.
  destruct (isWbLoaded (menu st) !! currentTabName (menu st)) as [[|]|];
    [now constructor| |now constructor].
  destruct (for_each _ _ _) as [s [[]|e]];
    constructor; cbn; unfold addPanels;
    destruct (currentCategory (menu st)); reflexivity.
Qed.

(** ** The tab bar and the active workbench *)

Lemma index_of_In (t : string) (l : list string) :
  In t l ->
  exists i, index_of t l = Some i /\ nth_error l i = Some t.
Proof.
  induction l as [|x l IH]; [intros []|].
  intros H. cbn. destruct (String.eqb x t) eqn:E.
  - apply String.eqb_eq in E. subst. now exists 0.
  - destruct H as [H|H]; [subst; rewrite String.eqb_refl in E; discriminate|].
    destruct (IH H) as (i & Hi & Hn). exists (S i). now rewrite Hi.
Qed.

Lemma nth_error_lt {A} (l : list A) (i : nat) (x : A) :
  nth_error l i = Some x -> (i < length l)%nat.
Proof. intros H. apply nth_error_Some. congruence. Qed.

Lemma updateCurrentTab_ok (st : State) :
  snd (updateCurrentTab st) = Ok tt
  /\ host (fst (updateCurrentTab st)) = host st
  /\ tabs (menu (fst (updateCurrentTab st))) = tabs (menu st)
  /\ categories (menu (fst (updateCurrentTab st))) = categories (menu st)
  /\ isWbLoaded (menu (fst (updateCurrentTab st))) = isWbLoaded (menu st)
  /\ ribbonStructure (menu (fst (updateCurrentTab st))) = ribbonStructure (menu st)
  /\ timer (fst (updateCurrentTab st)) = timer st
  /\ calls (fst (updateCurrentTab st)) = calls st.
Proof.
  unfold updateCurrentTab.
  destruct (negb _); cbn; [|tauto].
  unfold setCurrentIndex. destruct (_ && _)%bool; cbn; tauto.
Qed.

Lemma updateCurrentTab_index (st : State) :
  In (MenuText (active (host st))) (tabs (menu st)) ->
  currentIndex (menu (fst (updateCurrentTab st)))
  = indexOf (menu st) (MenuText (active (host st))).
Proof.
  intros Hin. unfold updateCurrentTab.
  destruct (Z.eqb_spec (indexOf (menu st) (MenuText (active (host st))))
                       (currentIndex (menu st))) as [E|E]; cbn; [congruence|].
  unfold setCurrentIndex, indexOf in *.
  destruct (index_of_In _ _ Hin) as (i & Hi & Hn). rewrite Hi in *.
  apply nth_error_lt in Hn.
  cbn [tabs set_signalsConnected].
  destruct (Z.leb_spec 0 (Z.of_nat i)); [|lia].
  destruct (Z.ltb_spec (Z.of_nat i) (Z.of_nat (length (tabs (menu st))))); [|lia].
  reflexivity.
Qed.

Lemma onWbActivated_unfold (st : State) :
  onWbActivated st
  = if has_Workbench (active (host st))
    then buildPanels (beforePanels st)
    else (with_timer retryLater (beforePanels st), Ok tt).
Proof.
  unfold onWbActivated, beforePanels, bind at 1.
  destruct (updateCurrentTab_ok st) as (Hok & Hh & _).
  destruct (updateCurrentTab st) as [st1 r]. cbn in Hok, Hh. subst r.
  cbn. rewrite Hh. now destruct (has_Workbench (active (host st))).
Qed.

Lemma beforePanels_frame (st : State) :
  menu (beforePanels st) = menu (fst (updateCurrentTab st))
  /\ active (host (beforePanels st)) = active (host st)
  /\ actions (host (beforePanels st)) = actions (host st)
  /\ timer (beforePanels st) = timer st
  /\ calls (beforePanels st) = calls st.
Proof.
  unfold beforePanels.
  destruct (updateCurrentTab_ok st) as (_ & Hh & _ & _ & _ & _ & Ht & Hc).
  cbn. rewrite Hh. tauto.
Qed.

Lemma onWbActivated_frame (st : State) :
  calls (fst (onWbActivated st)) = calls st
  /\ active (host (fst (onWbActivated st))) = active (host st)
  /\ tabs (menu (fst (onWbActivated st))) = tabs (menu st)
  /\ currentIndex (menu (fst (onWbActivated st)))
     = currentIndex (menu (fst (updateCurrentTab st))).
Proof.
  rewrite onWbActivated_unfold.
  destruct (beforePanels_frame st) as (Hm & Ha & _ & _ & Hc).
  destruct (updateCurrentTab_ok st) as (_ & _ & Ht & _).
  destruct (has_Workbench (active (host st))).
  - destruct (buildPanels_untouched (beforePanels st)) as [T I _ _ _ A _ _ _ C].
    rewrite C, A, T, I, Hm, Hc, Ha. tauto.
  - cbn [fst with_timer calls host menu]. rewrite Hm, Hc, Ha. tauto.
Qed.

(** C1. The ribbon follows the host's active workbench.  When a tab is
    labelled with the [MenuText] of the active workbench, the tab bar's
    current index after [onWbActivated] is the index of that tab, and that
    tab's text is the [MenuText].  When the user has selected a tab whose
    text without its ['&'] characters is a key [t] of [wbNameMapping],
    [onUserChangedWorkbench] calls [Gui.activateWorkbench(wbNameMapping[t])],
    once and as its only outside call, and that workbench is the active one
    afterwards when the host knows it. *)
Theorem ribbon_follows_active_workbench (st1 st2 : State) (w : string) :
  In (MenuText (active (host st1))) (tabs (menu st1)) ->
  wbNameMapping (menu st2)
    !! remove_ampersands (tabText (menu st2) (currentIndex (menu st2))) = Some w ->
  (let st' := fst (onWbActivated st1) in
   currentIndex (menu st') = indexOf (menu st') (MenuText (active (host st')))
   /\ tabText (menu st') (currentIndex (menu st')) = MenuText (active (host st')))
  /\ (let st' := fst (onUserChangedWorkbench st2) in
      calls st' = calls st2 ++ [Call_activateWorkbench w]
      /\ forall wb, find_workbench (host st2) w = Some wb -> active (host st') = wb).
Proof.
  intros Hin Hmap. split.
  - cbn zeta.
    destruct (onWbActivated_frame st1) as (_ & Ha & Ht & Hi).
    rewrite Ha. unfold indexOf at 1, tabText. rewrite Ht, Hi.
    rewrite (updateCurrentTab_index st1 Hin). unfold indexOf.
    destruct (index_of_In _ _ Hin) as (i & Hidx & Hn). rewrite Hidx.
    split; [reflexivity|].
    destruct (Z.ltb_spec (Z.of_nat i) 0); [lia|].
    now rewrite Nat2Z.id, Hn.
  - cbn zeta. rewrite <- replace_ampersand in Hmap.
    unfold onUserChangedWorkbench, bind, gets, currentTabName. cbn beta iota.
    rewrite Hmap. unfold activateWorkbench, bind, gets, modify.
    cbn [host log_call].
    destruct (find_workbench (host st2) w) as [wb|] eqn:E.
    + set (sa := with_host (set_active wb) (log_call (Call_activateWorkbench w) st2)).
      destruct (onWbActivated_frame sa) as (Hc & Ha & _).
      destruct (onWbActivated sa) as [sb r]. cbn in Hc, Ha.
      destruct r; cbn; rewrite Hc, Ha; (split; [reflexivity|]);
        intros wb' Hwb'; now injection Hwb' as <-.
    + cbn. split; [reflexivity|discriminate].
Qed.

Lemma ribbon_follows_active_workbench_witness :
  In "Part" (tabs (menu Sample.part_active))
  /\ wbNameMapping (menu Sample.part_selected) !! "Part" = Some "PartWorkbench"
  /\ currentIndex (menu (fst (onWbActivated Sample.part_active))) = 1%Z
  /\ calls (fst (onUserChangedWorkbench Sample.part_selected))
     = calls Sample.part_selected ++ [Call_activateWorkbench "PartWorkbench"].
Proof.
  assert (H1 : In (MenuText (active (host Sample.part_active)))
                  (tabs (menu Sample.part_active))) by (vm_compute; tauto).
  assert (H2 : wbNameMapping (menu Sample.part_selected)
                 !! remove_ampersands
                      (tabText (menu Sample.part_selected)
                               (currentIndex (menu Sample.part_selected)))
               = Some "PartWorkbench") by (vm_compute; reflexivity).
  destruct (ribbon_follows_active_workbench
              Sample.part_active Sample.part_selected "PartWorkbench" H1 H2)
    as ((Hidx & _) & (Hcalls & _)).
  split; [exact H1|]. split; [exact H2|]. split; [|exact Hcalls].
  rewrite Hidx. vm_compute. reflexivity.
Defined.

(** ** The retry timer *)

(** C2. When the active workbench has no [__Workbench__] attribute,
    [onWbActivated] returns normally after connecting the module-level
    timer's [timeout] to [onWbActivated], making it single-shot and starting
    it with 100 ms; it builds nothing: the categories with their panels, the
    [isWbLoaded] flags and the actions are as before the call.  When the
    attribute is there, [onWbActivated] ends in [buildPanels]. *)
Theorem retry_timer_until_workbench_loaded (st1 st2 : State) :
  has_Workbench (active (host st1)) = false ->
  has_Workbench (active (host st2)) = true ->
  (onWbActivated st1 = (with_timer retryLater (beforePanels st1), Ok tt)
   /\ timer (fst (onWbActivated st1))
      = {| timeout_slots := timeout_slots (timer st1) ++ [Slot_onWbActivated];
           singleShot := true;
           started := Some 100%Z |}
   /\ categories (menu (fst (onWbActivated st1))) = categories (menu st1)
   /\ isWbLoaded (menu (fst (onWbActivated st1))) = isWbLoaded (menu st1)
   /\ actions (host (fst (onWbActivated st1))) = actions (host st1))
  /\ onWbActivated st2 = buildPanels (beforePanels st2).
Proof.
  intros H1 H2. rewrite !onWbActivated_unfold, H1, H2.
  split; [|reflexivity].
  destruct (beforePanels_frame st1) as (Hm & _ & Hact & Ht & _).
  destruct (updateCurrentTab_ok st1) as (_ & _ & _ & Hc & Hl & _).
  cbn [fst with_timer timer menu host retryLater].
  rewrite Hm, Hact, Ht, Hc, Hl. tauto.
Qed.

Lemma retry_timer_until_workbench_loaded_witness :
  has_Workbench (active (host Sample.constructed)) = false
  /\ has_Workbench (active (host Sample.part_active)) = true
  /\ started (timer (fst (onWbActivated Sample.constructed))) = Some 100%Z
  /\ onWbActivated Sample.part_active
     = buildPanels (beforePanels Sample.part_active).
Proof.
  assert (H1 : has_Workbench (active (host Sample.constructed)) = false)
    by (vm_compute; reflexivity).
  assert (H2 : has_Workbench (active (host Sample.part_active)) = true)
    by (vm_compute; reflexivity).
  destruct (retry_timer_until_workbench_loaded
              Sample.constructed Sample.part_active H1 H2)
    as ((_ & Ht & _) & Hb).
  split; [exact H1|]. split; [exact H2|]. split; [|exact Hb].
  now rewrite Ht.
Defined.

(** ** The wrappers around the ribbon *)

(** C10. [loadDesignMenu] and [loadSettingsMenu] call
    [LoadDesign_Ribbon.main()] and [LoadSettings_Ribbon.main()] and do
    nothing else: the ribbon, the host and the timer are as before.
    [LoadMarcoFreeCAD(scriptName)] calls [App.loadFile] on the joined path
    exactly when [MainWindowLoaded] is true and that path ends with
    [".py"], and changes nothing otherwise. *)
Theorem surrounding_wrappers_are_thin (st : State) (scriptName : string) :
  (loadDesignMenu st = (log_call Call_LoadDesign_main st, Ok tt)
   /\ menu (fst (loadDesignMenu st)) = menu st
   /\ host (fst (loadDesignMenu st)) = host st
   /\ timer (fst (loadDesignMenu st)) = timer st
   /\ calls (fst (loadDesignMenu st)) = calls st ++ [Call_LoadDesign_main])
  /\ (loadSettingsMenu st = (log_call Call_LoadSettings_main st, Ok tt)
      /\ menu (fst (loadSettingsMenu st)) = menu st
      /\ host (fst (loadSettingsMenu st)) = host st
      /\ timer (fst (loadSettingsMenu st)) = timer st
      /\ calls (fst (loadSettingsMenu st)) = calls st ++ [Call_LoadSettings_main])
  /\ (let script := Py.path_join (pathScripts (host st)) scriptName in
      LoadMarcoFreeCAD scriptName st
      = (if MainWindowLoaded (menu st) && Py.endswith ".py" script
         then log_call (Call_loadFile script) st
         else st,
         Ok tt)).
Proof.
  repeat split.
  cbn zeta. unfold LoadMarcoFreeCAD.
  destruct (MainWindowLoaded (menu st)); [|reflexivity].
  now destruct (Py.endswith _ _).
Qed.

(** ** [buildPanels] runs once per tab *)

Lemma currentTabName_addPanels (ps : list Panel) (m : ModernMenu) :
  currentTabName (addPanels ps m) = currentTabName m.
Proof.
  unfold currentTabName. rewrite tabText_addPanels.
  unfold addPanels. now destruct (currentCategory m).
Qed.






(** ** Reasoning about method bodies *)

Lemma bind_inv {S A B} (m : M S A) (k : A -> M S B) (s s' : S) (r : result B) :
  bind m k s = (s', r) ->
  (exists e, m s = (s', Raise e) /\ r = Raise e)
  \/ (exists s1 a, m s = (s1, Ok a) /\ k a s1 = (s', r)).
Proof.
  unfold bind. destruct (m s) as [s1 [a|e]]; intros H.
  - right. now exists s1, a.
  - left. exists e. now injection H as <- <-.
Qed.

Section Keeps.
Context {S : Type} (R : S -> S -> Prop).
Hypothesis R_refl : forall s, R s s.
Hypothesis R_trans : forall s1 s2 s3, R s1 s2 -> R s2 s3 -> R s1 s3.

Lemma keeps_ret {A} (a : A) : keeps R (ret a).
Proof. intros s. apply R_refl. Qed.

Lemma keeps_raise {A} (e : exn) : keeps R (@raise S A e).
Proof. intros s. apply R_refl. Qed.

Lemma keeps_lift {A} (r : result A) : keeps R (lift r).
Proof. intros s. apply R_refl. Qed.

Lemma keeps_gets {A} (f : S -> A) : keeps R (gets f).
Proof. intros s. apply R_refl. Qed.

Lemma keeps_get : keeps R get.
Proof. intros s. apply R_refl. Qed.

Lemma keeps_bind {A B} (m : M S A) (k : A -> M S B) :
  keeps R m -> (forall a, keeps R (k a)) -> keeps R (bind m k).
Proof.
  intros Hm Hk s. unfold bind. specialize (Hm s).
  destruct (m s) as [s1 [a|e]]; cbn in *; [|exact Hm].
  eapply R_trans; [exact Hm|apply Hk].
Qed.

Lemma keeps_catch_all {A} (m h : M S A) :
  keeps R m -> keeps R h -> keeps R (catch_all m h).
Proof.
  intros Hm Hh s. unfold catch_all. specialize (Hm s).
  destruct (m s) as [s1 [a|e]]; cbn in *; [exact Hm|].
  eapply R_trans; [exact Hm|apply Hh].
Qed.

Lemma keeps_for_each {A} (l : list A) (body : A -> M S unit) :
  (forall x, keeps R (body x)) -> keeps R (for_each l body).
Proof.
  intros Hb. induction l as [|x l IH]; cbn [for_each].
  - apply keeps_ret.
  - apply keeps_bind; [apply Hb|intros _; exact IH].
Qed.
End Keeps.

(** ** One button *)

Lemma panel_kept_refl (s : PanelState) : panel_kept s s.
Proof. now repeat split. Qed.

Lemma panel_kept_trans (s1 s2 s3 : PanelState) :
  panel_kept s1 s2 -> panel_kept s2 s3 -> panel_kept s1 s3.
Proof.
  intros (B1 & S1 & A1) (B2 & S2 & A2).
  repeat split; [congruence|congruence|auto].
Qed.

Lemma keeps_update_action (a : nat) (f : Action -> Action) :
  keeps panel_kept (update_action a f).
Proof.
  intros s. unfold update_action, modify, panel_kept.
  cbn [fst ps_actions ps_buttons ps_shadow].
  split; [reflexivity|]. split; [reflexivity|]. intros b Hb.
  rewrite lookup_alter. case_decide; [subst; now apply fmap_is_Some|exact Hb].
Qed.

Lemma keeps_the_action (a : nat) : keeps panel_kept (the_action a).
Proof.
  intros s. unfold the_action.
  destruct (ps_actions s !! a); apply panel_kept_refl.
Qed.

(** Frame reasoning for method bodies over [PanelState]. *)
Ltac keeps_panel :=
  repeat (first
    [ apply (keeps_bind _ panel_kept_trans); [|intros ?]
    | apply (keeps_catch_all _ panel_kept_trans)
    | apply keeps_the_action
    | apply keeps_update_action
    | apply (keeps_ret _ panel_kept_refl)
    | apply (keeps_raise _ panel_kept_refl)
    | apply (keeps_lift _ panel_kept_refl)
    | apply (keeps_gets _ panel_kept_refl)
    | match goal with
      | |- keeps _ (match ?x with _ => _ end) => destruct x
      end
    | unfold setText, setIcon ]).

Lemma keeps_prepareAction rs h wb tb button :
  keeps panel_kept (prepareAction rs h wb tb button).
Proof. unfold prepareAction. keeps_panel. Qed.

(** Peel the [bind]s of a body that is known to have returned. *)
Ltac bind_ok H :=
  repeat match type of H with
         | bind _ _ _ = (_, Ok _) =>
             let e := fresh "e" in
             let s1 := fresh "s" in
             let x := fresh "x" in
             let H1 := fresh "Hm" in
             apply bind_inv in H;
             destruct H as [(e & _ & H) | (s1 & x & H1 & H)]; [discriminate|]
         end.

Lemma the_action_inv (a : nat) (s s' : PanelState) (action : Action) :
  the_action a s = (s', Ok action) ->
  s' = s /\ ps_actions s !! a = Some action.
Proof.
  unfold the_action. destruct (ps_actions s !! a); [|discriminate].
  now intros [= <- <-].
Qed.

Lemma prepareAction_ok rs h wb tb button (s s' : PanelState) (a : nat) :
  prepareAction rs h wb tb button s = (s', Ok a) ->
  btn_defaultAction button = Some a
  /\ panel_kept s s'
  /\ is_Some (ps_actions s' !! a).
Proof.
  intros H.
  pose proof (keeps_prepareAction rs h wb tb button s) as K.
  rewrite H in K. cbn [fst] in K.
  unfold prepareAction in H.
  destruct (btn_defaultAction button) as [a0|]; [|discriminate].
  bind_ok H. injection H as _ <-.
  apply the_action_inv in Hm as (_ & Ha).
  split; [reflexivity|]. split; [exact K|].
  apply K. now rewrite Ha.
Qed.

(** What [tryButton] does to the panel: on success one ribbon button, of
    one of the three sizes, carrying the source button's own default
    action and menu; on an exception, none.  The shadow list is not its
    business. *)
Lemma tryButton_result rs h wb tb button (s s' : PanelState) (r : result unit) :
  tryButton rs h wb tb button s = (s', r) ->
  ps_shadow s' = ps_shadow s
  /\ match r with
     | Ok _ =>
         exists a action size,
           btn_defaultAction button = Some a
           /\ ps_actions s' !! a = Some action
           /\ ps_buttons s'
              = ps_buttons s ++
                  [{| rb_size := size; rb_text := act_text action;
                      rb_icon := act_icon action; rb_defaultAction := a;
                      rb_menu := btn_menu button |}]
     | Raise _ => ps_buttons s' = ps_buttons s
     end.
Proof.
  unfold tryButton. intros H.
  apply bind_inv in H as [(e & H & ->) | (s1 & a & Hp & H)].
  { pose proof (keeps_prepareAction rs h wb tb button s) as K.
    rewrite H in K. now destruct K as (? & ? & _). }
  apply prepareAction_ok in Hp as (Hd & (Kb & Ks & _) & _).
  rewrite <- Kb, <- Ks.
  apply bind_inv in H as [(e & H & ->) | (s2 & action & Ha & H)].
  { unfold the_action in H. destruct (ps_actions s1 !! a); [discriminate|].
    now injection H as <-. }
  apply the_action_inv in Ha as (-> & Ha).
  apply bind_inv in H as [(e & H & ->) | (s2 & v & Hv & H)].
  { now injection H as <-. }
  injection Hv as <- Hv.
  apply bind_inv in H as [(e & H & ->) | (s2 & size & Hs & H)].
  { now injection H as <-. }
  injection Hs as <- Hs.
  unfold addButton, bind, the_action, modify in H. rewrite Ha in H.
  injection H as <- <-. cbn. split; [reflexivity|].
  now exists a, action, size.
Qed.

(** ** The button loop of a panel *)

Lemma existsb_eqb_In (t : string) (l : list string) :
  existsb (String.eqb t) l = true <-> In t l.
Proof.
  rewrite existsb_exists. split.
  - intros (x & Hx & E). apply String.eqb_eq in E. now subst.
  - intros H. exists t. split; [exact H|apply String.eqb_refl].
Qed.

(** One round of the button loop: the button is passed over, skipped for
    an exception in its [try], or added and recorded. *)
Lemma processButton_cases rs h wb tb button (s : PanelState) :
  (~ due h s button /\ processButton rs h wb tb button s = (s, Ok tt))
  \/ (due h s button
      /\ exists s1 e,
           tryButton rs h wb tb button s = (s1, Raise e)
           /\ ps_buttons s1 = ps_buttons s
           /\ ps_shadow s1 = ps_shadow s
           /\ processButton rs h wb tb button s = (s1, Ok tt))
  \/ (due h s button
      /\ exists s1 rb,
           tryButton rs h wb tb button s = (s1, Ok tt)
           /\ linked button rb
           /\ ps_buttons s1 = ps_buttons s ++ [rb]
           /\ ps_shadow s1 = ps_shadow s
           /\ processButton rs h wb tb button s = (recorded h button s1, Ok tt)).
Proof.
  destruct (processButton rs h wb tb button s) as [s2 r] eqn:P. revert P.
  unfold processButton, bind at 1, gets at 1, bind at 1, text_now at 1, gets at 1, due.
  destruct (String.eqb_spec (button_text h (ps_actions s) button) "") as [E|E].
  { intros [= <- <-]. left. split; [tauto|reflexivity]. }
  destruct (existsb (String.eqb (button_text h (ps_actions s) button)) (ps_shadow s))
    eqn:X.
  { intros [= <- <-]. left. apply existsb_eqb_In in X. split; [tauto|reflexivity]. }
  assert (Hfresh : ~ In (button_text h (ps_actions s) button) (ps_shadow s)).
  { rewrite <- existsb_eqb_In, X. discriminate. }
  unfold bind, catch_all.
  destruct (tryButton rs h wb tb button s) as [s1 [[]|e]] eqn:T;
    pose proof (tryButton_result _ _ _ _ _ _ _ _ T) as (Hs & Hb);
    cbn [ret]; unfold text_now, gets, shadow_append, modify;
    intros [= <- <-]; right.
  - right. split; [now split|].
    destruct Hb as (a & action & size & Hd & Ha & Hb).
    eexists s1, _. split; [reflexivity|]. split; [|split; [exact Hb|]].
    { split; [exact Hd|reflexivity]. }
    split; [exact Hs|reflexivity].
  - left. split; [now split|]. exists s1, e. now repeat split.
Qed.

(** What the [rounds] say of the panel: the ribbon buttons they add come,
    one each and in order, from the buttons [srcs], chosen among the buttons
    of the loop in their order. *)
Lemma rounds_sources rs h wb tb (l srcs : list ToolButton) (s s' : PanelState) :
  rounds rs h wb tb l s srcs s' ->
  sublist srcs l
  /\ exists rbs, ps_buttons s' = ps_buttons s ++ rbs /\ Forall2 linked srcs rbs.
Proof.
  induction 1 as [s|button l s srcs s' Hd _ (Hsub & rbs & Hb & Hl)
                  |button l s s1 e srcs s' Hd T Hb1 Hs1 _ (Hsub & rbs & Hb & Hl)
                  |button l s s1 rb srcs s' Hd T Hlink Hb1 Hs1 _ (Hsub & rbs & Hb & Hl)].
  - split; [constructor|]. exists []. rewrite app_nil_r. split; [reflexivity|constructor].
  - split; [now apply sublist_cons|]. now exists rbs.
  - split; [now apply sublist_cons|]. exists rbs. split; [congruence|exact Hl].
  - split; [now apply sublist_skip|]. exists (rb :: rbs).
    cbn [recorded ps_buttons] in Hb. rewrite Hb, Hb1, <- app_assoc.
    split; [reflexivity|now constructor].
Qed.

(** The button loop never raises, and it goes through the [rounds]; when
    no button changes its text on the way, the shadow list grows by the
    texts of the buttons that were added, each of them new and not
    empty. *)
Lemma button_loop_spec rs h wb tb (acts0 : gmap nat Action)
  (l : list ToolButton) (s : PanelState) :
  exists srcs,
    snd (for_each l (processButton rs h wb tb) s) = Ok tt
    /\ rounds rs h wb tb l s srcs (fst (for_each l (processButton rs h wb tb) s))
    /\ ((forall acts' b, In acts' (stores_of rs h wb tb l s) -> In b l ->
                         button_text h acts' b = button_text h acts0 b) ->
        ps_shadow (fst (for_each l (processButton rs h wb tb) s))
        = ps_shadow s ++ map (button_text h acts0) srcs
        /\ (forall t, In t (map (button_text h acts0) srcs) ->
                      t <> "" /\ ~ In t (ps_shadow s))
        /\ NoDup (map (button_text h acts0) srcs)).
Proof.
  revert s. induction l as [|button l IH]; intros s.
  { exists []. cbn. split; [reflexivity|]. split; [constructor|].
    intros _. rewrite app_nil_r. split; [reflexivity|].
    split; [intros t []|apply NoDup_nil_2]. }
  cbn [for_each stores_of]. unfold bind.
  destruct (processButton_cases rs h wb tb button s)
    as [(Hd & P) | [(Hd & s1 & e & T & Hb & Hs & P) | (Hd & s1 & rb & T & Hl & Hb & Hs & P)]];
    rewrite P; cbn [fst].
  - destruct (IH s) as (srcs & Hok & Hr & Ht). exists srcs.
    split; [exact Hok|]. split; [now apply rounds_passed_over|].
    intros Hst. apply Ht. intros acts' b Ha Hb. apply Hst; right; assumption.
  - destruct (IH s1) as (srcs & Hok & Hr & Ht). exists srcs.
    split; [exact Hok|]. split; [now apply rounds_skipped with (s1 := s1) (e := e)|].
    intros Hst. rewrite <- Hs. apply Ht.
    intros acts' b Ha Hb'. apply Hst; right; assumption.
  - destruct (IH (recorded h button s1)) as (srcs & Hok & Hr & Ht).
    exists (button :: srcs).
    split; [exact Hok|].
    split; [now apply rounds_added with (s1 := s1) (rb := rb)|].
    intros Hst.
    destruct Ht as (Hsh & Hnew & Hnd).
    { intros acts' b Ha Hb'. apply Hst; right; assumption. }
    assert (E1 : button_text h (ps_actions s1) button = button_text h acts0 button).
    { apply Hst; [|now left]. right.
      destruct l; cbn [stores_of recorded ps_actions]; now left. }
    assert (E0 : button_text h (ps_actions s) button = button_text h acts0 button).
    { apply Hst; now left. }
    cbn [recorded ps_shadow] in Hsh, Hnew. rewrite E1, Hs in Hsh, Hnew.
    destruct Hd as (Hne & Hfresh). rewrite E0 in Hne, Hfresh.
    cbn [map]. split; [now rewrite Hsh, <- app_assoc|]. split.
    + intros t [<-|Hin]; [now split|].
      destruct (Hnew t Hin) as (Hn & Hf). split; [exact Hn|].
      intros Hs'. apply Hf. apply in_or_app. now left.
    + apply NoDup_cons. split; [|exact Hnd].
      intros Hin. apply list_elem_of_In in Hin.
      destruct (Hnew _ Hin) as (_ & Hf). apply Hf. apply in_or_app. right. now left.
Qed.

(** C7, as the code has it.  In one panel build the loop never raises and
    goes through its [rounds]: a source button is passed over when its text
    is empty or already in the shadow list, in the state the loop has when
    it reaches the button; it is skipped when the body of its [try] raises;
    otherwise its ribbon button is added and its text recorded.  So the
    ribbon buttons are made, one each and in order, from the source buttons
    [srcs].  When no source button changes its text during this build, the
    shadow list is the list of the texts of these source buttons, pairwise
    distinct and not empty.  (The text a ribbon button shows is its
    action's, which the JSON structure can replace.) *)
Theorem panel_sources_and_shadow_list rs h wb tb
  (acts : gmap nat Action) (collected : list ToolButton) :
  let start := {| ps_actions := acts; ps_buttons := []; ps_shadow := [] |} in
  let run := for_each collected (processButton rs h wb tb) start in
  snd run = Ok tt
  /\ exists srcs,
       rounds rs h wb tb collected start srcs (fst run)
       /\ sublist srcs collected
       /\ Forall2 linked srcs (ps_buttons (fst run))
       /\ (texts_unchanged rs h wb tb collected acts ->
           ps_shadow (fst run) = map (button_text h acts) srcs
           /\ NoDup (ps_shadow (fst run))
           /\ ~ In "" (ps_shadow (fst run))).
Proof.
  cbn zeta.
  destruct (button_loop_spec rs h wb tb acts collected
              {| ps_actions := acts; ps_buttons := []; ps_shadow := [] |})
    as (srcs & Hok & Hr & Ht).
  split; [exact Hok|]. exists srcs. split; [exact Hr|].
  destruct (rounds_sources _ _ _ _ _ _ _ _ Hr) as (Hsub & rbs & Hb & Hl).
  cbn [ps_buttons app] in Hb.
  split; [exact Hsub|]. split; [now rewrite Hb|].
  intros Hst. destruct (Ht Hst) as (Hsh & Hnew & Hnd).
  cbn [ps_shadow app] in Hsh. rewrite Hsh.
  split; [reflexivity|]. split; [exact Hnd|].
  intros Hin. now destruct (Hnew _ Hin).
Qed.

Lemma panel_sources_and_shadow_list_witness :
  texts_unchanged Sample.structure Sample.installation "PartWorkbench" "File"
    [Sample.btn_new; Sample.btn_open; Sample.btn_new] (actions Sample.installation)
  /\ ps_shadow
       (fst (for_each [Sample.btn_new; Sample.btn_open; Sample.btn_new]
               (processButton Sample.structure Sample.installation
                  "PartWorkbench" "File")
               {| ps_actions := actions Sample.installation; ps_buttons := [];
                  ps_shadow := [] |}))
     = ["New"; "Open"]
  /\ NoDup (ps_shadow
              (fst (for_each [Sample.btn_new; Sample.btn_open; Sample.btn_new]
                      (processButton Sample.structure Sample.installation
                         "PartWorkbench" "File")
                      {| ps_actions := actions Sample.installation; ps_buttons := [];
                         ps_shadow := [] |}))).
Proof.
  assert (Hst : texts_unchanged Sample.structure Sample.installation
                  "PartWorkbench" "File"
                  [Sample.btn_new; Sample.btn_open; Sample.btn_new]
                  (actions Sample.installation)).
  { assert (Hall : forallb
                     (fun acts' =>
                        forallb
                          (fun b =>
                             String.eqb
                               (button_text Sample.installation acts' b)
                               (button_text Sample.installation
                                  (actions Sample.installation) b))
                          [Sample.btn_new; Sample.btn_open; Sample.btn_new])
                     (stores_of Sample.structure Sample.installation
                        "PartWorkbench" "File"
                        [Sample.btn_new; Sample.btn_open; Sample.btn_new]
                        {| ps_actions := actions Sample.installation;
                           ps_buttons := []; ps_shadow := [] |})
                   = true) by (vm_compute; reflexivity).
    intros acts' b Ha Hb.
    rewrite forallb_forall in Hall. specialize (Hall acts' Ha).
    rewrite forallb_forall in Hall. specialize (Hall b Hb).
    now apply String.eqb_eq in Hall. }
  destruct (panel_sources_and_shadow_list
              Sample.structure Sample.installation "PartWorkbench" "File"
              (actions Sample.installation)
              [Sample.btn_new; Sample.btn_open; Sample.btn_new])
    as (_ & srcs & _ & _ & _ & Hstable).
  split; [exact Hst|]. split; [vm_compute; reflexivity|].
  exact (proj1 (proj2 (Hstable Hst))).
Defined.

(** C7 as stated fails: with the text of both commands of the tool bar
    [File] replaced by [Document], the panel [File] holds two ribbon buttons
    with the same text; in this host, where a button shows the text of its
    action, the shadow list holds that text twice as well. *)
Lemma two_buttons_same_text :
  let st := Sample.part_active_with Sample.renaming in
  let built := fst (onWbActivated st) in
  (exists p rest,
     currentCategory (menu built) = Ok (p :: rest)
     /\ title p = "File"
     /\ map rb_text (buttons p) = ["Document"; "Document"]
     /\ ~ NoDup (map rb_text (buttons p)))
  /\ ps_shadow
       (fst (for_each [Sample.btn_new; Sample.btn_open; Sample.btn_new]
               (processButton Sample.renaming (host st) "PartWorkbench" "File")
               (Sample.empty_panel Sample.renaming)))
     = ["Document"; "Document"].
Proof.
  cbn zeta. split; [|vm_compute; reflexivity].
  eexists. eexists. split; [vm_compute; reflexivity|].
  split; [reflexivity|]. split; [reflexivity|].
  cbn. intros H. apply NoDup_cons in H as (H & _). apply H. now left.
Qed.

(** ** Button sizes *)

(** C8. For a button the loop does not pass over, whose action is
    prepared without an exception: the [size] entry of its command selects
    the small, the medium or the large ribbon button; a missing entry
    ([KeyError]) is read as ["small"]; any other value makes [size_of]
    raise [NotImplementedError], the button is then neither added to the
    panel nor recorded in the shadow list, and the loop goes on with the
    next button. *)
Theorem button_size_handling rs h wb tb (button : ToolButton)
  (s s1 : PanelState) (a : nat) (action : Action) (rest : list ToolButton) :
  button_text h (ps_actions s) button <> "" ->
  ~ In (button_text h (ps_actions s) button) (ps_shadow s) ->
  prepareAction rs h wb tb button s = (s1, Ok a) ->
  ps_actions s1 !! a = Some action ->
  let entry := py_path rs (command_path wb tb action ++ [JStr "size"]) in
  let added size :=
    {| ps_actions := ps_actions s1;
       ps_buttons := ps_buttons s ++
         [{| rb_size := size; rb_text := act_text action; rb_icon := act_icon action;
             rb_defaultAction := a; rb_menu := btn_menu button |}];
       ps_shadow := ps_shadow s ++ [button_text h (ps_actions s1) button] |} in
  (entry = Ok (JStr "small") \/ entry = Raise KeyError ->
   processButton rs h wb tb button s = (added Small, Ok tt))
  /\ (entry = Ok (JStr "medium") ->
      processButton rs h wb tb button s = (added Medium, Ok tt))
  /\ (entry = Ok (JStr "large") ->
      processButton rs h wb tb button s = (added Large, Ok tt))
  /\ (forall v, entry = Ok v ->
      v <> JStr "small" -> v <> JStr "medium" -> v <> JStr "large" ->
      size_of v = Raise NotImplementedError
      /\ processButton rs h wb tb button s = (s1, Ok tt)
      /\ ps_buttons s1 = ps_buttons s
      /\ ps_shadow s1 = ps_shadow s
      /\ for_each (button :: rest) (processButton rs h wb tb) s
         = for_each rest (processButton rs h wb tb) s1).
Proof.
  intros Htext Hfresh Hprep Ha entry added.
  destruct (prepareAction_ok _ _ _ _ _ _ _ _ Hprep) as (_ & (Kb & Ks & _) & _).
  assert (Hrun : forall size : result ButtonSize,
             (v <~ buttonSize_of rs wb tb action ;; size_of v) = size ->
             processButton rs h wb tb button s
             = match size with
               | Ok sz => (added sz, Ok tt)
               | Raise _ => (s1, Ok tt)
               end).
  { intros size Hsize.
    unfold processButton, bind at 1, gets at 1, bind at 1, text_now at 1, gets at 1.
    destruct (String.eqb_spec (button_text h (ps_actions s) button) "") as [E|_];
      [contradiction|].
    destruct (existsb (String.eqb (button_text h (ps_actions s) button)) (ps_shadow s))
      eqn:X.
    { apply existsb_eqb_In in X. contradiction. }
    unfold bind at 1, catch_all, bind at 1, tryButton, bind at 1.
    rewrite Hprep. unfold bind at 1, the_action. rewrite Ha.
    unfold bind at 1, lift at 1. unfold rbind in Hsize.
    destruct (buttonSize_of rs wb tb action) as [v|e]; [|now subst size].
    unfold bind at 1, lift at 1. rewrite Hsize.
    destruct size as [sz|e]; [|reflexivity].
    unfold addButton, bind, the_action, modify, ret, shadow_append, text_now, gets.
    rewrite Ha. cbn. unfold added. now rewrite Kb, Ks. }
  unfold buttonSize_of in Hrun. fold entry in Hrun.
  split; [intros [E|E]; rewrite E in Hrun; exact (Hrun _ eq_refl)|].
  split; [intros E; rewrite E in Hrun; exact (Hrun _ eq_refl)|].
  split; [intros E; rewrite E in Hrun; exact (Hrun _ eq_refl)|].
  intros v E N1 N2 N3. rewrite E in Hrun.
  assert (Hsz : size_of v = Raise NotImplementedError).
  { unfold size_of.
    destruct (py_eq v (JStr "small")) eqn:E1; [apply py_eq_JStr in E1; contradiction|].
    destruct (py_eq v (JStr "medium")) eqn:E2; [apply py_eq_JStr in E2; contradiction|].
    destruct (py_eq v (JStr "large")) eqn:E3; [apply py_eq_JStr in E3; contradiction|].
    reflexivity. }
  specialize (Hrun (Raise NotImplementedError)). cbn [rbind] in Hrun.
  specialize (Hrun Hsz). cbn iota in Hrun.
  split; [exact Hsz|]. split; [exact Hrun|]. split; [exact Kb|].
  split; [exact Ks|]. cbn [for_each]. unfold bind at 1. now rewrite Hrun.
Qed.

Lemma button_size_handling_witness :
  let h := Sample.installation_with Sample.oversized in
  let s := Sample.empty_panel Sample.oversized in
  button_text h (ps_actions s) Sample.btn_new <> ""
  /\ ~ In (button_text h (ps_actions s) Sample.btn_new) (ps_shadow s)
  /\ prepareAction Sample.oversized h "PartWorkbench" "File" Sample.btn_new s
     = (s, Ok 0)
  /\ ps_actions s !! 0 = Some Sample.act_new
  /\ processButton Sample.oversized h "PartWorkbench" "File" Sample.btn_new s
     = (s, Ok tt).
Proof.
  cbn zeta.
  assert (H1 : button_text (Sample.installation_with Sample.oversized)
                 (ps_actions (Sample.empty_panel Sample.oversized)) Sample.btn_new
               <> "") by (vm_compute; discriminate).
  assert (H2 : ~ In (button_text (Sample.installation_with Sample.oversized)
                       (ps_actions (Sample.empty_panel Sample.oversized))
                       Sample.btn_new)
                    (ps_shadow (Sample.empty_panel Sample.oversized)))
    by (intros []).
  assert (H3 : prepareAction Sample.oversized
                 (Sample.installation_with Sample.oversized)
                 "PartWorkbench" "File" Sample.btn_new
                 (Sample.empty_panel Sample.oversized)
               = (Sample.empty_panel Sample.oversized, Ok 0))
    by (vm_compute; reflexivity).
  assert (H4 : ps_actions (Sample.empty_panel Sample.oversized) !! 0
               = Some Sample.act_new) by (vm_compute; reflexivity).
  destruct (button_size_handling _ _ _ _ _ _ _ _ _ [] H1 H2 H3 H4)
    as (_ & _ & _ & Hother).
  destruct (Hother (JStr "huge")) as (_ & Hskip & _);
    [vm_compute; reflexivity|discriminate|discriminate|discriminate|].
  exact (conj H1 (conj H2 (conj H3 (conj H4 Hskip)))).
Defined.

(** ** Sorting keeps the elements *)

Lemma insert_by_perm {A} (key : A -> Z) (x : A) (l : list A) :
  Permutation (Py.insert_by key x l) (x :: l).
Proof.
  induction l as [|y l IH]; cbn; [reflexivity|].
  destruct (key x <=? key y)%Z; [reflexivity|].
  rewrite IH. apply perm_swap.
Qed.

Lemma sort_by_perm {A} (key : A -> Z) (l : list A) :
  Permutation (Py.sort_by key l) l.
Proof.
  unfold Py.sort_by. induction l as [|x l IH]; cbn; [reflexivity|].
  rewrite insert_by_perm. now constructor.
Qed.

Lemma keyed_values {A} (key : A -> result Z) (l : list A) (kl : list (Z * A)) :
  keyed key l = Ok kl -> map snd kl = l.
Proof.
  revert kl. induction l as [|x l IH]; cbn; intros kl.
  - now intros [= <-].
  - destruct (key x); [|discriminate]. cbn.
    destruct (keyed key l); [|discriminate]. cbn.
    intros [= <-]. cbn. now rewrite (IH _ eq_refl).
Qed.

Lemma py_sort_perm {A} (key : A -> result Z) (l sorted : list A) :
  py_sort key l = Ok sorted -> Permutation sorted l.
Proof.
  unfold py_sort. destruct (keyed key l) as [kl|] eqn:E; [|discriminate].
  cbn. intros [= <-]. rewrite <- (keyed_values _ _ _ E).
  apply Permutation_map, sort_by_perm.
Qed.

Lemma orderButtons_perm rs h wb tb acts (l sorted : list ToolButton) :
  orderButtons rs h wb tb acts l = Ok sorted -> Permutation sorted l.
Proof.
  unfold orderButtons, rbind.
  repeat match goal with
         | |- match ?x with _ => _ end = _ -> _ =>
             destruct x; try discriminate
         end;
    try (intros [= <-]; reflexivity).
  apply py_sort_perm.
Qed.

(** ** One panel *)

Lemma buildPanel_created rs h wb name acts :
  created_for name (snd (fst (buildPanel rs h wb name acts))).
Proof.
  unfold buildPanel, created_for.
  destruct (orderButtons _ _ _ _ _ _); [|now right].
  destruct (for_each _ _ _) as [s [[]|e]]; cbn; auto.
Qed.

Lemma buildPanel_panel_of rs h wb name acts acts' (p : Panel) :
  buildPanel rs h wb name acts = ((acts', p), Ok tt) ->
  panel_of rs h wb name acts p acts'.
Proof.
  unfold buildPanel.
  destruct (orderButtons _ _ _ _ _ _) as [sorted|] eqn:O; [|discriminate].
  destruct (button_loop_spec rs h wb name acts sorted
              {| ps_actions := acts; ps_buttons := []; ps_shadow := [] |})
    as (srcs & Hok & Hr & _).
  destruct (for_each _ _ _) as [s r]. cbn [fst snd] in Hok, Hr. subst r.
  intros [= <- <-].
  destruct (rounds_sources _ _ _ _ _ _ _ _ Hr) as (_ & rbs & Hb & Hl).
  cbn [ps_buttons app] in Hb.
  exists sorted, srcs, s. cbn [title buttons].
  split; [exact O|]. split; [now apply (orderButtons_perm _ _ _ _ _ _ _ O)|].
  split; [exact Hr|]. split; [reflexivity|]. split; [reflexivity|].
  split; [now rewrite Hb|reflexivity].
Qed.

(** ** The tool bars that get a panel *)

Lemma grown_by_refl {A} (P : A -> Prop) (l : list A) : grown_by P l l.
Proof. intros b Hb. now left. Qed.

Lemma grown_by_trans {A} (P : A -> Prop) (l1 l2 l3 : list A) :
  grown_by P l1 l2 -> grown_by P l2 l3 -> grown_by P l1 l3.
Proof.
  intros H12 H23 b Hb. destruct (H23 b Hb) as [H|H]; [now apply H12|now right].
Qed.

Lemma keeps_for_each_in {S A} (R : S -> S -> Prop)
  (R_refl : forall s, R s s) (R_trans : forall s1 s2 s3, R s1 s2 -> R s2 s3 -> R s1 s3)
  (l : list A) (body : A -> M S unit) :
  (forall x, In x l -> keeps R (body x)) -> keeps R (for_each l body).
Proof.
  induction l as [|x l IH]; intros Hb; cbn [for_each].
  - now apply keeps_ret.
  - apply keeps_bind; [exact R_trans|apply Hb; now left|].
    intros _. apply IH. intros y Hy. apply Hb. now right.
Qed.

Lemma py_remove_incl (x : JSON) (l r : list JSON) :
  py_remove x l = Ok r -> forall t, In t r -> In t l.
Proof.
  revert r. induction l as [|y l IH]; cbn; intros r; [discriminate|].
  destruct (py_eq y x).
  - intros [= <-] t Ht. now right.
  - unfold rbind. destruct (py_remove x l) as [r'|]; [|discriminate].
    intros [= <-] t [<-|Ht]; [now left|right; now apply (IH r')].
Qed.

Lemma sortToolbars_perm (rs : JSON) (wb : string) (l : list JSON) :
  Permutation (sortToolbars rs wb l) l.
Proof.
  unfold sortToolbars.
  destruct (ToolbarOrder <~ _ ;; py_sort (SortToolbars ToolbarOrder) l)
    as [sorted|] eqn:E; [|reflexivity].
  unfold rbind in E. destruct (py_path rs _) as [o|]; [|discriminate].
  now apply (py_sort_perm (SortToolbars o)).
Qed.

Lemma addCustomPanels_grown (rs : JSON) (wb : string) :
  keeps (grown_by (custom_panel_of rs wb)) (addCustomPanels rs wb).
Proof.
  pose proof (@grown_by_refl _ (custom_panel_of rs wb)) as Hr.
  pose proof (@grown_by_trans _ (custom_panel_of rs wb)) as Ht.
  unfold addCustomPanels.
  apply (keeps_catch_all _ Ht); [|apply (keeps_ret _ Hr)].
  intros l. unfold bind at 1, lift at 1.
  destruct (c <~ py_path rs [JStr "customToolbars"; JStr wb] ;; py_iter c)
    as [panels|] eqn:E; [|apply Hr].
  revert l. apply (keeps_for_each_in _ Hr Ht). intros CustomPanel Hin.
  apply (keeps_bind _ Ht).
  { intros l t Ht'. unfold modify in Ht'. cbn [fst] in Ht'.
    apply in_app_or in Ht' as [Ht'|[<-|[]]]; [now left|right].
    now exists panels. }
  intros _. apply (keeps_bind _ Ht); [apply (keeps_lift _ Hr)|].
  intros Commands. apply (keeps_for_each _ Hr Ht). intros Command.
  apply (keeps_catch_all _ Ht); [|apply (keeps_ret _ Hr)].
  apply (keeps_bind _ Ht); [apply (keeps_lift _ Hr)|]. intros OriginalToolbar.
  intros l. unfold bind, get, lift, put.
  destruct (py_remove OriginalToolbar l) as [r|] eqn:Er; cbn [fst]; [|apply Hr].
  intros t Ht'. left. now apply (py_remove_incl _ _ _ Er).
Qed.

Lemma py_eq_JStr_l (s : string) (v : JSON) :
  py_eq (JStr s) v = true <-> v = JStr s.
Proof.
  destruct v; cbn; split; try discriminate; try congruence.
  - intros H. apply String.eqb_eq in H. now subst.
  - intros H. injection H as ->. apply String.eqb_refl.
Qed.

Lemma ignored_In (ig : list JSON) (name : string) :
  existsb (py_eq (JStr name)) ig = true <-> In (JStr name) ig.
Proof.
  rewrite existsb_exists. split.
  - intros (x & Hx & E). apply py_eq_JStr_l in E. now subst.
  - intros H. exists (JStr name). split; [exact H|]. now apply py_eq_JStr_l.
Qed.

(** With a list of ignored tool bars, the test at the top of the panel loop
    never raises, and it lets a name through exactly when the name is
    wanted. *)
Lemma skipToolbar_spec rs (ig : list JSON) (toolbar : JSON) :
  py_getitem rs (JStr "ignoredToolbars") = Ok (JArr ig) ->
  exists skip,
    skipToolbar rs toolbar = Ok skip
    /\ (toolbar_wanted ig toolbar
        <-> skip = false /\ exists name, toolbar = JStr name).
Proof.
  intros Hig. unfold skipToolbar. rewrite Hig. cbn [rbind py_contains].
  destruct (existsb (py_eq toolbar) ig) eqn:X.
  - exists true. split; [reflexivity|]. split; [|intros ([=] & _)].
    intros (name & -> & _ & Hin). apply ignored_In in X. contradiction.
  - exists (py_eq toolbar (JStr "")). split; [reflexivity|]. split.
    + intros (name & -> & Hne & _). split; [|now exists name].
      cbn. now apply String.eqb_neq.
    + intros (E & name & ->). exists name. split; [reflexivity|]. split.
      * intros ->. cbn in E. discriminate.
      * intros Hin. apply ignored_In in Hin. congruence.
Qed.

Lemma chosen_exists (ig : list JSON) (l : list JSON) :
  exists wanted, chosen (toolbar_wanted ig) l (map JStr wanted).
Proof.
  induction l as [|t l (wanted & IH)]; [exists []; constructor|].
  assert (D : toolbar_wanted ig t \/ ~ toolbar_wanted ig t).
  { destruct t as [| | |name| |];
      try (right; intros (name' & Hn & _); discriminate Hn).
    destruct (String.eqb_spec name "") as [->|Hne].
    { right. intros (n & [= <-] & Hn & _). now apply Hn. }
    destruct (existsb (py_eq (JStr name)) ig) eqn:X.
    - right. intros (n & [= <-] & _ & Hn). apply Hn. now apply ignored_In.
    - left. exists name. split; [reflexivity|]. split; [exact Hne|].
      intros Hin. apply ignored_In in Hin. congruence. }
  destruct D as [Hw|Hw].
  - destruct Hw as (name & -> & Hw). exists (name :: wanted).
    cbn [map]. apply chosen_take; [now exists name|exact IH].
  - exists wanted. now apply chosen_drop.
Qed.

Lemma chosen_In {A} (P : A -> Prop) (l l' : list A) (x : A) :
  chosen P l l' -> (In x l' <-> In x l /\ P x).
Proof.
  induction 1 as [|y l l' Hy _ IH|y l l' Hy _ IH].
  - cbn. tauto.
  - cbn. rewrite IH. split.
    + intros [<-|(Hin & Hp)]; [split; [now left|exact Hy]|split; [now right|exact Hp]].
    + intros ([->|Hin] & Hp); [now left|right; now split].
  - rewrite IH. cbn. split.
    + intros (Hin & Hp). split; [now right|exact Hp].
    + intros ([->|Hin] & Hp); [contradiction|now split].
Qed.

(** ** The tool bar loop *)

Lemma toolbar_loop rs h wb (category : result (list Panel)) (ig : list JSON)
  (l : list JSON) (s s' : BuildState) (r : result unit) :
  py_getitem rs (JStr "ignoredToolbars") = Ok (JArr ig) ->
  for_each l (buildToolbar rs h wb category) s = (s', r) ->
  exists wanted names new,
    chosen (toolbar_wanted ig) l (map JStr wanted)
    /\ names `prefix_of` wanted
    /\ bs_panels s' = bs_panels s ++ new
    /\ Forall2 created_for names new
    /\ (r = Ok tt ->
        names = wanted
        /\ panels_of rs h wb (bs_actions s) names new (bs_actions s')).
Proof.
  intros Hig. revert s. induction l as [|toolbar l IH]; intros s.
  { intros [= <- <-]. exists [], [], []. rewrite app_nil_r.
    split; [constructor|]. split; [apply prefix_nil|].
    split; [reflexivity|]. split; [constructor|].
    intros _. split; [reflexivity|constructor]. }
  cbn [for_each]. unfold bind at 1, buildToolbar at 1.
  unfold bind at 1, lift at 1.
  assert (Hstop : forall e,
             (s', r) = (s, Raise e) ->
             exists wanted names new,
               chosen (toolbar_wanted ig) (toolbar :: l) (map JStr wanted)
               /\ names `prefix_of` wanted
               /\ bs_panels s' = bs_panels s ++ new
               /\ Forall2 created_for names new
               /\ (r = Ok tt ->
                   names = wanted
                   /\ panels_of rs h wb (bs_actions s) names new (bs_actions s'))).
  { intros e [= -> ->]. destruct (chosen_exists ig (toolbar :: l)) as (wanted & Hw).
    exists wanted, [], []. rewrite app_nil_r.
    split; [exact Hw|]. split; [apply prefix_nil|].
    split; [reflexivity|]. split; [constructor|discriminate]. }
  destruct (skipToolbar_spec rs ig toolbar Hig) as (skip & -> & Hskip).
  destruct skip.
  - intros H. destruct (IH _ H) as (wanted & names & new & Hw & Hrest).
    exists wanted, names, new. split; [|exact Hrest].
    apply chosen_drop; [|exact Hw]. rewrite Hskip. now intros ([=] & _).
  - unfold bind at 1, lift at 1.
    destruct category as [ps|e]; [|intros H; now apply (Hstop e)].
    destruct toolbar as [| | |name| |];
      try (intros H; now apply (Hstop TypeError)).
    assert (Hname : toolbar_wanted ig (JStr name))
      by (apply Hskip; split; [reflexivity|now exists name]).
    pose proof (buildPanel_created rs h wb name (bs_actions s)) as Hc.
    destruct (buildPanel rs h wb name (bs_actions s)) as [[acts p] [[]|e]] eqn:B;
      cbn [fst snd] in Hc.
    + intros H.
      destruct (IH _ H) as (wanted & names & new & Hw & Hpre & Hp & Hcr & Hok).
      exists (name :: wanted), (name :: names), (p :: new). cbn [bs_panels] in Hp.
      split; [cbn [map]; now apply chosen_take|].
      split; [now apply prefix_cons|].
      split; [now rewrite Hp, <- app_assoc|].
      split; [now constructor|].
      intros Hr. destruct (Hok Hr) as (-> & Hfrom).
      split; [reflexivity|].
      apply panels_of_cons with (acts1 := acts); [|exact Hfrom].
      now apply buildPanel_panel_of.
    + intros [= <- <-]. destruct (chosen_exists ig l) as (wanted & Hw).
      exists (name :: wanted), [name], [p]. cbn [bs_panels].
      split; [cbn [map]; now apply chosen_take|].
      split; [apply prefix_cons, prefix_nil|].
      split; [reflexivity|].
      split; [constructor; [exact Hc|constructor]|discriminate].
Qed.

(** ** The tool bar list *)




(** ** The panels of a build *)

Lemma buildPanels_panels (st : State) (old : list Panel) (ig : list JSON) :
  currentCategory (menu st) = Ok old ->
  py_getitem (ribbonStructure (menu st)) (JStr "ignoredToolbars") = Ok (JArr ig) ->
  let rs := ribbonStructure (menu st) in
  let h := host st in
  let wb := wb_name (active h) in
  exists wanted names new,
    currentCategory (menu (fst (buildPanels st))) = Ok (old ++ new)
    /\ chosen (toolbar_wanted ig) (ListToolbars rs h) (map JStr wanted)
    /\ names `prefix_of` wanted
    /\ Forall2 created_for names new
    /\ (isWbLoaded (menu st) !! currentTabName (menu st) = Some false ->
        snd (buildPanels st) = Ok tt ->
        names = wanted
        /\ panels_of rs h wb (actions h) names new
                     (actions (host (fst (buildPanels st))))).
Proof.
  intros Hcat Hig rs h wb. unfold buildPanels. fold rs h wb.
  destruct (chosen_exists ig (ListToolbars rs h)) as (wanted0 & Hw0).
  destruct (isWbLoaded (menu st) !! currentTabName (menu st)) as [[|]|];
    try (exists wanted0, [], []; rewrite app_nil_r; cbn [fst];
         split; [exact Hcat|]; split; [exact Hw0|];
         split; [apply prefix_nil|]; split; [constructor|discriminate]).
  destruct (for_each _ _ _) as [s r] eqn:E.
  destruct (toolbar_loop _ _ _ _ _ _ _ _ _ Hig E)
    as (wanted & names & new & Hw & Hpre & Hp & Hc & Hok).
  cbn [bs_panels bs_actions app] in Hp, Hok. rewrite Hp.
  exists wanted, names, new.
  assert (Hcur : currentCategory (addPanels new (menu st)) = Ok (old ++ new))
    by now apply currentCategory_addPanels.
  split; [now destruct r as [[]|e]|].
  split; [exact Hw|]. split; [exact Hpre|]. split; [exact Hc|].
  intros _ Hr. destruct r as [[]|e]; [|discriminate].
  now apply Hok.
Qed.




(** ** The tabs of [createModernMenu] *)

Lemma keeps_addQuickAccess (h : Host) (commandName : JSON) :
  keeps tabs_kept (addQuickAccess h commandName).
Proof.
  intros m. unfold addQuickAccess.
  destruct commandName; try now split.
  destruct (Command_get h s) as [c|]; [|now split].
  destruct (cmd_actions c); now split.
Qed.

Lemma quickAccess_loop_kept (h : Host) (l : list JSON) :
  keeps tabs_kept (for_each l (addQuickAccess h)).
Proof.
  apply keeps_for_each.
  - now split.
  - intros m1 m2 m3 (T1 & C1) (T2 & C2). split; congruence.
  - apply keeps_addQuickAccess.
Qed.

Lemma addWorkbenchTab_ok rs ordered w (m m' : ModernMenu) :
  addWorkbenchTab rs ordered w m = (m', Ok tt) ->
  tabs m' = tabs m ++ new_tab rs ordered w
  /\ categories m' = categories m ++ map (fun t => (t, [])) (new_tab rs ordered w).
Proof.
  unfold addWorkbenchTab, new_tab, tabWanted, ignoredWorkbench.
  destruct (String.eqb (wb_name w) ordered); cbn [andb].
  2:{ intros [= <-]. now rewrite !app_nil_r. }
  unfold bind at 1.
  destruct (String.eqb (wb_name w) ""); cbn [negb andb].
  { cbn. intros [= <-]. now rewrite !app_nil_r. }
  unfold lift.
  destruct (ig <~ py_getitem rs (JStr "ignoredWorkbenches");;
            py_contains ig (JStr (MenuText w))) as [[|]|e]; [| |discriminate].
  { cbn. intros [= <-]. now rewrite !app_nil_r. }
  unfold bind, modify, addCategory. cbn [categories set_isWbLoaded set_wbNameMapping].
  destruct (assoc (MenuText w) (categories m)); [discriminate|].
  intros [= <-]. cbn. split; [|reflexivity].
  now destruct (tabs m).
Qed.

Lemma workbench_loop_ok rs ordered (l : list Workbench) (m m' : ModernMenu) :
  for_each l (addWorkbenchTab rs ordered) m = (m', Ok tt) ->
  let new := map MenuText
               (List.filter (tabWanted rs)
                  (List.filter (fun w => String.eqb (wb_name w) ordered) l)) in
  tabs m' = tabs m ++ new
  /\ categories m' = categories m ++ map (fun t => (t, [])) new.
Proof.
  revert m. induction l as [|w l IH]; intros m; cbn [for_each].
  { intros [= <-]. cbn. now rewrite !app_nil_r. }
  intros H. bind_ok H. destruct x.
  apply addWorkbenchTab_ok in Hm as (T1 & C1).
  apply IH in H as (T2 & C2). cbn zeta in *.
  rewrite T2, C2, T1, C1, <- !app_assoc, <- map_app.
  unfold new_tab. cbn [List.filter].
  destruct (String.eqb (wb_name w) ordered); cbn [andb List.filter];
    [destruct (tabWanted rs w)|]; now split.
Qed.

Lemma ordered_loop_ok rs (wbs : list Workbench) (l : list string) (m m' : ModernMenu) :
  for_each l (fun ordered => for_each wbs (addWorkbenchTab rs ordered)) m = (m', Ok tt) ->
  let new := map MenuText
               (List.filter (tabWanted rs)
                  (flat_map (fun ordered =>
                               List.filter (fun w => String.eqb (wb_name w) ordered) wbs)
                            l)) in
  tabs m' = tabs m ++ new
  /\ categories m' = categories m ++ map (fun t => (t, [])) new.
Proof.
  revert m. induction l as [|ordered l IH]; intros m; cbn [for_each flat_map].
  { intros [= <-]. cbn. now rewrite !app_nil_r. }
  intros H. bind_ok H. destruct x.
  apply workbench_loop_ok in Hm as (T1 & C1).
  apply IH in H as (T2 & C2). cbn zeta in *.
  rewrite T2, C2, T1, C1, <- !app_assoc, <- !map_app.
  now rewrite List.filter_app, map_app.
Qed.

Lemma createModernMenu_tabs (st st' : State) :
  createModernMenu st = (st', Ok tt) ->
  let new := expectedTabs (ribbonStructure (menu st)) (host st) in
  tabs (menu st') = tabs (menu st) ++ new
  /\ categories (menu st') = categories (menu st) ++ map (fun t => (t, [])) new.
Proof.
  unfold createModernMenu, on_menu.
  destruct (bind _ _ (menu st)) as [mm r] eqn:E.
  intros [= <- ->]. cbn [menu with_menu].
  apply bind_inv in E as [(e & _ & [=]) | (s0 & names & Hn & E)].
  apply bind_inv in E as [(e & _ & [=]) | (s1 & [] & Hq & E)].
  injection Hn as <- _.
  pose proof (quickAccess_loop_kept (host st) names (menu st)) as (T0 & C0).
  rewrite Hq in T0, C0. cbn [fst] in T0, C0.
  apply ordered_loop_ok in E as (T & C).
  rewrite <- T0, <- C0. now split.
Qed.

Lemma expected_workbenches rs h (w : Workbench) :
  In w (List.filter (tabWanted rs) (orderedWorkbenches h)) ->
  In (wb_name w) (WorkbenchOrderedList h)
  /\ In w (workbenches h)
  /\ wb_name w <> ""
  /\ ignoredWorkbench rs w = Ok false.
Proof.
  intros H. apply filter_In in H as (H & Hw).
  apply in_flat_map in H as (ordered & Ho & H).
  apply filter_In in H as (H & E). apply String.eqb_eq in E. subst ordered.
  unfold tabWanted in Hw. apply andb_true_iff in Hw as (Hn & Hi).
  repeat split; auto.
  - intros E. rewrite E in Hn. discriminate.
  - now destruct (ignoredWorkbench rs w) as [[|]|].
Qed.

Lemma panels_of_titles rs h wb (acts acts' : gmap nat Action)
  (names : list string) (ps : list Panel) :
  panels_of rs h wb acts names ps acts' ->
  map title ps = map finalTitle names.
Proof.
  induction 1 as [|acts name p acts1 names ps acts' Hp _ IH]; [reflexivity|].
  destruct Hp as (_ & _ & _ & _ & _ & _ & Ht & _).
  cbn [map]. now rewrite Ht, IH.
Qed.

(** C5. [createModernMenu], when it returns, has added one category, and
    its tab, for exactly the workbenches whose name is in the ordered list
    of the host's preferences, in the order of that list, with a non-empty
    name and a [MenuText] that is not in
    [ribbonStructure["ignoredWorkbenches"]].  [buildPanels], with a list of
    ignored tool bars, adds panels to the current category only, one for
    each entry of its tool bar list that is a name, not empty and not in
    the list of ignored tool bars, in the order of the tool bar list and as
    far as the build gets; so it makes no panel for an empty or an ignored
    name.  When the build completes, the titles of the new panels are the
    wanted names, without [_custom] where a name ends with it. *)
Theorem tabs_and_panels_are_filtered (st1 st1' st2 : State) (old : list Panel)
  (ig : list JSON) :
  createModernMenu st1 = (st1', Ok tt) ->
  currentCategory (menu st2) = Ok old ->
  py_getitem (ribbonStructure (menu st2)) (JStr "ignoredToolbars") = Ok (JArr ig) ->
  (let rs := ribbonStructure (menu st1) in
   let h := host st1 in
   tabs (menu st1') = tabs (menu st1) ++ expectedTabs rs h
   /\ map fst (categories (menu st1'))
      = map fst (categories (menu st1)) ++ expectedTabs rs h
   /\ Forall (fun w => In (wb_name w) (WorkbenchOrderedList h)
                       /\ In w (workbenches h)
                       /\ wb_name w <> ""
                       /\ ignoredWorkbench rs w = Ok false)
             (List.filter (tabWanted rs) (orderedWorkbenches h)))
  /\ (let rs := ribbonStructure (menu st2) in
      let h := host st2 in
      exists wanted names new,
        currentCategory (menu (fst (buildPanels st2))) = Ok (old ++ new)
        /\ chosen (toolbar_wanted ig) (ListToolbars rs h) (map JStr wanted)
        /\ names `prefix_of` wanted
        /\ Forall2 created_for names new
        /\ Forall (fun name =>
                     name <> "" /\ ~ In (JStr name) ig
                     /\ In (JStr name) (ListToolbars rs h))
                  names
        /\ (isWbLoaded (menu st2) !! currentTabName (menu st2) = Some false ->
            snd (buildPanels st2) = Ok tt ->
            names = wanted /\ map title new = map finalTitle wanted)).
Proof.
  intros Hcreate Hcat Hig. split.
  - cbn zeta. destruct (createModernMenu_tabs _ _ Hcreate) as (T & C).
    split; [exact T|]. split.
    { rewrite C, map_app, map_map. cbn [fst]. now rewrite map_id. }
    apply Forall_forall. intros w Hw. apply list_elem_of_In in Hw.
    now apply expected_workbenches.
  - cbn zeta.
    destruct (buildPanels_panels st2 old ig Hcat Hig)
      as (wanted & names & new & Hcur & Hw & Hpre & Hc & Hall).
    exists wanted, names, new. split; [exact Hcur|]. split; [exact Hw|].
    split; [exact Hpre|]. split; [exact Hc|]. split.
    + apply Forall_forall. intros name Hn. apply list_elem_of_In in Hn.
      destruct Hpre as (k & ->).
      assert (Hin : In (JStr name) (map JStr (names ++ k)))
        by (apply in_map, in_or_app; now left).
      apply (chosen_In _ _ _ _ Hw) in Hin as (Hin & n' & [= <-] & Hne & Hni).
      now repeat split.
    + intros Hflag Hok. destruct (Hall Hflag Hok) as (-> & Hfrom).
      split; [reflexivity|]. exact (panels_of_titles _ _ _ _ _ _ _ Hfrom).
Qed.

Lemma tabs_and_panels_are_filtered_witness :
  snd (createModernMenu Sample.structure_read) = Ok tt
  /\ currentCategory (menu (beforePanels Sample.part_active)) = Ok []
  /\ py_getitem (ribbonStructure (menu (beforePanels Sample.part_active)))
       (JStr "ignoredToolbars") = Ok (JArr [JStr "Edit"])
  /\ tabs (menu (fst (createModernMenu Sample.structure_read))) = ["Draft"; "Part"]
  /\ map title (match currentCategory
                       (menu (fst (buildPanels (beforePanels Sample.part_active)))) with
                | Ok ps => ps
                | Raise _ => []
                end) = ["File"; "View"]
  /\ exists wanted names new,
       currentCategory (menu (fst (buildPanels (beforePanels Sample.part_active))))
       = Ok ([] ++ new)
       /\ chosen (toolbar_wanted [JStr "Edit"])
                 (ListToolbars (ribbonStructure (menu (beforePanels Sample.part_active)))
                               (host (beforePanels Sample.part_active)))
                 (map JStr wanted)
       /\ names `prefix_of` wanted
       /\ Forall2 created_for names new
       /\ Forall (fun name =>
                    name <> "" /\ ~ In (JStr name) [JStr "Edit"]
                    /\ In (JStr name)
                          (ListToolbars
                             (ribbonStructure (menu (beforePanels Sample.part_active)))
                             (host (beforePanels Sample.part_active))))
                 names
       /\ (isWbLoaded (menu (beforePanels Sample.part_active))
             !! currentTabName (menu (beforePanels Sample.part_active)) = Some false ->
           snd (buildPanels (beforePanels Sample.part_active)) = Ok tt ->
           names = wanted /\ map title new = map finalTitle wanted).
Proof.
  assert (H1 : createModernMenu Sample.structure_read
               = (fst (createModernMenu Sample.structure_read), Ok tt))
    by (vm_compute; reflexivity).
  assert (H2 : currentCategory (menu (beforePanels Sample.part_active)) = Ok [])
    by (vm_compute; reflexivity).
  assert (H3 : py_getitem (ribbonStructure (menu (beforePanels Sample.part_active)))
                 (JStr "ignoredToolbars") = Ok (JArr [JStr "Edit"]))
    by (vm_compute; reflexivity).
  destruct (tabs_and_panels_are_filtered _ _ _ _ _ H1 H2 H3) as ((T & _) & P).
  split; [now rewrite H1|]. split; [exact H2|]. split; [exact H3|].
  split; [rewrite T; vm_compute; reflexivity|].
  split; [vm_compute; reflexivity|exact P].
Defined.

(** ** What a build depends on *)

Lemma toolbar_loop_determined rs (h1 h2 : Host) (category : result (list Panel))
  (s : BuildState) :
  host_answers h1 = host_answers h2 ->
  for_each (ListToolbars rs h1) (buildToolbar rs h1 (wb_name (active h1)) category) s
  = for_each (ListToolbars rs h2) (buildToolbar rs h2 (wb_name (active h2)) category) s.
Proof.
  destruct h1, h2. unfold host_answers. cbn [workbenches active toolbars actions
    button_text commands param_groups param_strings].
  intros [= -> -> -> -> -> -> -> ->].
  cbv beta iota delta
    [ListToolbars List_ReturnCustomToolbars GetGroups GetString buildToolbar
     buildPanel allButtons List_AddCustomToolbarsToWorkbench findChild findChildren
     orderButtons sortButtons processButton text_now tryButton prepareAction
     Command_get workbenches active toolbars actions button_text commands
     param_groups param_strings].
  reflexivity.
Qed.






(** ** The ribbon structure is read once *)

Lemma structure_kept_refl (st : State) : structure_kept st st.
Proof. reflexivity. Qed.

Lemma structure_kept_trans (s1 s2 s3 : State) :
  structure_kept s1 s2 -> structure_kept s2 s3 -> structure_kept s1 s3.
Proof. unfold structure_kept. congruence. Qed.

Lemma keeps_structure_addQuickAccess (h : Host) (commandName : JSON) :
  keeps structure_kept_menu (addQuickAccess h commandName).
Proof.
  intros m. unfold addQuickAccess, structure_kept_menu.
  destruct commandName; try reflexivity.
  destruct (Command_get h s) as [c|]; [|reflexivity].
  now destruct (cmd_actions c).
Qed.

Lemma keeps_structure_addWorkbenchTab rs ordered (w : Workbench) :
  keeps structure_kept_menu (addWorkbenchTab rs ordered w).
Proof.
  intros m. unfold addWorkbenchTab, structure_kept_menu.
  destruct (String.eqb (wb_name w) ordered); [|reflexivity].
  unfold bind at 1.
  destruct (String.eqb (wb_name w) ""); [reflexivity|].
  unfold lift.
  destruct (ig <~ py_getitem rs (JStr "ignoredWorkbenches");;
            py_contains ig (JStr (MenuText w))) as [[|]|e]; try reflexivity.
  unfold bind, modify, addCategory. cbn [categories set_isWbLoaded set_wbNameMapping].
  now destruct (assoc (MenuText w) (categories m)).
Qed.

Lemma keeps_structure_createModernMenu : keeps structure_kept createModernMenu.
Proof.
  intros st. unfold createModernMenu, on_menu, structure_kept.
  match goal with
  | |- context [?body (menu st)] =>
      assert (K : keeps structure_kept_menu body);
      [|specialize (K (menu st)); destruct (body (menu st)) as [mm r]; exact K]
  end.
  assert (Hr : forall m, structure_kept_menu m m) by reflexivity.
  assert (Ht : forall m1 m2 m3 : ModernMenu,
             structure_kept_menu m1 m2 -> structure_kept_menu m2 m3 ->
             structure_kept_menu m1 m3)
    by (unfold structure_kept_menu; congruence).
  apply (keeps_bind _ Ht); [apply (keeps_lift _ Hr)|intros names].
  apply (keeps_bind _ Ht); [|intros _].
  - apply (keeps_for_each _ Hr Ht). apply keeps_structure_addQuickAccess.
  - apply (keeps_for_each _ Hr Ht). intros ordered.
    apply (keeps_for_each _ Hr Ht). apply keeps_structure_addWorkbenchTab.
Qed.

Lemma keeps_structure_buildPanels : keeps structure_kept buildPanels.
Proof. intros st. apply (same_structure _ _ (buildPanels_untouched st)). Qed.

Lemma keeps_structure_onWbActivated : keeps structure_kept onWbActivated.
Proof.
  intros st. unfold structure_kept. rewrite onWbActivated_unfold.
  destruct (beforePanels_frame st) as (Hm & _).
  destruct (updateCurrentTab_ok st) as (_ & _ & _ & _ & _ & Hrs & _).
  destruct (has_Workbench (active (host st))).
  - rewrite (keeps_structure_buildPanels (beforePanels st)). now rewrite Hm.
  - cbn [fst with_timer menu]. now rewrite Hm.
Qed.

Lemma keeps_structure_onUserChangedWorkbench :
  keeps structure_kept onUserChangedWorkbench.
Proof.
  unfold onUserChangedWorkbench.
  apply (keeps_bind _ structure_kept_trans);
    [apply (keeps_gets _ structure_kept_refl)|intros tabName].
  apply (keeps_bind _ structure_kept_trans);
    [apply (keeps_gets _ structure_kept_refl)|intros mapping].
  apply (keeps_bind _ structure_kept_trans);
    [|intros _; apply keeps_structure_onWbActivated].
  destruct (mapping !! tabName) as [w|]; [|apply (keeps_raise _ structure_kept_refl)].
  intros st. unfold activateWorkbench, bind, modify, gets, structure_kept.
  cbn [host log_call]. now destruct (find_workbench (host st) w).
Qed.

Lemma createModernMenu_files (files : list (string * result JSON)) (st : State) :
  snd (createModernMenu (with_host (set_json_files files) st))
  = snd (createModernMenu st)
  /\ menu (fst (createModernMenu (with_host (set_json_files files) st)))
     = menu (fst (createModernMenu st)).
Proof.
  destruct st as [h m t c]. destruct h.
  cbv beta iota zeta delta
    [createModernMenu on_menu with_host with_menu set_json_files host menu
     addQuickAccess Command_get WorkbenchOrderedList GetString
     workbenches active toolbars actions button_text commands param_groups
     param_strings module_dir json_files timer calls].
  match goal with
  | |- context [match ?x with _ => _ end] => destruct x
  end.
  now split.
Qed.

Lemma buildPanels_files (files : list (string * result JSON)) (st : State) :
  buildPanels (with_host (set_json_files files) st)
  = (with_host (set_json_files files) (fst (buildPanels st)), snd (buildPanels st)).
Proof.
  unfold buildPanels. cbn [menu with_host host].
  rewrite (toolbar_loop_determined _ (set_json_files files (host st)) (host st))
    by now destruct (host st).
  destruct (isWbLoaded (menu st) !! currentTabName (menu st)) as [[|]|];
    try reflexivity.
  change (actions (set_json_files files (host st))) with (actions (host st)).
  change (wb_name (active (set_json_files files (host st))))
    with (wb_name (active (host st))).
  now destruct (for_each _ _ _) as [s [[]|e]].
Qed.

(** C4. [__init__] reads [RibbonStructure.json] in the module's own
    directory with [json.load] and stores the result in
    [ModernMenu.ribbonStructure]; [createModernMenu] and
    [onUserChangedWorkbench] run after that, on the stored structure, and
    it is still what [ribbonStructure] holds when [__init__] ends.  No
    method writes [ribbonStructure] afterwards, and what [createModernMenu]
    and [buildPanels] decide does not depend on the files: they read the
    stored structure only. *)
Theorem structure_read_once (st later : State) (rs : JSON)
  (files : list (string * result JSON)) :
  json_load (host st) (Py.path_join (module_dir (host st)) "RibbonStructure.json")
  = Ok rs ->
  __init__ st
  = (createModernMenu ;;;
     onUserChangedWorkbench ;;;
     modify (with_menu (set_MainWindowLoaded true)))
      (with_menu (set_ribbonStructure rs)
                 (with_menu (set_signalsConnected true) st))
  /\ ribbonStructure (menu (fst (__init__ st))) = rs
  /\ (ribbonStructure (menu (fst (createModernMenu later)))
      = ribbonStructure (menu later)
      /\ ribbonStructure (menu (fst (onUserChangedWorkbench later)))
         = ribbonStructure (menu later)
      /\ ribbonStructure (menu (fst (onWbActivated later)))
         = ribbonStructure (menu later)
      /\ ribbonStructure (menu (fst (buildPanels later)))
         = ribbonStructure (menu later))
  /\ (let moved := with_host (set_json_files files) later in
      snd (createModernMenu moved) = snd (createModernMenu later)
      /\ menu (fst (createModernMenu moved)) = menu (fst (createModernMenu later))
      /\ snd (buildPanels moved) = snd (buildPanels later)
      /\ menu (fst (buildPanels moved)) = menu (fst (buildPanels later))
      /\ actions (host (fst (buildPanels moved)))
         = actions (host (fst (buildPanels later)))).
Proof.
  intros Hload.
  assert (Hinit : __init__ st
                  = (createModernMenu ;;;
                     onUserChangedWorkbench ;;;
                     modify (with_menu (set_MainWindowLoaded true)))
                      (with_menu (set_ribbonStructure rs)
                                 (with_menu (set_signalsConnected true) st))).
  { unfold __init__, connectSignals.
    unfold bind at 1, modify at 1. unfold bind at 1, gets at 1.
    unfold bind at 1, lift at 1, RibbonStructure_path.
    cbn [host with_menu]. rewrite Hload.
    unfold bind at 1, modify at 1. reflexivity. }
  split; [exact Hinit|]. split.
  { rewrite Hinit.
    assert (K : keeps structure_kept
                  (createModernMenu ;;;
                   onUserChangedWorkbench ;;;
                   modify (with_menu (set_MainWindowLoaded true)))).
    { apply (keeps_bind _ structure_kept_trans);
        [apply keeps_structure_createModernMenu|intros _].
      apply (keeps_bind _ structure_kept_trans);
        [apply keeps_structure_onUserChangedWorkbench|intros _].
      intros s. reflexivity. }
    rewrite (K _). reflexivity. }
  split.
  { split; [apply keeps_structure_createModernMenu|].
    split; [apply keeps_structure_onUserChangedWorkbench|].
    split; [apply keeps_structure_onWbActivated|apply keeps_structure_buildPanels]. }
  cbn zeta. destruct (createModernMenu_files files later) as (C1 & C2).
  split; [exact C1|]. split; [exact C2|].
  rewrite buildPanels_files. cbn [fst snd menu host with_host set_json_files actions].
  repeat split.
Qed.

Lemma structure_read_once_witness :
  json_load (host Sample.fresh)
            (Py.path_join (module_dir (host Sample.fresh)) "RibbonStructure.json")
  = Ok Sample.structure
  /\ ribbonStructure (menu (fst (__init__ Sample.fresh))) = Sample.structure.
Proof.
  assert (H : json_load (host Sample.fresh)
                (Py.path_join (module_dir (host Sample.fresh)) "RibbonStructure.json")
              = Ok Sample.structure) by (vm_compute; reflexivity).
  exact (conj H (proj1 (proj2 (structure_read_once Sample.fresh Sample.fresh
                                  Sample.structure [] H)))).
Defined.

(** * Further properties of the code *)

(** ** The classic tool bars *)

Lemma hide_map_spec (tbs : list ToolBar) :
  Forall2 (fun tb tb' =>
             objectName tb' = objectName tb
             /\ tb_buttons tb' = tb_buttons tb
             /\ tb_hidden tb' = to_hide tb || tb_hidden tb)
          tbs
          (map (fun toolbar =>
                  if negb (classicToolbarKept (objectName toolbar))
                  then hide toolbar else toolbar) tbs).
Proof.
  induction tbs as [|tb tbs IH]; cbn [map]; constructor; [|exact IH].
  unfold to_hide. cbn beta.
  destruct (classicToolbarKept (objectName tb));
    cbn [negb hide objectName tb_hidden tb_buttons orb]; auto.
Qed.

Lemma hide_map_twice (tbs : list ToolBar) :
  let f := fun toolbar =>
             if negb (classicToolbarKept (objectName toolbar))
             then hide toolbar else toolbar in
  map f (map f tbs) = map f tbs.
Proof.
  cbn zeta. induction tbs as [|tb tbs IH]; cbn [map]; [reflexivity|].
  rewrite IH. f_equal.
  destruct (classicToolbarKept (objectName tb)) eqn:E;
    cbn [negb hide objectName]; rewrite ?E; reflexivity.
Qed.

(** X1. [hideClassicToolbars] returns normally, keeps every tool bar with
    its name and its buttons, in the same order, and leaves a tool bar
    hidden exactly when it was hidden before or its name is none of [""],
    ["draft_status_scale_widget"], ["draft_snap_widget"]: it never shows a
    tool bar.  Nothing but the tool bars changes, and hiding twice is
    hiding once. *)
Theorem hideClassicToolbars_hides_the_others (st : State) :
  let st' := fst (hideClassicToolbars st) in
  snd (hideClassicToolbars st) = Ok tt
  /\ Forall2 (fun tb tb' =>
                objectName tb' = objectName tb
                /\ tb_buttons tb' = tb_buttons tb
                /\ tb_hidden tb' = to_hide tb || tb_hidden tb)
             (toolbars (host st)) (toolbars (host st'))
  /\ menu st' = menu st
  /\ actions (host st') = actions (host st)
  /\ active (host st') = active (host st)
  /\ timer st' = timer st
  /\ calls st' = calls st
  /\ hideClassicToolbars st' = (st', Ok tt).
Proof.
  cbn zeta. unfold hideClassicToolbars, modify. cbn [fst snd].
  split; [reflexivity|]. split; [apply hide_map_spec|].
  repeat (split; [reflexivity|]).
  f_equal. unfold with_host, set_toolbars. cbn.
  f_equal. f_equal. apply hide_map_twice.
Qed.

(** X2. After [onWbActivated], whatever its outcome (panels built, build
    aborted by an exception, or retry scheduled), every tool bar of the
    main window whose name is none of the three kept names is hidden. *)
Theorem onWbActivated_hides_classic_toolbars (st : State) :
  Forall (fun tb => to_hide tb = true -> tb_hidden tb = true)
         (toolbars (host (fst (onWbActivated st)))).
Proof.
  assert (H : Forall (fun tb => to_hide tb = true -> tb_hidden tb = true)
                     (toolbars (host (beforePanels st)))).
  { unfold beforePanels, hideClassicToolbars, modify. cbn [fst].
    unfold with_host, set_toolbars. cbn [host toolbars].
    generalize (toolbars (host (fst (updateCurrentTab st)))). intros tbs.
    induction tbs as [|tb tbs IH]; cbn [map]; constructor; [|exact IH].
    unfold to_hide. cbn beta.
    destruct (classicToolbarKept (objectName tb)) eqn:E;
      cbn [negb hide objectName tb_hidden]; [|reflexivity].
    rewrite ?E. discriminate. }
  rewrite onWbActivated_unfold.
  destruct (has_Workbench (active (host st))).
  - now rewrite (same_toolbars _ _ (buildPanels_untouched (beforePanels st))).
  - exact H.
Qed.

(** ** Retrying *)

Lemma onWbActivated_not_loaded (st : State) :
  has_Workbench (active (host st)) = false ->
  let st' := fst (onWbActivated st) in
  snd (onWbActivated st) = Ok tt
  /\ active (host st') = active (host st)
  /\ timeout_slots (timer st') = timeout_slots (timer st) ++ [Slot_onWbActivated]
  /\ singleShot (timer st') = true
  /\ started (timer st') = Some 100%Z
  /\ categories (menu st') = categories (menu st)
  /\ isWbLoaded (menu st') = isWbLoaded (menu st).
Proof.
  intros H. cbn zeta. rewrite onWbActivated_unfold, H.
  destruct (beforePanels_frame st) as (Hm & Ha & _ & Ht & _).
  destruct (updateCurrentTab_ok st) as (_ & _ & _ & Hc & Hl & _).
  cbn [fst snd with_timer timer menu host retryLater timeout_slots singleShot started].
  rewrite Hm, Ha, Ht, Hc, Hl. tauto.
Qed.

(** X3. While the active workbench has no [__Workbench__] attribute, [n]
    calls of [onWbActivated] all return normally, build nothing, and leave
    [n] more connections of [timeout] to [onWbActivated] on the module's
    timer: no call takes a connection away. *)
Theorem retries_pile_up_connections (st : State) (n : nat) :
  has_Workbench (active (host st)) = false ->
  let st' := fst (repeat_call n onWbActivated st) in
  snd (repeat_call n onWbActivated st) = Ok tt
  /\ timeout_slots (timer st')
     = timeout_slots (timer st) ++ repeat Slot_onWbActivated n
  /\ categories (menu st') = categories (menu st)
  /\ isWbLoaded (menu st') = isWbLoaded (menu st)
  /\ has_Workbench (active (host st')) = false.
Proof.
  revert st. induction n as [|n IH]; intros st H; cbn zeta.
  { cbn. rewrite app_nil_r. tauto. }
  cbn [repeat_call]. unfold bind.
  destruct (onWbActivated_not_loaded st H) as (Hok & Ha & Hs & _ & _ & Hc & Hl).
  destruct (onWbActivated st) as [st1 r1]. cbn [fst snd] in *. subst r1.
  assert (H1 : has_Workbench (active (host st1)) = false) by now rewrite Ha.
  destruct (IH st1 H1) as (Hok' & Hs' & Hc' & Hl' & Hw').
  split; [exact Hok'|]. rewrite Hs', Hs, Hc', Hc, Hl', Hl, <- app_assoc.
  cbn [repeat app]. tauto.
Qed.

Lemma retries_pile_up_connections_witness :
  has_Workbench (active (host Sample.constructed)) = false
  /\ length (timeout_slots
               (timer (fst (repeat_call 3 onWbActivated Sample.constructed))))
     = 4.
Proof.
  assert (H : has_Workbench (active (host Sample.constructed)) = false)
    by (vm_compute; reflexivity).
  destruct (retries_pile_up_connections Sample.constructed 3 H) as (_ & Hs & _).
  split; [exact H|]. rewrite Hs. vm_compute. reflexivity.
Defined.

(** ** The dictionaries of the tabs *)

Lemma assoc_app_some {A} (k : string) (l1 l2 : list (string * A)) :
  assoc k l1 <> None -> assoc k (l1 ++ l2) <> None.
Proof.
  induction l1 as [|[k' v] l1 IH]; cbn; [congruence|].
  destruct (String.eqb k k'); [discriminate|exact IH].
Qed.

Lemma assoc_app_last {A} (k : string) (v : A) (l : list (string * A)) :
  assoc k (l ++ [(k, v)]) <> None.
Proof.
  induction l as [|[k' v'] l IH]; cbn.
  - rewrite String.eqb_refl. discriminate.
  - destruct (String.eqb k k'); [discriminate|exact IH].
Qed.

Lemma addWorkbenchTab_registers rs ordered w (m m' : ModernMenu) (ws : list Workbench) :
  addWorkbenchTab rs ordered w m = (m', Ok tt) ->
  registered m ws ->
  registered m' (ws ++ (if String.eqb (wb_name w) ordered && tabWanted rs w
                        then [w] else [])).
Proof.
  unfold addWorkbenchTab, tabWanted, ignoredWorkbench.
  destruct (String.eqb (wb_name w) ordered); cbn [andb].
  2:{ intros [= <-]. now rewrite app_nil_r. }
  unfold bind at 1.
  destruct (String.eqb (wb_name w) ""); cbn [negb andb].
  { cbn. intros [= <-]. now rewrite app_nil_r. }
  unfold lift.
  destruct (ig <~ py_getitem rs (JStr "ignoredWorkbenches");;
            py_contains ig (JStr (MenuText w))) as [[|]|e]; [| |discriminate].
  { cbn. intros [= <-]. now rewrite app_nil_r. }
  unfold bind, modify, addCategory. cbn [categories set_isWbLoaded set_wbNameMapping].
  destruct (assoc (MenuText w) (categories m)) eqn:Fresh; [discriminate|].
  intros [= <-] Hreg w' Hin. cbn.
  apply in_app_or in Hin as [Hin|[<-|[]]].
  - destruct (Hreg w' Hin) as (Hc & Hm & Hl).
    assert (Hne : MenuText w <> MenuText w') by (intros E; rewrite E in Fresh; tauto).
    split; [now apply assoc_app_some|].
    now rewrite !lookup_insert_ne.
  - split; [apply assoc_app_last|]. rewrite !lookup_insert_eq.
    split; [reflexivity|now eexists].
Qed.

Lemma workbench_loop_registers rs ordered (l ws : list Workbench) (m m' : ModernMenu) :
  for_each l (addWorkbenchTab rs ordered) m = (m', Ok tt) ->
  registered m ws ->
  registered m' (ws ++ List.filter (tabWanted rs)
                         (List.filter (fun w => String.eqb (wb_name w) ordered) l)).
Proof.
  revert m ws. induction l as [|w l IH]; intros m ws; cbn [for_each].
  { intros [= <-]. cbn. now rewrite app_nil_r. }
  intros H Hreg. bind_ok H. destruct x.
  pose proof (addWorkbenchTab_registers _ _ _ _ _ _ Hm Hreg) as Hreg1.
  pose proof (IH _ _ H Hreg1) as Hreg2.
  cbn [List.filter].
  destruct (String.eqb (wb_name w) ordered); cbn [andb List.filter] in *.
  - destruct (tabWanted rs w); [now rewrite <- app_assoc in Hreg2|].
    now rewrite app_nil_r in Hreg2.
  - now rewrite app_nil_r in Hreg2.
Qed.

Lemma ordered_loop_registers rs (wbs ws : list Workbench) (l : list string)
  (m m' : ModernMenu) :
  for_each l (fun ordered => for_each wbs (addWorkbenchTab rs ordered)) m = (m', Ok tt) ->
  registered m ws ->
  registered m'
    (ws ++ List.filter (tabWanted rs)
             (flat_map (fun ordered =>
                          List.filter (fun w => String.eqb (wb_name w) ordered) wbs)
                       l)).
Proof.
  revert m ws. induction l as [|ordered l IH]; intros m ws; cbn [for_each flat_map].
  { intros [= <-]. cbn. now rewrite app_nil_r. }
  intros H Hreg. bind_ok H. destruct x.
  pose proof (workbench_loop_registers _ _ _ _ _ _ Hm Hreg) as Hreg1.
  pose proof (IH _ _ H Hreg1) as Hreg2.
  now rewrite List.filter_app, app_assoc.
Qed.

Lemma keeps_registry_addQuickAccess (h : Host) (commandName : JSON) :
  keeps registry_kept (addQuickAccess h commandName).
Proof.
  intros m. unfold addQuickAccess, registry_kept.
  destruct commandName; try tauto.
  destruct (Command_get h s) as [c|]; [|tauto].
  destruct (cmd_actions c); cbn; tauto.
Qed.

Lemma remove_ampersands_none (t : string) :
  Py.contains "&" t = false -> remove_ampersands t = t.
Proof.
  induction t as [|c t IH]; [reflexivity|].
  cbn [Py.contains Py.startswith remove_ampersands].
  rewrite Ascii.eqb_sym.
  destruct (Ascii.eqb c "&"); cbn [orb]; [discriminate|].
  intros H. now rewrite IH.
Qed.

(** X4. When [createModernMenu] returns, every workbench that got a tab
    (the workbenches of the ordered list with a non-empty name and a
    [MenuText] that is not ignored) has that tab, the name of the workbench
    under its [MenuText] in [wbNameMapping], and an entry under it in
    [isWbLoaded].  With a [MenuText] free of ['&'] the key that
    [onUserChangedWorkbench] and [buildPanels] look up is this very key. *)
Theorem createModernMenu_registers_tabs (st st' : State) (w : Workbench) :
  createModernMenu st = (st', Ok tt) ->
  In w (List.filter (tabWanted (ribbonStructure (menu st)))
                    (orderedWorkbenches (host st))) ->
  In (MenuText w) (tabs (menu st'))
  /\ wbNameMapping (menu st') !! MenuText w = Some (wb_name w)
  /\ is_Some (isWbLoaded (menu st') !! MenuText w)
  /\ (Py.contains "&" (MenuText w) = false ->
      wbNameMapping (menu st') !! Py.replace "&" "" (MenuText w) = Some (wb_name w)
      /\ is_Some (isWbLoaded (menu st') !! Py.replace "&" "" (MenuText w))).
Proof.
  intros Hcreate Hin.
  destruct (createModernMenu_tabs _ _ Hcreate) as (Htabs & _). cbn zeta in Htabs.
  assert (Hreg : wbNameMapping (menu st') !! MenuText w = Some (wb_name w)
                 /\ is_Some (isWbLoaded (menu st') !! MenuText w)).
  { unfold createModernMenu, on_menu in Hcreate.
    destruct (bind _ _ (menu st)) as [mm r] eqn:E.
    injection Hcreate as <- ->. cbn [menu with_menu].
    apply bind_inv in E as [(e & _ & [=]) | (s0 & names & Hn & E)].
    apply bind_inv in E as [(e & _ & [=]) | (s1 & [] & Hq & E)].
    injection Hn as <- _.
    pose proof (keeps_for_each registry_kept
                  (fun m => conj eq_refl (conj eq_refl eq_refl))
                  (fun m1 m2 m3 H1 H2 =>
                     match H1, H2 with
                     | conj a1 (conj b1 c1), conj a2 (conj b2 c2) =>
                         conj (eq_trans a2 a1)
                              (conj (eq_trans b2 b1) (eq_trans c2 c1))
                     end)
                  names (addQuickAccess (host st))
                  (keeps_registry_addQuickAccess (host st)) (menu st)) as K.
    rewrite Hq in K. cbn [fst] in K.
    assert (H0 : registered s1 []) by (intros ? []).
    pose proof (ordered_loop_registers _ _ _ _ _ _ E H0) as Hreg.
    cbn [app] in Hreg. destruct (Hreg w Hin) as (_ & ? & ?). now split. }
  destruct Hreg as (Hm & Hl).
  split.
  { rewrite Htabs. apply in_or_app. right. unfold expectedTabs.
    now apply in_map. }
  split; [exact Hm|]. split; [exact Hl|].
  intros Hamp. rewrite replace_ampersand, (remove_ampersands_none _ Hamp).
  now split.
Qed.

Lemma createModernMenu_registers_tabs_witness :
  snd (createModernMenu Sample.structure_read) = Ok tt
  /\ In Sample.part
        (List.filter (tabWanted (ribbonStructure (menu Sample.structure_read)))
                     (orderedWorkbenches (host Sample.structure_read)))
  /\ wbNameMapping (menu (fst (createModernMenu Sample.structure_read))) !! "Part"
     = Some "PartWorkbench".
Proof.
  assert (H1 : createModernMenu Sample.structure_read
               = (fst (createModernMenu Sample.structure_read), Ok tt))
    by (vm_compute; reflexivity).
  assert (H2 : In Sample.part
                 (List.filter
                    (tabWanted (ribbonStructure (menu Sample.structure_read)))
                    (orderedWorkbenches (host Sample.structure_read))))
    by (vm_compute; tauto).
  destruct (createModernMenu_registers_tabs _ _ _ H1 H2) as (_ & Hm & _).
  split; [now rewrite H1|]. split; [exact H2|exact Hm].
Defined.

(** ** An empty order of the workbenches *)

Lemma workbench_loop_no_name rs (l : list Workbench) (m : ModernMenu) :
  for_each l (addWorkbenchTab rs "") m = (m, Ok tt).
Proof.
  induction l as [|w l IH]; [reflexivity|].
  cbn [for_each]. unfold bind, addWorkbenchTab.
  destruct (String.eqb (wb_name w) "") eqn:E; cbn; exact IH.
Qed.

(** X5. With no order of the workbenches in the host's preferences (the
    string [Ordered] is empty or not set), [createModernMenu] adds no tab
    and no category and writes neither [wbNameMapping] nor [isWbLoaded],
    whatever the workbenches and the structure are and however it ends. *)
Theorem no_order_no_tabs (st : State) :
  GetString (host st) WorkbenchOrderParam "Ordered" = "" ->
  let st' := fst (createModernMenu st) in
  tabs (menu st') = tabs (menu st)
  /\ categories (menu st') = categories (menu st)
  /\ wbNameMapping (menu st') = wbNameMapping (menu st)
  /\ isWbLoaded (menu st') = isWbLoaded (menu st).
Proof.
  intros Hord. cbn zeta. unfold createModernMenu, on_menu, WorkbenchOrderedList.
  rewrite Hord. cbn [Py.split for_each].
  destruct (bind _ _ (menu st)) as [mm r] eqn:E. cbn [fst menu with_menu].
  apply bind_inv in E as [(e & E & _) | (s0 & names & Hn & E)].
  { injection E as <- _. tauto. }
  injection Hn as <- _.
  pose proof (quickAccess_loop_kept (host st) names (menu st)) as (T0 & C0).
  pose proof (keeps_for_each registry_kept
                (fun m => conj eq_refl (conj eq_refl eq_refl))
                (fun m1 m2 m3 H1 H2 =>
                   match H1, H2 with
                   | conj a1 (conj b1 c1), conj a2 (conj b2 c2) =>
                       conj (eq_trans a2 a1)
                            (conj (eq_trans b2 b1) (eq_trans c2 c1))
                   end)
                names (addQuickAccess (host st))
                (keeps_registry_addQuickAccess (host st)) (menu st))
    as (M0 & L0 & _).
  apply bind_inv in E as [(e & E & _) | (s1 & [] & Hq & E)].
  { rewrite E in T0, C0, M0, L0. cbn [fst] in *. tauto. }
  rewrite Hq in T0, C0, M0, L0. cbn [fst] in *.
  unfold bind in E. rewrite workbench_loop_no_name in E.
  injection E as <- _. tauto.
Qed.

Lemma no_order_no_tabs_witness :
  GetString (host sample_no_order) WorkbenchOrderParam "Ordered" = ""
  /\ tabs (menu (fst (createModernMenu sample_no_order))) = [].
Proof.
  assert (H : GetString (host sample_no_order) WorkbenchOrderParam "Ordered" = "")
    by (vm_compute; reflexivity).
  destruct (no_order_no_tabs sample_no_order H) as (T & _).
  split; [exact H|]. rewrite T. vm_compute. reflexivity.
Defined.

(** ** The constructor *)

Lemma flag_kept_refl (st : State) : flag_kept st st.
Proof. reflexivity. Qed.

Lemma flag_kept_trans (s1 s2 s3 : State) :
  flag_kept s1 s2 -> flag_kept s2 s3 -> flag_kept s1 s3.
Proof. unfold flag_kept. congruence. Qed.

Lemma keeps_flag_addQuickAccess (h : Host) (commandName : JSON) :
  keeps flag_kept_menu (addQuickAccess h commandName).
Proof.
  intros m. unfold addQuickAccess, flag_kept_menu.
  destruct commandName; try reflexivity.
  destruct (Command_get h s) as [c|]; [|reflexivity].
  now destruct (cmd_actions c).
Qed.

Lemma keeps_flag_addWorkbenchTab rs ordered (w : Workbench) :
  keeps flag_kept_menu (addWorkbenchTab rs ordered w).
Proof.
  intros m. unfold addWorkbenchTab, flag_kept_menu.
  destruct (String.eqb (wb_name w) ordered); [|reflexivity].
  unfold bind at 1.
  destruct (String.eqb (wb_name w) ""); [reflexivity|].
  unfold lift.
  destruct (ig <~ py_getitem rs (JStr "ignoredWorkbenches");;
            py_contains ig (JStr (MenuText w))) as [[|]|e]; try reflexivity.
  unfold bind, modify, addCategory. cbn [categories set_isWbLoaded set_wbNameMapping].
  now destruct (assoc (MenuText w) (categories m)).
Qed.

Lemma keeps_flag_createModernMenu : keeps flag_kept createModernMenu.
Proof.
  intros st. unfold createModernMenu, on_menu, flag_kept.
  match goal with
  | |- context [?body (menu st)] =>
      assert (K : keeps flag_kept_menu body);
      [|specialize (K (menu st)); destruct (body (menu st)) as [mm r]; exact K]
  end.
  assert (Hr : forall m, flag_kept_menu m m) by reflexivity.
  assert (Ht : forall m1 m2 m3 : ModernMenu,
             flag_kept_menu m1 m2 -> flag_kept_menu m2 m3 -> flag_kept_menu m1 m3)
    by (unfold flag_kept_menu; congruence).
  apply (keeps_bind _ Ht); [apply (keeps_lift _ Hr)|intros names].
  apply (keeps_bind _ Ht); [|intros _].
  - apply (keeps_for_each _ Hr Ht). apply keeps_flag_addQuickAccess.
  - apply (keeps_for_each _ Hr Ht). intros ordered.
    apply (keeps_for_each _ Hr Ht). apply keeps_flag_addWorkbenchTab.
Qed.

Lemma keeps_flag_onWbActivated : keeps flag_kept onWbActivated.
Proof.
  intros st. unfold flag_kept. rewrite onWbActivated_unfold.
  destruct (beforePanels_frame st) as (Hm & _).
  assert (Hu : MainWindowLoaded (menu (fst (updateCurrentTab st)))
               = MainWindowLoaded (menu st)).
  { unfold updateCurrentTab. destruct (negb _); [|reflexivity]. cbn.
    unfold setCurrentIndex. now destruct (_ && _)%bool. }
  destruct (has_Workbench (active (host st))).
  - rewrite (same_loaded_flag _ _ (buildPanels_untouched (beforePanels st))).
    now rewrite Hm.
  - cbn [fst with_timer menu]. now rewrite Hm.
Qed.

Lemma keeps_flag_onUserChangedWorkbench : keeps flag_kept onUserChangedWorkbench.
Proof.
  unfold onUserChangedWorkbench.
  apply (keeps_bind _ flag_kept_trans);
    [apply (keeps_gets _ flag_kept_refl)|intros tabName].
  apply (keeps_bind _ flag_kept_trans);
    [apply (keeps_gets _ flag_kept_refl)|intros mapping].
  apply (keeps_bind _ flag_kept_trans);
    [|intros _; apply keeps_flag_onWbActivated].
  destruct (mapping !! tabName) as [w|]; [|apply (keeps_raise _ flag_kept_refl)].
  intros st. unfold activateWorkbench, bind, modify, gets, flag_kept.
  cbn [host log_call]. now destruct (find_workbench (host st) w).
Qed.

Lemma init_cases (st : State) :
  match json_load (host st) (RibbonStructure_path (host st)) with
  | Raise e => __init__ st = (with_menu (set_signalsConnected true) st, Raise e)
  | Ok rs =>
      __init__ st
      = (createModernMenu ;;;
         onUserChangedWorkbench ;;;
         modify (with_menu (set_MainWindowLoaded true)))
          (with_menu (set_ribbonStructure rs)
                     (with_menu (set_signalsConnected true) st))
  end.
Proof.
  destruct (json_load _ _) as [rs|e] eqn:E;
    unfold __init__, connectSignals, bind, modify, gets, lift;
    cbn [host with_menu]; now rewrite E.
Qed.

(** X6. [MainWindowLoaded] is set by the last statement of [__init__]
    and by nothing before it: after [__init__] it is true when the
    constructor returned, and what it was when the constructor raised.  So
    after a constructor that raised on a fresh class ([MainWindowLoaded]
    false), [LoadMarcoFreeCAD] loads no script. *)
Theorem MainWindowLoaded_tells_construction (st : State) (scriptName : string) :
  let st' := fst (__init__ st) in
  MainWindowLoaded (menu st')
  = (if is_ok (snd (__init__ st)) then true else MainWindowLoaded (menu st))
  /\ (MainWindowLoaded (menu st) = false ->
      is_ok (snd (__init__ st)) = false ->
      LoadMarcoFreeCAD scriptName st' = (st', Ok tt)).
Proof.
  cbn zeta.
  assert (H : MainWindowLoaded (menu (fst (__init__ st)))
              = (if is_ok (snd (__init__ st)) then true
                 else MainWindowLoaded (menu st))).
  { pose proof (init_cases st) as C.
    destruct (json_load _ _) as [rs|e]; rewrite C; [|reflexivity].
    unfold bind.
    pose proof (keeps_flag_createModernMenu
                  (with_menu (set_ribbonStructure rs)
                             (with_menu (set_signalsConnected true) st))) as K1.
    destruct (createModernMenu _) as [s1 [[]|e]]; cbn [fst snd is_ok] in *;
      [|exact K1].
    pose proof (keeps_flag_onUserChangedWorkbench s1) as K2.
    destruct (onUserChangedWorkbench s1) as [s2 [[]|e]]; cbn [fst snd is_ok] in *.
    - reflexivity.
    - unfold flag_kept in *. now rewrite K2, K1. }
  split; [exact H|].
  intros Hfalse Hraise. unfold LoadMarcoFreeCAD.
  now rewrite H, Hraise, Hfalse.
Qed.

Lemma MainWindowLoaded_tells_construction_witness :
  MainWindowLoaded (menu sample_without_file) = false
  /\ is_ok (snd (__init__ sample_without_file)) = false
  /\ LoadMarcoFreeCAD "Align.py" (fst (__init__ sample_without_file))
     = (fst (__init__ sample_without_file), Ok tt).
Proof.
  assert (H1 : MainWindowLoaded (menu sample_without_file) = false)
    by (vm_compute; reflexivity).
  assert (H2 : is_ok (snd (__init__ sample_without_file)) = false)
    by (vm_compute; reflexivity).
  exact (conj H1 (conj H2
           (proj2 (MainWindowLoaded_tells_construction
                     sample_without_file "Align.py") H1 H2))).
Defined.

(** X7. When [RibbonStructure.json] cannot be opened or parsed,
    [__init__] raises that very exception right after connecting the
    signals: no tab, no category, no outside call, [ribbonStructure] and
    the two dictionaries as they were. *)
Theorem construction_without_structure (st : State) (e : exn) :
  json_load (host st) (RibbonStructure_path (host st)) = Raise e ->
  __init__ st = (with_menu (set_signalsConnected true) st, Raise e)
  /\ tabs (menu (fst (__init__ st))) = tabs (menu st)
  /\ categories (menu (fst (__init__ st))) = categories (menu st)
  /\ ribbonStructure (menu (fst (__init__ st))) = ribbonStructure (menu st)
  /\ calls (fst (__init__ st)) = calls st
  /\ host (fst (__init__ st)) = host st.
Proof.
  intros H.
  assert (E : __init__ st = (with_menu (set_signalsConnected true) st, Raise e)).
  { pose proof (init_cases st) as C. now rewrite H in C. }
  rewrite E. repeat split.
Qed.

Lemma construction_without_structure_witness :
  json_load (host sample_without_file) (RibbonStructure_path (host sample_without_file))
  = Raise OSError
  /\ snd (__init__ sample_without_file) = Raise OSError.
Proof.
  assert (H : json_load (host sample_without_file)
                (RibbonStructure_path (host sample_without_file)) = Raise OSError)
    by (vm_compute; reflexivity).
  split; [exact H|].
  now rewrite (proj1 (construction_without_structure _ _ H)).
Defined.

(** ** The other tabs *)

Lemma assoc_assoc_set_ne {A} (k k' : string) (v : A) (kv : list (string * A)) :
  k' <> k -> assoc k' (assoc_set k v kv) = assoc k' kv.
Proof.
  intros Hne. induction kv as [|[k0 v0] kv IH]; [reflexivity|].
  cbn. destruct (String.eqb k k0) eqn:E; cbn; [|now rewrite IH].
  apply String.eqb_eq in E. subst k0.
  destruct (String.eqb k' k) eqn:E'; [|reflexivity].
  apply String.eqb_eq in E'. contradiction.
Qed.

Lemma buildPanels_categories (st : State) :
  categories (menu (fst (buildPanels st))) = categories (menu st)
  \/ exists ps,
       categories (menu (fst (buildPanels st))) = categories (addPanels ps (menu st)).
Proof.
  unfold buildPanels.
  destruct (isWbLoaded (menu st) !! currentTabName (menu st)) as [[|]|];
    [now left| |now left].
  destruct (for_each _ _ _) as [s [[]|e]]; right; exists (bs_panels s); reflexivity.
Qed.

Lemma buildPanels_appends (st : State) (old : list Panel) :
  currentCategory (menu st) = Ok old ->
  exists new, currentCategory (menu (fst (buildPanels st))) = Ok (old ++ new).
Proof.
  intros Hcat. unfold buildPanels.
  destruct (isWbLoaded (menu st) !! currentTabName (menu st)) as [[|]|];
    try (exists []; rewrite app_nil_r; exact Hcat).
  destruct (for_each _ _ _) as [s r]. exists (bs_panels s).
  assert (Hcur : currentCategory (addPanels (bs_panels s) (menu st))
                 = Ok (old ++ bs_panels s))
    by now apply currentCategory_addPanels.
  now destruct r as [[]|e].
Qed.

(** X8. [buildPanels] works on the current category only: the categories
    keep their titles and their order, the panels of every other category
    are what they were, and the panels the current category had are still
    there, in front of the new ones. *)
Theorem buildPanels_keeps_the_other_tabs (st : State) (t : string) (old : list Panel) :
  t <> tabText (menu st) (currentIndex (menu st)) ->
  currentCategory (menu st) = Ok old ->
  let st' := fst (buildPanels st) in
  map fst (categories (menu st')) = map fst (categories (menu st))
  /\ assoc t (categories (menu st')) = assoc t (categories (menu st))
  /\ exists new, currentCategory (menu st') = Ok (old ++ new).
Proof.
  intros Hne Hcat. cbn zeta.
  destruct (buildPanels_appends st old Hcat) as (new & Hcur).
  split; [|split; [|now exists new]].
  - destruct (buildPanels_categories st) as [->|(ps & ->)]; [reflexivity|].
    unfold addPanels. rewrite Hcat. cbn. apply assoc_set_keys.
  - destruct (buildPanels_categories st) as [->|(ps & ->)]; [reflexivity|].
    unfold addPanels. rewrite Hcat. cbn. now apply assoc_assoc_set_ne.
Qed.

Lemma buildPanels_keeps_the_other_tabs_witness :
  let st := beforePanels Sample.part_active in
  "Draft" <> tabText (menu st) (currentIndex (menu st))
  /\ currentCategory (menu st) = Ok []
  /\ assoc "Draft" (categories (menu (fst (buildPanels st)))) = Some [].
Proof.
  cbn zeta.
  assert (H1 : "Draft" <> tabText (menu (beforePanels Sample.part_active))
                                  (currentIndex (menu (beforePanels Sample.part_active))))
    by (vm_compute; discriminate).
  assert (H2 : currentCategory (menu (beforePanels Sample.part_active)) = Ok [])
    by (vm_compute; reflexivity).
  destruct (buildPanels_keeps_the_other_tabs _ _ _ H1 H2) as (_ & H & _).
  split; [exact H1|]. split; [exact H2|]. rewrite H. vm_compute. reflexivity.
Defined.

(** ** The actions during a build *)

Lemma actions_kept_refl (acts : gmap nat Action) : actions_kept acts acts.
Proof. intros a. destruct (acts !! a) as [x|] eqn:E; [now exists x|reflexivity]. Qed.

Lemma actions_kept_trans (a1 a2 a3 : gmap nat Action) :
  actions_kept a1 a2 -> actions_kept a2 a3 -> actions_kept a1 a3.
Proof.
  intros H12 H23 a. specialize (H12 a). specialize (H23 a).
  destruct (a1 !! a) as [x|].
  - destruct H12 as (y & Hy & Dy). rewrite Hy in H23.
    destruct H23 as (z & Hz & Dz). exists z. split; [exact Hz|congruence].
  - now rewrite H12 in H23.
Qed.

Lemma touch_kept_refl (button : ToolButton) (s : PanelState) : touch_kept button s s.
Proof. split; [apply actions_kept_refl|reflexivity]. Qed.

Lemma touch_kept_trans (button : ToolButton) (s1 s2 s3 : PanelState) :
  touch_kept button s1 s2 -> touch_kept button s2 s3 -> touch_kept button s1 s3.
Proof.
  intros (K1 & O1) (K2 & O2). split; [now apply (actions_kept_trans _ _ _ K1)|].
  intros a Ha. now rewrite O2, O1.
Qed.

Lemma keeps_touch_update (button : ToolButton) (a : nat) (f : Action -> Action) :
  btn_defaultAction button = Some a ->
  (forall x, act_data (f x) = act_data x) ->
  keeps (touch_kept button) (update_action a f).
Proof.
  intros Hd Hf s. unfold update_action, modify, touch_kept.
  cbn [fst ps_actions]. split.
  - intros b. rewrite lookup_alter. case_decide as E.
    + subst b. destruct (ps_actions s !! a) as [x|]; cbn; [|reflexivity].
      exists (f x). split; [reflexivity|apply Hf].
    + destruct (ps_actions s !! b) as [x|]; [now exists x|reflexivity].
  - intros b Hb. rewrite lookup_alter_ne; [reflexivity|congruence].
Qed.

Lemma keeps_touch_same (button : ToolButton) {A} (m : M PanelState A) :
  (forall s, ps_actions (fst (m s)) = ps_actions s) ->
  keeps (touch_kept button) m.
Proof.
  intros H s. unfold touch_kept. rewrite H.
  split; [apply actions_kept_refl|reflexivity].
Qed.

Lemma keeps_touch_the_action (button : ToolButton) (a : nat) :
  keeps (touch_kept button) (the_action a).
Proof.
  apply keeps_touch_same. intros s. unfold the_action.
  now destruct (ps_actions s !! a).
Qed.

Lemma keeps_touch_prepareAction rs h wb tb (button : ToolButton) :
  keeps (touch_kept button) (prepareAction rs h wb tb button).
Proof.
  unfold prepareAction.
  destruct (btn_defaultAction button) as [a|] eqn:D;
    [|apply (keeps_raise _ (touch_kept_refl button))].
  repeat (first
    [ apply (keeps_bind _ (touch_kept_trans button)); [|intros ?]
    | apply keeps_touch_the_action
    | apply (keeps_touch_update button a _ D); intros ?; reflexivity
    | apply (keeps_ret _ (touch_kept_refl button))
    | apply (keeps_raise _ (touch_kept_refl button))
    | apply (keeps_lift _ (touch_kept_refl button))
    | match goal with
      | |- keeps _ (match ?x with _ => _ end) => destruct x
      end
    | unfold setText, setIcon ]).
Qed.

Lemma keeps_touch_tryButton rs h wb tb (button : ToolButton) :
  keeps (touch_kept button) (tryButton rs h wb tb button).
Proof.
  unfold tryButton.
  apply (keeps_bind _ (touch_kept_trans button));
    [apply keeps_touch_prepareAction|intros a].
  apply (keeps_bind _ (touch_kept_trans button));
    [apply keeps_touch_the_action|intros action].
  apply (keeps_bind _ (touch_kept_trans button));
    [apply (keeps_lift _ (touch_kept_refl button))|intros buttonSize].
  apply (keeps_bind _ (touch_kept_trans button));
    [apply (keeps_lift _ (touch_kept_refl button))|intros size].
  unfold addButton.
  apply (keeps_bind _ (touch_kept_trans button));
    [apply keeps_touch_the_action|intros action'].
  now apply keeps_touch_same.
Qed.

Lemma keeps_touch_processButton rs h wb tb (button : ToolButton) :
  keeps (touch_kept button) (processButton rs h wb tb button).
Proof.
  unfold processButton.
  apply (keeps_bind _ (touch_kept_trans button));
    [apply (keeps_gets _ (touch_kept_refl button))|intros shadowList].
  apply (keeps_bind _ (touch_kept_trans button));
    [apply (keeps_gets _ (touch_kept_refl button))|intros text].
  destruct (String.eqb text ""); [apply (keeps_ret _ (touch_kept_refl button))|].
  destruct (existsb _ _); [apply (keeps_ret _ (touch_kept_refl button))|].
  apply (keeps_bind _ (touch_kept_trans button)).
  - apply (keeps_catch_all _ (touch_kept_trans button));
      [|apply (keeps_ret _ (touch_kept_refl button))].
    apply (keeps_bind _ (touch_kept_trans button));
      [apply keeps_touch_tryButton|intros _].
    apply (keeps_ret _ (touch_kept_refl button)).
  - intros [|]; [|apply (keeps_ret _ (touch_kept_refl button))].
    apply (keeps_bind _ (touch_kept_trans button));
      [apply (keeps_gets _ (touch_kept_refl button))|intros text'].
    now apply keeps_touch_same.
Qed.

Lemma button_loop_actions_kept rs h wb tb (l : list ToolButton) :
  keeps panel_actions_kept (for_each l (processButton rs h wb tb)).
Proof.
  apply keeps_for_each.
  - intros s. apply actions_kept_refl.
  - intros s1 s2 s3. apply actions_kept_trans.
  - intros button s. apply (keeps_touch_processButton rs h wb tb button s).
Qed.

Lemma buildPanel_actions_kept rs h wb name (acts : gmap nat Action) :
  actions_kept acts (fst (fst (buildPanel rs h wb name acts))).
Proof.
  unfold buildPanel.
  destruct (orderButtons _ _ _ _ _ _) as [sorted|e]; [|apply actions_kept_refl].
  pose proof (button_loop_actions_kept rs h wb name sorted
                {| ps_actions := acts; ps_buttons := []; ps_shadow := [] |}) as K.
  destruct (for_each _ _ _) as [s [[]|e]]; exact K.
Qed.

Lemma keeps_actions_buildToolbar rs h wb category (toolbar : JSON) :
  keeps build_actions_kept (buildToolbar rs h wb category toolbar).
Proof.
  intros s. unfold buildToolbar, bind, lift, build_actions_kept.
  destruct (skipToolbar rs toolbar) as [[|]|e]; try apply actions_kept_refl.
  destruct category as [ps|e]; [|apply actions_kept_refl].
  destruct toolbar as [| | |name| |]; try apply actions_kept_refl.
  pose proof (buildPanel_actions_kept rs h wb name (bs_actions s)) as K.
  now destruct (buildPanel rs h wb name (bs_actions s)) as [[acts p] r].
Qed.

Lemma buildPanels_actions_kept (st : State) :
  actions_kept (actions (host st)) (actions (host (fst (buildPanels st)))).
Proof.
  unfold buildPanels.
  destruct (isWbLoaded (menu st) !! currentTabName (menu st)) as [[|]|];
    try apply actions_kept_refl.
  match goal with
  | |- context [for_each ?l ?body ?s0] =>
      pose proof (keeps_for_each build_actions_kept
                    (fun s => actions_kept_refl (bs_actions s))
                    (fun s1 s2 s3 => actions_kept_trans _ _ _)
                    l body
                    (keeps_actions_buildToolbar _ _ _ _) s0) as K;
      destruct (for_each l body s0) as [s [[]|e]]
  end; exact K.
Qed.

(** X9. Activating a workbench and building its panels never creates or
    destroys an action and never changes the data of one: after
    [onWbActivated] (and after [buildPanels]) the store holds the same
    actions, each with the [data()] it had; only texts and icons can have
    changed. *)
Theorem build_keeps_actions_and_their_data (st : State) :
  actions_kept (actions (host st)) (actions (host (fst (buildPanels st))))
  /\ actions_kept (actions (host st)) (actions (host (fst (onWbActivated st)))).
Proof.
  split; [apply buildPanels_actions_kept|].
  rewrite onWbActivated_unfold.
  destruct (beforePanels_frame st) as (_ & _ & Ha & _).
  destruct (has_Workbench (active (host st))).
  - rewrite <- Ha. apply buildPanels_actions_kept.
  - cbn [fst with_timer host]. rewrite Ha. apply actions_kept_refl.
Qed.

(** X10. A round of the button loop changes no action but the default
    action of its own button, whether the button is added, passed over or
    skipped for an exception. *)
Theorem processButton_touches_its_own_action rs h wb tb
  (button : ToolButton) (s : PanelState) (a : nat) :
  btn_defaultAction button <> Some a ->
  ps_actions (fst (processButton rs h wb tb button s)) !! a = ps_actions s !! a.
Proof.
  intros Ha. now apply (keeps_touch_processButton rs h wb tb button s).
Qed.

Lemma processButton_touches_its_own_action_witness :
  btn_defaultAction Sample.btn_new <> Some 1
  /\ ps_actions
       (fst (processButton Sample.renaming (Sample.installation_with Sample.renaming)
               "PartWorkbench" "File" Sample.btn_new
               (Sample.empty_panel Sample.renaming))) !! 1
     = Some Sample.act_open.
Proof.
  assert (H : btn_defaultAction Sample.btn_new <> Some 1) by discriminate.
  split; [exact H|].
  rewrite (processButton_touches_its_own_action _ _ _ _ _ _ _ H).
  vm_compute. reflexivity.
Defined.

(** ** The overrides of the JSON structure *)

Lemma text_kept_at_refl (a : nat) (s : PanelState) : text_kept_at a s s.
Proof. intros x Hx. now exists x. Qed.

Lemma text_kept_at_trans (a : nat) (s1 s2 s3 : PanelState) :
  text_kept_at a s1 s2 -> text_kept_at a s2 s3 -> text_kept_at a s1 s3.
Proof.
  intros H12 H23 x Hx. destruct (H12 x Hx) as (y & Hy & Ty).
  destruct (H23 y Hy) as (z & Hz & Tz). exists z. split; [exact Hz|congruence].
Qed.

Lemma keeps_text_setIcon (a b : nat) (name : string) :
  keeps (text_kept_at a) (setIcon b name).
Proof.
  intros s x Hx. unfold setIcon, update_action, modify. cbn [fst ps_actions].
  rewrite lookup_alter. case_decide as E.
  - subst b. rewrite Hx. cbn. eexists. split; [reflexivity|reflexivity].
  - now exists x.
Qed.

Lemma tryButton_after_prepare rs h wb tb button (s s' : PanelState) :
  tryButton rs h wb tb button s = (s', Ok tt) ->
  exists s1 a,
    prepareAction rs h wb tb button s = (s1, Ok a)
    /\ ps_actions s' = ps_actions s1.
Proof.
  unfold tryButton. intros H.
  apply bind_inv in H as [(e & _ & [=]) | (s1 & a & Hp & H)].
  exists s1, a. split; [exact Hp|].
  apply bind_inv in H as [(e & _ & [=]) | (s2 & action & Ha & H)].
  apply the_action_inv in Ha as (-> & Ha).
  apply bind_inv in H as [(e & _ & [=]) | (s2 & v & Hv & H)].
  injection Hv as <- _.
  apply bind_inv in H as [(e & _ & [=]) | (s2 & size & Hs & H)].
  injection Hs as <- _.
  unfold addButton, bind, the_action, modify in H. rewrite Ha in H.
  now injection H as <-.
Qed.

Lemma prepareAction_overrides rs h wb tb button (s s1 : PanelState)
  (a : nat) (action : Action) :
  prepareAction rs h wb tb button s = (s1, Ok a) ->
  ps_actions s !! a = Some action ->
  exists action1,
    ps_actions s1 !! a = Some action1
    /\ (forall t, py_path rs (command_path wb tb action ++ [JStr "text"]) = Ok (JStr t) ->
        act_text action1 = t)
    /\ (py_path rs (command_path wb tb action ++ [JStr "text"]) = Raise KeyError ->
        act_text action1 = act_text action)
    /\ (forall i, py_path rs (command_path wb tb action ++ [JStr "icon"]) = Ok (JStr i) ->
        i <> "" -> act_icon action1 = Some i).
Proof.
  intros H Ha.
  destruct (prepareAction_ok _ _ _ _ _ _ _ _ H) as (D & _ & _).
  unfold prepareAction in H. rewrite D in H.
  apply bind_inv in H as [(e & _ & [=]) | (s0 & action0 & H0 & H)].
  apply the_action_inv in H0 as (-> & H0).
  rewrite Ha in H0. injection H0 as <-.
  apply bind_inv in H as [(e & _ & [=]) | (s2 & [] & Htext & H)].
  apply bind_inv in H as [(e & _ & [=]) | (s3 & action2 & H2 & H)].
  apply the_action_inv in H2 as (-> & H2).
  apply bind_inv in H as [(e & _ & [=]) | (s3 & [] & Hnone & H)].
  apply bind_inv in H as [(e & _ & [=]) | (s4 & [] & Hicon & H)].
  injection H as ->.
  (* the text after the first step *)
  assert (T2 : (forall t, py_path rs (command_path wb tb action ++ [JStr "text"])
                          = Ok (JStr t) -> act_text action2 = t)
               /\ (py_path rs (command_path wb tb action ++ [JStr "text"])
                   = Raise KeyError -> act_text action2 = act_text action)).
  { destruct (py_path rs (command_path wb tb action ++ [JStr "text"]))
      as [[| | |t| |]|[]]; try discriminate.
    - unfold setText, update_action, modify in Htext. injection Htext as <-.
      cbn [ps_actions] in H2. rewrite lookup_alter_eq, Ha in H2.
      injection H2 as <-. split; [now intros ? [= <-]|discriminate].
    - injection Htext as <-. rewrite Ha in H2. injection H2 as <-.
      split; [discriminate|reflexivity]. }
  (* the two icon steps keep the text *)
  assert (K3 : text_kept_at a s2 s3).
  { match type of Hnone with
    | ?m s2 = _ =>
        assert (K : keeps (text_kept_at a) m);
        [|specialize (K s2); now rewrite Hnone in K]
    end.
    destruct (act_icon action2); [apply (keeps_ret _ (text_kept_at_refl a))|].
    apply (keeps_bind _ (text_kept_at_trans a));
      [apply (keeps_lift _ (text_kept_at_refl a))|intros commandName].
    destruct commandName as [| | |n| |];
      try apply (keeps_raise _ (text_kept_at_refl a)).
    destruct (Command_get h n);
      [apply keeps_text_setIcon|apply (keeps_raise _ (text_kept_at_refl a))]. }
  assert (K4 : text_kept_at a s3 s1
               /\ (forall i, py_path rs (command_path wb tb action ++ [JStr "icon"])
                             = Ok (JStr i) -> i <> "" ->
                   forall x, ps_actions s3 !! a = Some x ->
                   exists y, ps_actions s1 !! a = Some y /\ act_icon y = Some i)).
  { destruct (py_path rs (command_path wb tb action ++ [JStr "icon"]))
      as [[| | |i| |]|[]]; try discriminate.
    - destruct (String.eqb_spec i "") as [E|E]; cbn [negb] in Hicon.
      + injection Hicon as <-. split; [apply text_kept_at_refl|].
        intros i' [= <-] Hne. contradiction.
      + split.
        * pose proof (keeps_text_setIcon a a i s3) as K. now rewrite Hicon in K.
        * intros i' [= <-] _ x Hx.
          unfold setIcon, update_action, modify in Hicon. injection Hicon as <-.
          cbn [ps_actions]. rewrite lookup_alter_eq, Hx. cbn.
          eexists. split; reflexivity.
    - injection Hicon as <-. split; [apply text_kept_at_refl|discriminate]. }
  destruct K4 as (K4 & I4).
  destruct (K3 action2 H2) as (action3 & H3 & T3).
  destruct (K4 action3 H3) as (action1 & H1 & T1).
  exists action1. split; [exact H1|].
  destruct T2 as (Tyes & Tno).
  split; [intros t Ht; rewrite T1, T3; now apply Tyes|].
  split; [intros Ht; rewrite T1, T3; now apply Tno|].
  intros i Hi Hne. destruct (I4 i Hi Hne action3 H3) as (y & Hy & Iy).
  rewrite H1 in Hy. now injection Hy as <-.
Qed.

(** X11. The overrides of the JSON structure show on the ribbon button.
    When a button is added, its ribbon button carries the button's own
    default action; its text is the [text] entry of the command when that
    entry is a string, and the text the action had when the entry is
    missing; its icon is the one named by the [icon] entry when that entry
    is a non-empty string.  The action itself carries the same text. *)
Theorem overrides_are_shown rs h wb tb (button : ToolButton) (s s' : PanelState)
  (a : nat) (action : Action) :
  btn_defaultAction button = Some a ->
  ps_actions s !! a = Some action ->
  tryButton rs h wb tb button s = (s', Ok tt) ->
  exists rb action',
    ps_buttons s' = ps_buttons s ++ [rb]
    /\ rb_defaultAction rb = a
    /\ ps_actions s' !! a = Some action'
    /\ rb_text rb = act_text action'
    /\ (forall t, py_path rs (command_path wb tb action ++ [JStr "text"]) = Ok (JStr t) ->
        rb_text rb = t)
    /\ (py_path rs (command_path wb tb action ++ [JStr "text"]) = Raise KeyError ->
        rb_text rb = act_text action)
    /\ (forall i, py_path rs (command_path wb tb action ++ [JStr "icon"]) = Ok (JStr i) ->
        i <> "" -> rb_icon rb = Some i).
Proof.
  intros D Ha H.
  destruct (tryButton_result _ _ _ _ _ _ _ _ H) as (_ & a' & action' & size & D' & Ha' & Hb).
  rewrite D in D'. injection D' as <-.
  destruct (tryButton_after_prepare _ _ _ _ _ _ _ H) as (s1 & a1 & Hp & Hacts).
  destruct (prepareAction_ok _ _ _ _ _ _ _ _ Hp) as (D1 & _ & _).
  rewrite D in D1. injection D1 as <-.
  destruct (prepareAction_overrides _ _ _ _ _ _ _ _ _ Hp Ha)
    as (action1 & H1 & Tyes & Tno & Iyes).
  rewrite <- Hacts, Ha' in H1. injection H1 as <-.
  eexists. exists action'. split; [exact Hb|]. cbn.
  repeat split; auto.
Qed.

Lemma overrides_are_shown_witness :
  let h := Sample.installation_with Sample.renaming in
  let s := Sample.empty_panel Sample.renaming in
  let s' := fst (tryButton Sample.renaming h "PartWorkbench" "File" Sample.btn_new s) in
  btn_defaultAction Sample.btn_new = Some 0
  /\ ps_actions s !! 0 = Some Sample.act_new
  /\ tryButton Sample.renaming h "PartWorkbench" "File" Sample.btn_new s = (s', Ok tt)
  /\ map rb_text (ps_buttons s') = ["Document"].
Proof.
  cbn zeta.
  assert (H1 : btn_defaultAction Sample.btn_new = Some 0) by reflexivity.
  assert (H2 : ps_actions (Sample.empty_panel Sample.renaming) !! 0
               = Some Sample.act_new) by (vm_compute; reflexivity).
  assert (H3 : tryButton Sample.renaming (Sample.installation_with Sample.renaming)
                 "PartWorkbench" "File" Sample.btn_new
                 (Sample.empty_panel Sample.renaming)
               = (fst (tryButton Sample.renaming
                         (Sample.installation_with Sample.renaming)
                         "PartWorkbench" "File" Sample.btn_new
                         (Sample.empty_panel Sample.renaming)), Ok tt))
    by (vm_compute; reflexivity).
  destruct (overrides_are_shown _ _ _ _ _ _ _ _ _ H1 H2 H3)
    as (rb & action' & Hb & _ & _ & _ & Ht & _).
  split; [exact H1|]. split; [exact H2|]. split; [exact H3|].
  rewrite Hb. cbn [map app ps_buttons Sample.empty_panel].
  rewrite (Ht "Document"); [reflexivity|vm_compute; reflexivity].
Defined.

(** ** The custom tool bars *)

(** X12. [List_ReturnCustomToolbars] lists exactly the pairs of a name
    and a workbench such that the workbench is one of the host's, is not
    called ["NoneWorkbench"], and has in its [Toolbar] parameters a group
    whose [Name] is that name.  The test on the empty name in the source
    excludes nothing. *)
Theorem custom_toolbars_listed (h : Host) (n w : string) :
  In (n, w) (List_ReturnCustomToolbars h)
  <-> (exists wb, In wb (workbenches h) /\ wb_name wb = w)
      /\ w <> "NoneWorkbench"
      /\ exists Group,
           In Group (GetGroups h (customToolbarPath w))
           /\ n = GetString h (customToolbarPath w ++ "/" ++ Group) "Name".
Proof.
  unfold List_ReturnCustomToolbars. rewrite in_flat_map. split.
  - intros (wb & Hwb & Hin). rewrite orb_true_r in Hin.
    destruct (String.eqb_spec (wb_name wb) "NoneWorkbench") as [E|E];
      cbn [negb] in Hin; [destruct Hin|].
    apply in_map_iff in Hin as (Group & [= <- <-] & HG).
    split; [now exists wb|]. split; [exact E|]. now exists Group.
  - intros ((wb & Hwb & <-) & Hne & Group & HG & ->).
    exists wb. split; [exact Hwb|]. rewrite orb_true_r.
    destruct (String.eqb_spec (wb_name wb) "NoneWorkbench") as [E|E];
      [contradiction|]. cbn [negb].
    apply in_map_iff. now exists Group.
Qed.

Lemma findChild_first (h : Host) (name : string) (toolbar : ToolBar) :
  findChild h name = Some toolbar ->
  In toolbar (toolbars h) /\ objectName toolbar = name.
Proof.
  unfold findChild, findChildren. intros H.
  destruct (List.filter _ (toolbars h)) as [|tb l] eqn:E; [discriminate|].
  injection H as ->.
  assert (Hin : In toolbar (List.filter
                   (fun tb => String.eqb (objectName tb) name) (toolbars h)))
    by (rewrite E; now left).
  apply filter_In in Hin as (Hin & Hn). apply String.eqb_eq in Hn. now split.
Qed.

(** X13. Every button [List_AddCustomToolbarsToWorkbench] returns is a
    tool button of a host tool bar that the custom panel names, in its
    [commands] entry of [customToolbars], as the original tool bar of a
    command; and the button's text is the menu text of a host command, the
    one the panel names.  So a panel without such an entry gets no
    button. *)
Theorem custom_buttons_come_from_named_toolbars rs h (acts : gmap nat Action)
  (wb tb : string) (b : ToolButton) :
  In b (List_AddCustomToolbarsToWorkbench rs h acts wb tb) ->
  collected_for rs h acts wb tb b
  /\ exists toolbar, In toolbar (toolbars h) /\ In b (tb_buttons toolbar).
Proof.
  intros Hin.
  pose proof (grown_by_refl (collected_for rs h acts wb tb)) as Hr.
  pose proof (grown_by_trans (collected_for rs h acts wb tb)) as Ht.
  assert (Hc : collected_for rs h acts wb tb b).
  { unfold List_AddCustomToolbarsToWorkbench in Hin.
    match type of Hin with
    | In b (fst (?m [])) =>
        assert (K : keeps (grown_by (collected_for rs h acts wb tb)) m)
    end.
    2:{ destruct (K [] b Hin) as [[]|?]; assumption. }
    clear Hin.
    apply (keeps_catch_all _ Ht); [|apply (keeps_ret _ Hr)].
    intros l. unfold bind at 1, lift at 1.
    destruct (Commands <~ py_path rs [JStr "customToolbars"; JStr wb; JStr tb;
                                      JStr "commands"] ;; py_items Commands)
      as [kv|e'] eqn:Ekv; [|apply Hr].
    revert l. apply (keeps_for_each_in _ Hr Ht). intros [key value] Hkv.
    apply (keeps_for_each_in _ Hr Ht). intros c Hcmd. cbn [fst snd].
    destruct (String.eqb_spec (cmd_menuText c) key) as [Ekey|_];
      [|apply (keeps_ret _ Hr)].
    apply (keeps_catch_all _ Ht); [|apply (keeps_ret _ Hr)].
    destruct value as [| | |name| |]; try apply (keeps_raise _ Hr).
    destruct (findChild h name) as [toolbar|] eqn:Ef; [|apply (keeps_raise _ Hr)].
    apply (keeps_for_each_in _ Hr Ht). intros Child HChild.
    destruct (String.eqb_spec (button_text h acts Child) (cmd_menuText c)) as [Et|_];
      [|apply (keeps_ret _ Hr)].
    intros l b' Hb'. unfold modify in Hb'. cbn [fst] in Hb'.
    apply in_app_or in Hb' as [Hb'|[<-|[]]]; [now left|right].
    exists kv, key, name, toolbar, c.
    repeat (split; [first [assumption|congruence]|]). congruence. }
  split; [exact Hc|].
  destruct Hc as (kv & key & name & toolbar & c & _ & _ & Hf & Hb & _).
  exists toolbar. split; [now apply (findChild_first h name)|exact Hb].
Qed.

Lemma custom_buttons_come_from_named_toolbars_witness :
  In Sample.btn_fit
    (List_AddCustomToolbarsToWorkbench Sample.customised Sample.installation
       (actions Sample.installation) "PartWorkbench" "Tools_custom")
  /\ (collected_for Sample.customised Sample.installation
        (actions Sample.installation) "PartWorkbench" "Tools_custom" Sample.btn_fit
      /\ exists toolbar,
           In toolbar (toolbars Sample.installation)
           /\ In Sample.btn_fit (tb_buttons toolbar)).
Proof.
  assert (H : In Sample.btn_fit
                (List_AddCustomToolbarsToWorkbench Sample.customised Sample.installation
                   (actions Sample.installation) "PartWorkbench" "Tools_custom"))
    by (vm_compute; left; reflexivity).
  exact (conj H (custom_buttons_come_from_named_toolbars _ _ _ _ _ _ H)).
Defined.

(** ** The order of the tool bars and of the buttons *)

Lemma insert_by_sorted {A} (key : A -> Z) (x : A) (l : list A) :
  StronglySorted (fun a b => (key a <= key b)%Z) l ->
  StronglySorted (fun a b => (key a <= key b)%Z) (Py.insert_by key x l).
Proof.
  induction 1 as [|y l Hl IH Hy]; cbn [Py.insert_by].
  - constructor; constructor.
  - destruct (Z.leb_spec (key x) (key y)) as [Hxy|Hxy].
    + constructor; [now constructor|]. constructor; [exact Hxy|].
      eapply Forall_impl; [exact Hy|]. cbn. intros; lia.
    + constructor; [exact IH|].
      rewrite (insert_by_perm key x l). constructor; [lia|exact Hy].
Qed.

Lemma sort_by_sorted {A} (key : A -> Z) (l : list A) :
  StronglySorted (fun a b => (key a <= key b)%Z) (Py.sort_by key l).
Proof.
  unfold Py.sort_by. induction l as [|x l IH]; cbn [fold_right].
  - constructor.
  - now apply insert_by_sorted.
Qed.

Lemma insert_by_stable {A} (key : A -> Z) (k : Z) (x : A) (l : list A) :
  List.filter (fun a => (key a =? k)%Z) (Py.insert_by key x l)
  = List.filter (fun a => (key a =? k)%Z) (x :: l).
Proof.
  induction l as [|y l IH]; cbn [Py.insert_by]; [reflexivity|].
  destruct (Z.leb_spec (key x) (key y)) as [Hxy|Hxy]; [reflexivity|].
  cbn [List.filter] in *. rewrite IH.
  destruct (Z.eqb_spec (key y) k) as [Ey|Ey]; [|reflexivity].
  destruct (Z.eqb_spec (key x) k) as [Ex|Ex]; [lia|reflexivity].
Qed.

Lemma sort_by_stable {A} (key : A -> Z) (k : Z) (l : list A) :
  List.filter (fun a => (key a =? k)%Z) (Py.sort_by key l)
  = List.filter (fun a => (key a =? k)%Z) l.
Proof.
  unfold Py.sort_by. induction l as [|x l IH]; cbn [fold_right]; [reflexivity|].
  rewrite insert_by_stable. cbn [List.filter]. now rewrite IH.
Qed.

Lemma keyed_keys {A} (key : A -> result Z) (l : list A) (kl : list (Z * A)) :
  keyed key l = Ok kl -> Forall (fun p => key (snd p) = Ok (fst p)) kl.
Proof.
  revert kl. induction l as [|x l IH]; cbn; intros kl.
  - intros [= <-]. constructor.
  - destruct (key x) as [k|] eqn:E; [|discriminate]. cbn.
    destruct (keyed key l) as [r|]; [|discriminate]. cbn.
    intros [= <-]. constructor; [exact E|now apply IH].
Qed.

Lemma sorted_values {A} (key : A -> result Z) (kl : list (Z * A)) :
  Forall (fun p => key (snd p) = Ok (fst p)) kl ->
  StronglySorted (fun a b => (fst a <= fst b)%Z) kl ->
  StronglySorted (rank_le key) (map snd kl).
Proof.
  intros Hk Hs. induction Hs as [|p kl Hs IH Hp]; cbn [map]; [constructor|].
  apply Forall_cons_iff in Hk as [Hkp Hk].
  constructor; [now apply IH|].
  apply Forall_map. rewrite List.Forall_forall in Hk, Hp. apply List.Forall_forall.
  intros q Hq. exists (fst p), (fst q).
  split; [exact Hkp|]. split; [now apply Hk|now apply Hp].
Qed.

Lemma ranked_values {A} (key : A -> result Z) (k : Z) (kl : list (Z * A)) :
  Forall (fun p => key (snd p) = Ok (fst p)) kl ->
  List.filter (has_rank key k) (map snd kl)
  = map snd (List.filter (fun p => (fst p =? k)%Z) kl).
Proof.
  induction 1 as [|p kl Hp Hk IH]; cbn [map List.filter]; [reflexivity|].
  unfold has_rank at 1. rewrite Hp, IH.
  now destruct (fst p =? k)%Z.
Qed.

(** What [l.sort(key=key)] gives when no key raises: the same elements,
    in the order of their keys, those of equal keys in the order they
    had. *)
Lemma py_sort_spec {A} (key : A -> result Z) (l sorted : list A) :
  py_sort key l = Ok sorted ->
  Permutation sorted l
  /\ StronglySorted (rank_le key) sorted
  /\ forall k, List.filter (has_rank key k) sorted = List.filter (has_rank key k) l.
Proof.
  intros H. split; [now apply (py_sort_perm key)|].
  unfold py_sort in H. destruct (keyed key l) as [kl|] eqn:E; [|discriminate].
  cbn in H. injection H as <-.
  pose proof (keyed_keys _ _ _ E) as Hk.
  assert (Hk' : Forall (fun p => key (snd p) = Ok (fst p)) (Py.sort_by fst kl)).
  { rewrite List.Forall_forall in Hk |- *. intros p Hp. apply Hk.
    eapply Permutation_in; [apply sort_by_perm|exact Hp]. }
  split.
  - apply sorted_values; [exact Hk'|apply sort_by_sorted].
  - intros k. rewrite (ranked_values key k _ Hk'), sort_by_stable.
    rewrite <- (ranked_values key k _ Hk). now rewrite (keyed_values _ _ _ E).
Qed.

Lemma keyed_total {A} (key : A -> result Z) (l : list A) :
  (forall x, exists k, key x = Ok k) -> exists kl, keyed key l = Ok kl.
Proof.
  intros Hk. induction l as [|x l [kl IH]]; cbn; [now eexists|].
  destruct (Hk x) as [k ->]. rewrite IH. cbn. now eexists.
Qed.

Lemma SortToolbars_total (ord : list JSON) (x : JSON) :
  exists k, SortToolbars (JArr ord) x = Ok k.
Proof.
  unfold SortToolbars, position_in, py_index.
  destruct (py_eq x (JStr "")); [now eexists|].
  destruct (list_index x ord); now eexists.
Qed.

(** X14. When the structure gives a list as the order of the tool bars of
    the workbench, the sort of [buildPanels] succeeds whatever the names
    are: the list of tool bars keeps its elements, comes out in the order
    of the keys of [SortToolbars] (the empty name first, then the names of
    the order list by their first position in it, then the others), and
    the tool bars of one key, so those the order list does not name, keep
    the order they had. *)
Theorem toolbars_sorted_by_order (rs : JSON) (wb : string) (ord l : list JSON) :
  py_path rs [JStr "workbenches"; JStr wb; JStr "toolbars"; JStr "order"]
  = Ok (JArr ord) ->
  Permutation (sortToolbars rs wb l) l
  /\ StronglySorted (rank_le (SortToolbars (JArr ord))) (sortToolbars rs wb l)
  /\ forall k, List.filter (has_rank (SortToolbars (JArr ord)) k) (sortToolbars rs wb l)
               = List.filter (has_rank (SortToolbars (JArr ord)) k) l.
Proof.
  intros H. unfold sortToolbars. rewrite H. cbn [rbind].
  destruct (py_sort (SortToolbars (JArr ord)) l) as [sorted|e] eqn:E.
  - now apply py_sort_spec.
  - exfalso. unfold py_sort in E.
    destruct (keyed_total (SortToolbars (JArr ord)) l (SortToolbars_total ord))
      as [kl Hkl].
    rewrite Hkl in E. discriminate.
Qed.

Lemma toolbars_sorted_by_order_witness :
  let rs := JObj [("workbenches",
                   JObj [("PartWorkbench",
                          JObj [("toolbars",
                                 JObj [("order", JArr [JStr "View"; JStr "File"])])])])] in
  let l := [JStr "File"; JStr "Extra"; JStr "View"; JStr "Edit"] in
  sortToolbars rs "PartWorkbench" l = [JStr "View"; JStr "File"; JStr "Extra"; JStr "Edit"]
  /\ (Permutation (sortToolbars rs "PartWorkbench" l) l
      /\ StronglySorted (rank_le (SortToolbars (JArr [JStr "View"; JStr "File"])))
                        (sortToolbars rs "PartWorkbench" l)
      /\ forall k, List.filter (has_rank (SortToolbars (JArr [JStr "View"; JStr "File"])) k)
                               (sortToolbars rs "PartWorkbench" l)
                   = List.filter (has_rank (SortToolbars (JArr [JStr "View"; JStr "File"])) k) l).
Proof.
  intros rs l. split; [vm_compute; reflexivity|].
  apply (toolbars_sorted_by_order rs "PartWorkbench" [JStr "View"; JStr "File"] l).
  vm_compute. reflexivity.
Defined.

Lemma getitem_contains (v x : JSON) (k : string) :
  py_getitem v (JStr k) = Ok x -> py_contains v (JStr k) = Ok true.
Proof.
  destruct v as [| | | |l|kv]; cbn; try discriminate.
  now destruct (assoc k kv).
Qed.

(** X15. The buttons of a panel keep their elements when they are put in
    order; and when the structure gives an order for the tool bar, they
    come out in the order of the keys of [sortButtons] (a button without
    text first, then by the first position of the action's text in the
    order, then the others), the buttons of one key in the order they
    had. *)
Theorem buttons_sorted_by_order rs h wb tb (acts : gmap nat Action)
  (l sorted : list ToolButton) (positionsList : JSON) :
  orderButtons rs h wb tb acts l = Ok sorted ->
  py_path rs [JStr "workbenches"; JStr wb; JStr "toolbars"; JStr tb; JStr "order"]
  = Ok positionsList ->
  Permutation sorted l
  /\ StronglySorted (rank_le (sortButtons h acts positionsList)) sorted
  /\ forall k, List.filter (has_rank (sortButtons h acts positionsList) k) sorted
               = List.filter (has_rank (sortButtons h acts positionsList) k) l.
Proof.
  intros H Hp. apply py_sort_spec.
  unfold orderButtons in H. cbn [py_path] in *. unfold rbind in *.
  destruct (py_getitem rs (JStr "workbenches")) as [wbs|] eqn:E1; [|discriminate].
  destruct (py_getitem wbs (JStr wb)) as [w|] eqn:E2; [|discriminate].
  rewrite (getitem_contains _ _ _ E2) in H.
  destruct (py_getitem w (JStr "toolbars")) as [tbs|] eqn:E3; [|discriminate].
  destruct (py_getitem tbs (JStr tb)) as [t|] eqn:E4; [|discriminate].
  rewrite (getitem_contains _ _ _ E4) in H.
  destruct (py_getitem t (JStr "order")) as [o|] eqn:E5; [|discriminate].
  rewrite (getitem_contains _ _ _ E5) in H.
  injection Hp as <-. exact H.
Qed.

Lemma buttons_sorted_by_order_witness :
  orderButtons sample_ordered Sample.installation "PartWorkbench" "File"
    (actions Sample.installation) [Sample.btn_new; Sample.btn_open; Sample.btn_new]
  = Ok [Sample.btn_open; Sample.btn_new; Sample.btn_new]
  /\ (Permutation [Sample.btn_open; Sample.btn_new; Sample.btn_new]
                  [Sample.btn_new; Sample.btn_open; Sample.btn_new]
      /\ StronglySorted
           (rank_le (sortButtons Sample.installation (actions Sample.installation)
                       (JArr [JStr "Open"; JStr "New"])))
           [Sample.btn_open; Sample.btn_new; Sample.btn_new]
      /\ forall k,
           List.filter (has_rank (sortButtons Sample.installation
                                    (actions Sample.installation)
                                    (JArr [JStr "Open"; JStr "New"])) k)
                       [Sample.btn_open; Sample.btn_new; Sample.btn_new]
           = List.filter (has_rank (sortButtons Sample.installation
                                      (actions Sample.installation)
                                      (JArr [JStr "Open"; JStr "New"])) k)
                         [Sample.btn_new; Sample.btn_open; Sample.btn_new]).
Proof.
  assert (H1 : orderButtons sample_ordered Sample.installation "PartWorkbench" "File"
                 (actions Sample.installation)
                 [Sample.btn_new; Sample.btn_open; Sample.btn_new]
               = Ok [Sample.btn_open; Sample.btn_new; Sample.btn_new])
    by (vm_compute; reflexivity).
  assert (H2 : py_path sample_ordered
                 [JStr "workbenches"; JStr "PartWorkbench"; JStr "toolbars";
                  JStr "File"; JStr "order"]
               = Ok (JArr [JStr "Open"; JStr "New"]))
    by (vm_compute; reflexivity).
  exact (conj H1 (buttons_sorted_by_order _ _ _ _ _ _ _ _ H1 H2)).
Defined.

(** ** The list of the tool bars *)

(** X16. [buildPanels] invents no tool bar: every entry of the list the
    panel loop runs over is a tool bar of the active workbench, the name of
    a custom tool bar that [List_ReturnCustomToolbars] gives for this
    workbench, or a custom panel of the structure for this workbench. *)
Theorem ListToolbars_sources (rs : JSON) (h : Host) (t : JSON) :
  In t (ListToolbars rs h) ->
  (exists n, t = JStr n /\ In n (listToolbars (active h)))
  \/ (exists n, t = JStr n
                /\ In (n, wb_name (active h)) (List_ReturnCustomToolbars h))
  \/ custom_panel_of rs (wb_name (active h)) t.
Proof.
  unfold ListToolbars. cbv zeta. intros Hin.
  apply (Permutation_in _ (sortToolbars_perm _ _ _)) in Hin.
  apply (addCustomPanels_grown rs (wb_name (active h))) in Hin as [Hin|Hin];
    [|now right; right].
  apply in_app_or in Hin as [Hin|Hin].
  - left. apply in_map_iff in Hin as (n & <- & Hn). now exists n.
  - right; left. apply in_map_iff in Hin as ([n w] & <- & Hn).
    apply filter_In in Hn as (Hn & Hw). cbn [fst snd] in *.
    apply String.eqb_eq in Hw as ->. now exists n.
Qed.

Lemma ListToolbars_sources_witness :
  In (JStr "Tools_custom") (ListToolbars Sample.customised Sample.installation)
  /\ ((exists n, JStr "Tools_custom" = JStr n
                 /\ In n (listToolbars (active Sample.installation)))
      \/ (exists n, JStr "Tools_custom" = JStr n
                    /\ In (n, wb_name (active Sample.installation))
                          (List_ReturnCustomToolbars Sample.installation))
      \/ custom_panel_of Sample.customised (wb_name (active Sample.installation))
                         (JStr "Tools_custom")).
Proof.
  assert (H : In (JStr "Tools_custom")
                 (ListToolbars Sample.customised Sample.installation))
    by (vm_compute; right; right; left; reflexivity).
  exact (conj H (ListToolbars_sources _ _ _ H)).
Defined.

(** ** Loading a script *)

Lemma endswith_after_slash (suf a b : string) :
  Py.contains "/" suf = false ->
  Py.endswith suf (a ++ "/" ++ b) = Py.endswith suf b.
Proof.
  intros Hs. change ("/" ++ b)%string with (String "/" b).
  assert (Hno : forall a' : string, suf <> (a' ++ String "/" b)%string).
  { intros a' ->. clear -Hs. induction a' as [|c a' IH].
    - cbn in Hs. discriminate.
    - change (String c a' ++ String "/" b)%string
        with (String c (a' ++ String "/" b)) in Hs.
      cbn [Py.contains] in Hs. apply orb_false_iff in Hs as [_ Hs]. exact (IH Hs). }
  induction a as [|c a IH].
  - change ("" ++ String "/" b)%string with (String "/" b). cbn [Py.endswith].
    destruct (String.eqb_spec suf (String "/" b)) as [E|_]; [|reflexivity].
    exfalso. exact (Hno ""%string E).
  - change (String c a ++ String "/" b)%string with (String c (a ++ String "/" b)).
    cbn [Py.endswith]. rewrite IH.
    destruct (String.eqb_spec suf (String c (a ++ String "/" b))) as [E|_];
      [|reflexivity].
    exfalso. exact (Hno (String c a) E).
Qed.

Lemma endswith_slash_Scripts (a : string) : Py.endswith "/" (a ++ "Scripts") = false.
Proof.
  induction a as [|c a IH]; [reflexivity|].
  change (String c a ++ "Scripts")%string with (String c (a ++ "Scripts")).
  cbn [Py.endswith]. rewrite IH, orb_false_r.
  apply String.eqb_neq. intros [= _ H]. destruct a; discriminate.
Qed.

Lemma pathScripts_is_a_file_name (h : Host) :
  String.eqb (pathScripts h) "" || Py.endswith "/" (pathScripts h) = false.
Proof.
  assert (Hne : forall a : string, String.eqb (a ++ "Scripts") "" = false).
  { intros a. apply String.eqb_neq. destruct a; discriminate. }
  unfold pathScripts, Py.path_join.
  change (Py.startswith "/" "Scripts") with false. cbv iota.
  destruct (String.eqb (module_dir h) "" || Py.endswith "/" (module_dir h)).
  - now rewrite Hne, endswith_slash_Scripts.
  - replace (module_dir h ++ "/" ++ "Scripts")%string
      with ((module_dir h ++ "/") ++ "Scripts")%string
      by (induction (module_dir h) as [|c a IH]; [reflexivity|];
          change (String c a ++ "/")%string with (String c (a ++ "/"));
          change (String c (a ++ "/") ++ "Scripts")%string
            with (String c ((a ++ "/") ++ "Scripts"));
          change (String c a ++ "/" ++ "Scripts")%string
            with (String c (a ++ "/" ++ "Scripts"));
          now rewrite IH).
    now rewrite Hne, endswith_slash_Scripts.
Qed.

(** X17. On a host with POSIX paths ([os.path] is [posixpath], which is
    what [Py.path_join] embeds): [LoadMarcoFreeCAD] returns normally and
    asks the host to load at most one file; it does so exactly when the
    main window is loaded and the script name itself ends in [.py]; the
    file is the name under the directory [Scripts] of the module, joined
    with a slash, or the name itself when it starts with a slash. *)
Theorem LoadMarcoFreeCAD_loads_python_scripts (scriptName : string) (st : State) :
  LoadMarcoFreeCAD scriptName st
  = (if MainWindowLoaded (menu st) && Py.endswith ".py" scriptName
     then log_call
            (Call_loadFile
               (if Py.startswith "/" scriptName then scriptName
                else pathScripts (host st) ++ "/" ++ scriptName)) st
     else st,
     Ok tt).
Proof.
  unfold LoadMarcoFreeCAD. destruct (MainWindowLoaded (menu st)); [|reflexivity].
  cbn [andb]. unfold Py.path_join at 1 2.
  destruct (Py.startswith "/" scriptName);
    [now destruct (Py.endswith ".py" scriptName)|].
  rewrite pathScripts_is_a_file_name.
  rewrite (endswith_after_slash ".py" (pathScripts (host st)) scriptName)
    by reflexivity.
  now destruct (Py.endswith ".py" scriptName).
Qed.

(** ** The quick access buttons *)

Lemma quickAccess_loop_ok (h : Host) (names : list JSON) (m m' : ModernMenu) :
  for_each names (addQuickAccess h) m = (m', Ok tt) ->
  exists new, Forall2 (quick_action h) names new
              /\ quickAccess m' = quickAccess m ++ new.
Proof.
  revert m. induction names as [|name names IH]; intros m; cbn [for_each].
  - intros [= <-]. exists []. split; [constructor|now rewrite app_nil_r].
  - intros H. apply bind_inv in H as [(e & _ & [=]) | (m1 & [] & Hq & H)].
    apply IH in H as (new & Hnew & Hm').
    unfold addQuickAccess in Hq.
    destruct name as [| | |n| |]; try discriminate.
    destruct (Command_get h n) as [c|] eqn:Ec; [|discriminate].
    destruct (cmd_actions c) as [|a acts] eqn:Ea; [discriminate|].
    injection Hq as <-. cbn [quickAccess set_quickAccess] in Hm'.
    exists (a :: new). split.
    + constructor; [|exact Hnew]. exists n, c. now rewrite Ea.
    + now rewrite Hm', <- app_assoc.
Qed.

Lemma keeps_quick_addWorkbenchTab rs ordered (w : Workbench) :
  keeps quick_kept (addWorkbenchTab rs ordered w).
Proof.
  intros m. unfold addWorkbenchTab, quick_kept.
  destruct (String.eqb (wb_name w) ordered); [|reflexivity].
  unfold bind at 1.
  destruct (String.eqb (wb_name w) ""); [reflexivity|].
  unfold lift.
  destruct (ig <~ py_getitem rs (JStr "ignoredWorkbenches");;
            py_contains ig (JStr (MenuText w))) as [[|]|e]; try reflexivity.
  unfold bind, modify, addCategory. cbn [categories set_isWbLoaded set_wbNameMapping].
  now destruct (assoc (MenuText w) (categories m)).
Qed.

(** X18. When [createModernMenu] returns, the quick access tool bar has
    got one button for every entry of [quickAccessCommands], in the order
    of the entries and behind the buttons it had; each entry is the name
    of a command of the host and the default action of its button is the
    first action of that command.  The tabs add no quick access button. *)
Theorem quick_access_buttons (st st' : State) :
  createModernMenu st = (st', Ok tt) ->
  exists names new,
    (q <~ py_getitem (ribbonStructure (menu st)) (JStr "quickAccessCommands") ;;
     py_iter q) = Ok names
    /\ Forall2 (quick_action (host st)) names new
    /\ quickAccess (menu st') = quickAccess (menu st) ++ new.
Proof.
  unfold createModernMenu, on_menu.
  destruct (bind _ _ (menu st)) as [mm r] eqn:E.
  intros [= <- ->]. cbn [menu with_menu].
  apply bind_inv in E as [(e & _ & [=]) | (s0 & names & Hn & E)].
  apply bind_inv in E as [(e & _ & [=]) | (s1 & [] & Hq & E)].
  unfold lift in Hn.
  destruct (q <~ py_getitem (ribbonStructure (menu st)) (JStr "quickAccessCommands");;
            py_iter q) as [names'|] eqn:En; [|discriminate].
  injection Hn as <- <-.
  apply quickAccess_loop_ok in Hq as (new & Hnew & Hs1).
  exists names', new. split; [reflexivity|]. split; [exact Hnew|].
  rewrite <- Hs1.
  assert (Hr : forall m, quick_kept m m) by reflexivity.
  assert (Ht : forall m1 m2 m3 : ModernMenu,
             quick_kept m1 m2 -> quick_kept m2 m3 -> quick_kept m1 m3)
    by (unfold quick_kept; congruence).
  match type of E with
  | ?loop s1 = _ =>
      assert (K : keeps quick_kept loop);
      [|specialize (K s1); rewrite E in K; exact K]
  end.
  apply (keeps_for_each _ Hr Ht). intros ordered.
  apply (keeps_for_each _ Hr Ht). apply keeps_quick_addWorkbenchTab.
Qed.

Lemma quick_access_buttons_witness :
  snd (createModernMenu sample_quick) = Ok tt
  /\ quickAccess (menu (fst (createModernMenu sample_quick))) = [1; 0]
  /\ exists names new,
       (q <~ py_getitem (ribbonStructure (menu sample_quick))
               (JStr "quickAccessCommands") ;;
        py_iter q) = Ok names
       /\ Forall2 (quick_action (host sample_quick)) names new
       /\ quickAccess (menu (fst (createModernMenu sample_quick)))
          = quickAccess (menu sample_quick) ++ new.
Proof.
  assert (H : snd (createModernMenu sample_quick) = Ok tt)
    by (vm_compute; reflexivity).
  split; [exact H|]. split; [vm_compute; reflexivity|].
  apply (quick_access_buttons sample_quick (fst (createModernMenu sample_quick))).
  rewrite <- H. now destruct (createModernMenu sample_quick).
Defined.

(** ** The current tab *)

(** X19. [updateCurrentTab] settles the tab bar: a second call right
    after it changes nothing.  When the active workbench has no tab, the
    current tab stays where it was; and whenever the current index has
    changed, the signals are connected afterwards. *)
Theorem updateCurrentTab_settles (st : State) :
  let st' := fst (updateCurrentTab st) in
  updateCurrentTab st' = (st', Ok tt)
  /\ (~ In (MenuText (active (host st))) (tabs (menu st)) ->
      currentIndex (menu st') = currentIndex (menu st))
  /\ (currentIndex (menu st') <> currentIndex (menu st) ->
      signalsConnected (menu st') = true).
Proof.
  destruct st as [h m t c].
  destruct m as [rs wm il ml ts ci cs qa sc].
  unfold updateCurrentTab, indexOf.
  cbn [host menu tabs currentIndex].
  destruct (index_of (MenuText (active h)) ts) as [i|] eqn:Ei.
  - destruct (Z.eqb_spec (Z.of_nat i) ci) as [E|E]; cbn [negb fst].
    + cbn [host menu tabs currentIndex]. rewrite Ei.
      destruct (Z.eqb_spec (Z.of_nat i) ci) as [_|E']; [|contradiction].
      cbn [negb]. split; [reflexivity|]. split; [reflexivity|]. intros H. now elim H.
    + unfold bind, disconnectSignals, connectSignals, modify, with_menu, setCurrentIndex.
      cbn [fst snd host menu tabs currentIndex set_signalsConnected set_tabBar
           signalsConnected].
      destruct ((0 <=? Z.of_nat i) && (Z.of_nat i <? Z.of_nat (length ts)))%Z eqn:Er;
        cbn [fst snd host menu tabs currentIndex set_signalsConnected set_tabBar
             signalsConnected ribbonStructure wbNameMapping isWbLoaded
             MainWindowLoaded categories quickAccess timer calls].
      * rewrite Ei, Z.eqb_refl. cbn [negb]. split; [reflexivity|].
        split; [|reflexivity]. intros Hn. exfalso. apply Hn.
        clear -Ei. revert i Ei. induction ts as [|x ts IH]; cbn; [discriminate|].
        intros i. destruct (String.eqb_spec x (MenuText (active h))) as [->|_];
          [now left|].
        destruct (index_of (MenuText (active h)) ts) as [j|]; [|discriminate].
        intros _. right. now apply (IH j).
      * rewrite Ei. destruct (Z.eqb_spec (Z.of_nat i) ci) as [E'|_]; [contradiction|].
        cbn [negb fst snd host menu tabs currentIndex set_signalsConnected set_tabBar
             signalsConnected ribbonStructure wbNameMapping isWbLoaded
             MainWindowLoaded categories quickAccess timer calls].
        rewrite Er.
        cbn [fst snd host menu tabs currentIndex set_signalsConnected set_tabBar
             signalsConnected ribbonStructure wbNameMapping isWbLoaded
             MainWindowLoaded categories quickAccess timer calls].
        split; [reflexivity|]. split; [reflexivity|reflexivity].
  - destruct (Z.eqb_spec (-1) ci) as [E|E]; cbn [negb fst].
    + cbn [host menu tabs currentIndex]. rewrite Ei.
      destruct (Z.eqb_spec (-1) ci) as [_|E']; [|contradiction].
      cbn [negb]. split; [reflexivity|]. split; [reflexivity|]. intros H. now elim H.
    + unfold bind, disconnectSignals, connectSignals, modify, with_menu, setCurrentIndex.
      cbn [fst snd host menu tabs currentIndex set_signalsConnected set_tabBar
           signalsConnected Z.leb Z.compare andb
           ribbonStructure wbNameMapping isWbLoaded
           MainWindowLoaded categories quickAccess timer calls].
      rewrite Ei. destruct (Z.eqb_spec (-1) ci) as [E'|_]; [contradiction|].
      cbn [negb fst snd host menu tabs currentIndex set_signalsConnected set_tabBar
           signalsConnected Z.leb Z.compare andb
           ribbonStructure wbNameMapping isWbLoaded
           MainWindowLoaded categories quickAccess timer calls].
      split; [reflexivity|]. split; [reflexivity|reflexivity].
Qed.

Lemma updateCurrentTab_settles_witness :
  ~ In (MenuText (active (host Sample.fresh))) (tabs (menu Sample.fresh))
  /\ currentIndex (menu (fst (updateCurrentTab Sample.fresh)))
     = currentIndex (menu Sample.fresh).
Proof.
  assert (H : ~ In (MenuText (active (host Sample.fresh))) (tabs (menu Sample.fresh)))
    by (vm_compute; tauto).
  exact (conj H (proj1 (proj2 (updateCurrentTab_settles Sample.fresh)) H)).
Defined.

(** ** What following the host leaves alone *)

Lemma stays_inside_trans (s1 s2 s3 : State) :
  stays_inside s1 s2 -> stays_inside s2 s3 -> stays_inside s1 s3.
Proof.
  unfold stays_inside.
  intros (A1 & A2 & A3 & A4 & A5 & A6 & A7 & A8) (B1 & B2 & B3 & B4 & B5 & B6 & B7 & B8).
  repeat split; congruence.
Qed.

Lemma updateCurrentTab_inside (st : State) :
  stays_inside st (fst (updateCurrentTab st))
  /\ timer (fst (updateCurrentTab st)) = timer st.
Proof.
  unfold updateCurrentTab, stays_inside.
  destruct (negb _); cbn; [|tauto].
  unfold setCurrentIndex. destruct (_ && _)%bool; cbn; tauto.
Qed.

Lemma hideClassicToolbars_inside (st : State) :
  stays_inside st (fst (hideClassicToolbars st))
  /\ timer (fst (hideClassicToolbars st)) = timer st.
Proof. unfold hideClassicToolbars, modify, stays_inside. cbn. tauto. Qed.

Lemma buildPanels_inside (st : State) :
  stays_inside st (fst (buildPanels st))
  /\ timer (fst (buildPanels st)) = timer st.
Proof.
  unfold buildPanels, stays_inside.
  destruct (isWbLoaded (menu st) !! currentTabName (menu st)) as [[|]|];
    [tauto| |tauto].
  destruct (for_each _ _ _) as [s [[]|e]];
    cbn; unfold addPanels;
    destruct (currentCategory (menu st)); cbn; tauto.
Qed.

(** X20. Following the host stays inside the ribbon: [onWbActivated], with
    all it calls, makes no outside call, activates no workbench, and
    changes neither the workbenches and commands of the host nor the tabs,
    the quick access buttons, [wbNameMapping] or [ribbonStructure]; and it
    leaves the timer alone unless the active workbench is not loaded
    yet. *)
Theorem onWbActivated_stays_inside (st : State) :
  stays_inside st (fst (onWbActivated st))
  /\ (has_Workbench (active (host st)) = true ->
      timer (fst (onWbActivated st)) = timer st).
Proof.
  assert (Hb : stays_inside st (beforePanels st) /\ timer (beforePanels st) = timer st).
  { unfold beforePanels.
    destruct (updateCurrentTab_inside st) as (I1 & T1).
    destruct (hideClassicToolbars_inside (fst (updateCurrentTab st))) as (I2 & T2).
    split; [exact (stays_inside_trans _ _ _ I1 I2)|congruence]. }
  destruct Hb as (Ib & Tb).
  rewrite onWbActivated_unfold.
  destruct (has_Workbench (active (host st))).
  - destruct (buildPanels_inside (beforePanels st)) as (I & T).
    split; [exact (stays_inside_trans _ _ _ Ib I)|]. intros _. congruence.
  - split; [|discriminate].
    cbn [fst]. unfold stays_inside in *. cbn [with_timer calls host menu]. exact Ib.
Qed.

Lemma onWbActivated_stays_inside_witness :
  has_Workbench (active (host Sample.part_active)) = true
  /\ timer (fst (onWbActivated Sample.part_active)) = timer Sample.part_active.
Proof.
  assert (H : has_Workbench (active (host Sample.part_active)) = true)
    by (vm_compute; reflexivity).
  exact (conj H (proj2 (onWbActivated_stays_inside Sample.part_active) H)).
Defined.

(** ** The key of the current tab *)

Lemma no_ampersand_left (s : string) :
  Py.contains "&" (remove_ampersands s) = false.
Proof.
  induction s as [|c s IH]; [reflexivity|].
  cbn [remove_ampersands].
  destruct (Ascii.eqb c "&") eqn:E; [exact IH|].
  cbn [Py.contains Py.startswith]. rewrite IH, orb_false_r.
  rewrite Ascii.eqb_sym, E. reflexivity.
Qed.

(** X21. The key under which [onUserChangedWorkbench] and [buildPanels]
    look the current tab up never holds an ampersand.  When that key is
    missing from [wbNameMapping], [onUserChangedWorkbench] raises
    [KeyError] before it has called the host or changed anything; when it
    is missing from [isWbLoaded], [buildPanels] raises [KeyError] and
    builds nothing.  So a tab made for a [MenuText] with an ampersand,
    which [createModernMenu] files under the [MenuText] as it is, is not
    found again unless another key happens to be its stripped text. *)
Theorem stripped_tab_name_is_the_key (st : State) :
  Py.contains "&" (currentTabName (menu st)) = false
  /\ (wbNameMapping (menu st) !! currentTabName (menu st) = None ->
      onUserChangedWorkbench st = (st, Raise KeyError))
  /\ (isWbLoaded (menu st) !! currentTabName (menu st) = None ->
      buildPanels st = (st, Raise KeyError)).
Proof.
  split; [|split].
  - unfold currentTabName. rewrite replace_ampersand. apply no_ampersand_left.
  - intros H. unfold onUserChangedWorkbench, bind, gets, raise.
    cbn [fst snd]. now rewrite H.
  - intros H. unfold buildPanels. now rewrite H.
Qed.

Lemma stripped_tab_name_is_the_key_witness :
  tabText (menu sample_ampersand) (currentIndex (menu sample_ampersand)) = "&Part"
  /\ wbNameMapping (menu sample_ampersand) !! "&Part" = Some "PartWorkbench"
  /\ wbNameMapping (menu sample_ampersand) !! currentTabName (menu sample_ampersand)
     = None
  /\ onUserChangedWorkbench sample_ampersand = (sample_ampersand, Raise KeyError).
Proof.
  assert (H : wbNameMapping (menu sample_ampersand)
              !! currentTabName (menu sample_ampersand) = None)
    by (vm_compute; reflexivity).
  split; [vm_compute; reflexivity|]. split; [vm_compute; reflexivity|].
  exact (conj H (proj1 (proj2 (stripped_tab_name_is_the_key sample_ampersand)) H)).
Defined.

(** ** The tool bars of a plain structure *)

(** X22. With a structure that has no custom panels for the active
    workbench and no order of its tool bars, the panel loop of
    [buildPanels] runs over the tool bars of the active workbench in the
    host's order, followed by the custom tool bars the host's parameters
    give for this workbench: the missing keys change nothing. *)
Theorem plain_structure_lists_host_toolbars (rs : JSON) (h : Host) (e e' : exn) :
  py_path rs [JStr "customToolbars"; JStr (wb_name (active h))] = Raise e ->
  py_path rs [JStr "workbenches"; JStr (wb_name (active h)); JStr "toolbars";
              JStr "order"] = Raise e' ->
  ListToolbars rs h
  = map JStr (listToolbars (active h))
    ++ map (fun CustomToolbar => JStr (fst CustomToolbar))
         (List.filter (fun CustomToolbar =>
                         String.eqb (snd CustomToolbar) (wb_name (active h)))
                      (List_ReturnCustomToolbars h)).
Proof.
  intros Hc Ho. unfold ListToolbars. cbv zeta.
  unfold sortToolbars. rewrite Ho. cbn [rbind].
  unfold addCustomPanels, catch_all, bind, lift. rewrite Hc. reflexivity.
Qed.

Lemma plain_structure_lists_host_toolbars_witness :
  py_path Sample.structure
    [JStr "customToolbars"; JStr (wb_name (active Sample.installation))]
  = Raise KeyError
  /\ py_path Sample.structure
       [JStr "workbenches"; JStr (wb_name (active Sample.installation));
        JStr "toolbars"; JStr "order"] = Raise KeyError
  /\ ListToolbars Sample.structure Sample.installation
     = map JStr (listToolbars (active Sample.installation))
       ++ map (fun CustomToolbar => JStr (fst CustomToolbar))
            (List.filter (fun CustomToolbar =>
                            String.eqb (snd CustomToolbar)
                                       (wb_name (active Sample.installation)))
                         (List_ReturnCustomToolbars Sample.installation)).
Proof.
  assert (H1 : py_path Sample.structure
                 [JStr "customToolbars"; JStr (wb_name (active Sample.installation))]
               = Raise KeyError) by (vm_compute; reflexivity).
  assert (H2 : py_path Sample.structure
                 [JStr "workbenches"; JStr (wb_name (active Sample.installation));
                  JStr "toolbars"; JStr "order"] = Raise KeyError)
    by (vm_compute; reflexivity).
  exact (conj H1 (conj H2 (plain_structure_lists_host_toolbars _ _ _ _ H1 H2))).
Defined.

(** ** A build that fails *)

(** X23. The button loop lets no exception out: when the work on one
    panel ends with an exception, it is the one the ordering of the
    buttons raised, before any button was looked at; the panel is there,
    under the name of the tool bar and without buttons, and no action has
    changed. *)
Theorem panel_fails_only_when_ordering rs h (wb name : string)
  (acts acts' : gmap nat Action) (p : Panel) (e : exn) :
  buildPanel rs h wb name acts = ((acts', p), Raise e) ->
  orderButtons rs h wb name acts (allButtons rs h acts wb name) = Raise e
  /\ acts' = acts
  /\ p = {| title := name; buttons := [] |}.
Proof.
  unfold buildPanel.
  destruct (orderButtons _ _ _ _ _ _) as [sorted|e0] eqn:O.
  - destruct (button_loop_spec rs h wb name acts sorted
                {| ps_actions := acts; ps_buttons := []; ps_shadow := [] |})
      as (_ & Hok & _).
    destruct (for_each _ _ _) as [s r]. cbn [snd] in Hok. subst r.
    discriminate.
  - intros [= <- <- <-]. now repeat split.
Qed.

Lemma panel_fails_only_when_ordering_witness :
  buildPanel sample_bad_order Sample.installation "PartWorkbench" "File"
    (actions Sample.installation)
  = ((actions Sample.installation, {| title := "File"; buttons := [] |}),
     Raise AttributeError)
  /\ (orderButtons sample_bad_order Sample.installation "PartWorkbench" "File"
        (actions Sample.installation)
        (allButtons sample_bad_order Sample.installation (actions Sample.installation)
           "PartWorkbench" "File")
      = Raise AttributeError
      /\ actions Sample.installation = actions Sample.installation
      /\ {| title := "File"; buttons := [] |} = {| title := "File"; buttons := [] |}).
Proof.
  assert (H : buildPanel sample_bad_order Sample.installation "PartWorkbench" "File"
                (actions Sample.installation)
              = ((actions Sample.installation, {| title := "File"; buttons := [] |}),
                 Raise AttributeError))
    by (vm_compute; reflexivity).
  exact (conj H (panel_fails_only_when_ordering _ _ _ _ _ _ _ _ H)).
Defined.

(** X24. A build that fails is not marked as done: when [buildPanels]
    raises, [isWbLoaded] is what it was and the current tab is not marked
    as loaded, so the next call goes through the tool bars again, behind
    the panels the failed build has left in the category. *)
Theorem failed_build_is_not_marked (st : State) (e : exn) :
  snd (buildPanels st) = Raise e ->
  let st' := fst (buildPanels st) in
  isWbLoaded (menu st') = isWbLoaded (menu st)
  /\ currentTabName (menu st') = currentTabName (menu st)
  /\ isWbLoaded (menu st') !! currentTabName (menu st') <> Some true.
Proof.
  unfold buildPanels.
  destruct (isWbLoaded (menu st) !! currentTabName (menu st)) as [[|]|] eqn:F;
    cbn [fst snd]; [discriminate| |].
  - destruct (for_each _ _ _) as [s [[]|e']]; cbn [fst snd]; [discriminate|].
    intros _. cbn [menu with_menu with_host].
    rewrite currentTabName_addPanels.
    assert (Hl : isWbLoaded (addPanels (bs_panels s) (menu st)) = isWbLoaded (menu st)).
    { unfold addPanels. now destruct (currentCategory (menu st)). }
    rewrite Hl, F. split; [reflexivity|]. split; [reflexivity|discriminate].
  - intros _. rewrite F. split; [reflexivity|]. split; [reflexivity|discriminate].
Qed.

Lemma failed_build_is_not_marked_witness :
  snd (buildPanels sample_failing) = Raise AttributeError
  /\ isWbLoaded (menu sample_failing) !! currentTabName (menu sample_failing)
     = Some false
  /\ (isWbLoaded (menu (fst (buildPanels sample_failing)))
      = isWbLoaded (menu sample_failing)
      /\ currentTabName (menu (fst (buildPanels sample_failing)))
         = currentTabName (menu sample_failing)
      /\ isWbLoaded (menu (fst (buildPanels sample_failing)))
         !! currentTabName (menu (fst (buildPanels sample_failing))) <> Some true).
Proof.
  assert (H : snd (buildPanels sample_failing) = Raise AttributeError)
    by (vm_compute; reflexivity).
  split; [exact H|]. split; [vm_compute; reflexivity|].
  exact (failed_build_is_not_marked sample_failing AttributeError H).
Defined.
